(** * classpro: the session fan-out core of [backend/socket/classHandlers.js]

    A shallow embedding of the Socket.IO handlers of the classroom relay:
    the in-memory session registry ([inMemoryCache]), the debounced
    write-back ([debounceTimers], [setTimeout]/[clearTimeout]), the selective
    subscription rooms and the group broadcasts, together with the class
    lookup of [models/Class.js].

    Handlers are state transformers that also return the list of effects
    they perform (socket emissions, store calls, error logs).  Every [await]
    of the source is a suspension point: the code after it is a separate
    function that runs when the promise settles, so other events can be
    handled in between, as on the Node event loop.

    The [Class] collection behind the lookup is embedded as well: the schema
    and the [pre('save')] hook of [models/Class.js], which generates the class
    codes, and the routes of [routes/classes.js] that create, update and
    delete classes. *)

From Stdlib Require Import NArith String Ascii List Lia.
From Stdlib Require Strings.Byte.
From stdpp Require Import base decidable option list gmap strings fin_maps fin_sets sorting.

Local Open Scope N_scope.

(** ** Data model *)

(** The value stored per socket in [inMemoryCache] ([sessionData]). *)
Record Session := mkSession {
  studentId : string;
  studentName : string;
  classCode : string;
  socketId : string;
  html : string;
  css : string;
  lastUpdate : N
}.

(** The constants of the handler module. *)
Definition DEBOUNCE_DELAY : N := 3000.
Definition MAX_STUDENTS_PER_CLASS : nat := 60.

(** [24 * 60 * 60 * 1000], the retention window added to [Date.now()]. *)
Definition DAY_MS : N := 24 * 60 * 60 * 1000.

(** ** The class directory ([models/Class.js]) *)

Module ClassDirectory.

(** ASCII model of JavaScript's [String.prototype.toUpperCase]: the letters
    [a]..[z] are mapped to [A]..[Z], every other character is kept.  Class
    codes are six hexadecimal digits, so they are ASCII. *)
Definition upper_ascii (c : ascii) : ascii :=
  let n := N_of_ascii c in
  if (97 <=? n) && (n <=? 122) then ascii_of_N (n - 32) else c.

Fixpoint toUpperCase (s : string) : string :=
  match s with
  | EmptyString => EmptyString
  | String c r => String (upper_ascii c) (toUpperCase r)
  end.

(** A document of the [Class] collection, with the fields the handlers
    read. *)
Record ClassDoc := mkClass {
  className : string;
  code : string;
  isActive : bool
}.

(** The [classCode] path of [classSchema] is declared [uppercase: true]:
    the value assigned to the path goes through this setter. *)
Definition classCode_setter (v : string) : string := toUpperCase v.

(** Storing a document: the schema setter is applied to [classCode]. *)
Definition save (d : ClassDoc) (dir : list ClassDoc) : list ClassDoc :=
  dir ++ [mkClass (className d) (classCode_setter (code d)) (isActive d)].

(** Modelled from the spec: [Class.findOne({ classCode })] is Mongoose's
    query, which is not part of the sources; the spec gives the lookup as a
    case-insensitive exact match.  The filter value is cast with the
    schema path's setter ([uppercase: true]) and compared for equality with
    the stored codes; the first matching document is returned. *)
Definition findOne (classCode : string) (dir : list ClassDoc) : option ClassDoc :=
  List.find (fun d => String.eqb (code d) (classCode_setter classCode)) dir.

(** Every stored code went through the setter. *)
Definition stored (dir : list ClassDoc) : Prop :=
  Forall (fun d => classCode_setter (code d) = code d) dir.

(** The [unique: true] index on [classCode]. *)
Definition unique_codes (dir : list ClassDoc) : Prop :=
  NoDup (map code dir).

(** Two codes that differ at most in letter case. *)
Definition same_modulo_case (a b : string) : Prop :=
  toUpperCase a = toUpperCase b.

End ClassDirectory.

(** ** Effects *)

(** Events the server sends to clients, named as in the source. *)
Inductive ServerEvent :=
| join_error (message : string)
| join_success (studentId sessionId socketId : string) (isClassActive : bool)
| rejoin_error (message : string) (isClassInactive : bool)
| rejoin_success (sessionId socketId : string) (isClassActive : bool)
| student_joined (studentName socketId studentId : string) (timestamp : N)
                 (isReconnect : bool)
| student_code_snapshot (socketId html css studentName : string) (lastUpdate : N)
| student_code_update (socketId html css : string) (timestamp : N)
| student_list (students : list (string * string * string * N))
| teacher_message (message : string)
| force_disconnect (message : string)
| student_left (socketId studentId studentName reason : string).

(** Calls on the [CodeSession] model (the durable session store). *)
Inductive StoreCall :=
| Create (studentId studentName classCode socketId : string) (expiresAt : N)
| UpdateBySocket (socketId html css : string) (lastUpdate : N)
| UpsertByStudent (studentId socketId studentName : string) (expiresAt : N).

(** What a handler does to the outside world. *)
Inductive Action :=
| Emit (recipients : gset string) (ev : ServerEvent)
| FindClass (classCode : string)
| Store (call : StoreCall)
| LogError (label : string).

(** A timer of the event loop created by [setTimeout] in [code_update]; the
    callback closes over [socket.id], [html] and [css]. *)
Record Timer := mkTimer {
  t_handle : nat;
  t_due : N;
  t_socket : string;
  t_html : string;
  t_css : string
}.

(** A suspended computation: the code after an [await] (or in a [.catch])
    waiting for a promise of the database driver.  [sid] is the socket whose
    handler or timer issued the call. *)
Inductive Pending :=
| AwaitFindJoin (sid studentName classCode uuid : string)
| AwaitFindRejoin (sid studentId studentName classCode : string)
| AwaitCreate (sid : string)
| AwaitRejoinUpdate (sid : string)
| AwaitDebounced (sid : string)
| AwaitFinalSave (sid : string) (session : Session).

(** ** Server state *)

Record State := mkState {
  now : N;                                  (* Date.now() *)
  classes : list ClassDirectory.ClassDoc;   (* the Class collection *)
  sockets : gset string;                    (* classNamespace.sockets *)
  rooms : gmap string (gset string);        (* the adapter's rooms *)
  currentSubscription : gmap string string; (* socket.currentSubscription *)
  inMemoryCache : gmap string Session;
  debounceTimers : gmap string nat;
  timers : list Timer;                      (* armed timers, oldest first *)
  nextTimer : nat;
  pending : gmap nat Pending;               (* promises not yet settled *)
  nextPromise : nat
}.

Definition set_now (v : N) (s : State) : State :=
  mkState v (classes s) (sockets s) (rooms s) (currentSubscription s)
    (inMemoryCache s) (debounceTimers s) (timers s) (nextTimer s) (pending s)
    (nextPromise s).

Definition set_sockets (v : gset string) (s : State) : State :=
  mkState (now s) (classes s) v (rooms s) (currentSubscription s)
    (inMemoryCache s) (debounceTimers s) (timers s) (nextTimer s) (pending s)
    (nextPromise s).

Definition set_rooms (v : gmap string (gset string)) (s : State) : State :=
  mkState (now s) (classes s) (sockets s) v (currentSubscription s)
    (inMemoryCache s) (debounceTimers s) (timers s) (nextTimer s) (pending s)
    (nextPromise s).

Definition set_currentSubscription (v : gmap string string) (s : State) : State :=
  mkState (now s) (classes s) (sockets s) (rooms s) v
    (inMemoryCache s) (debounceTimers s) (timers s) (nextTimer s) (pending s)
    (nextPromise s).

Definition set_inMemoryCache (v : gmap string Session) (s : State) : State :=
  mkState (now s) (classes s) (sockets s) (rooms s) (currentSubscription s)
    v (debounceTimers s) (timers s) (nextTimer s) (pending s) (nextPromise s).

Definition set_debounceTimers (v : gmap string nat) (s : State) : State :=
  mkState (now s) (classes s) (sockets s) (rooms s) (currentSubscription s)
    (inMemoryCache s) v (timers s) (nextTimer s) (pending s) (nextPromise s).

Definition set_timers (v : list Timer) (s : State) : State :=
  mkState (now s) (classes s) (sockets s) (rooms s) (currentSubscription s)
    (inMemoryCache s) (debounceTimers s) v (nextTimer s) (pending s)
    (nextPromise s).

Definition set_nextTimer (v : nat) (s : State) : State :=
  mkState (now s) (classes s) (sockets s) (rooms s) (currentSubscription s)
    (inMemoryCache s) (debounceTimers s) (timers s) v (pending s)
    (nextPromise s).

Definition set_pending (v : gmap nat Pending) (s : State) : State :=
  mkState (now s) (classes s) (sockets s) (rooms s) (currentSubscription s)
    (inMemoryCache s) (debounceTimers s) (timers s) (nextTimer s) v
    (nextPromise s).

Definition set_nextPromise (v : nat) (s : State) : State :=
  mkState (now s) (classes s) (sockets s) (rooms s) (currentSubscription s)
    (inMemoryCache s) (debounceTimers s) (timers s) (nextTimer s) (pending s) v.

(** The server right after start: nobody connected, nothing cached. *)
Definition boot (dir : list ClassDirectory.ClassDoc) : State :=
  mkState 0 dir ∅ ∅ ∅ ∅ ∅ [] 0%nat ∅ 0%nat.

(** ** Socket.IO and timer primitives *)

(** Members of a room; a room nobody joined has no members. *)
Definition room_members (room : string) (s : State) : gset string :=
  default ∅ (rooms s !! room).

(** [socket.join(room)]; after the socket was closed [join] does nothing. *)
Definition socket_join (sid room : string) (s : State) : State :=
  if decide (sid ∈ sockets s)
  then set_rooms (<[room := {[sid]} ∪ room_members room s]> (rooms s)) s
  else s.

(** [socket.leave(room)]; a room left by its last member stays in the table
    with no members, which [room_members] does not tell from an absent one. *)
Definition socket_leave (sid room : string) (s : State) : State :=
  set_rooms (alter (λ members, members ∖ {[sid]}) room (rooms s)) s.

(** A new connection: the socket is registered in the namespace and joins
    the room named by its own id. *)
Definition socket_opened (sid : string) (s : State) : State :=
  set_rooms (<[sid := {[sid]} ∪ room_members sid s]> (rooms s))
    (set_sockets ({[sid]} ∪ sockets s) s).

(** Closing a socket: it leaves every room and is removed from the
    namespace before its ['disconnect'] listeners run. *)
Definition socket_closed (sid : string) (s : State) : State :=
  set_rooms ((λ members, members ∖ {[sid]}) <$> rooms s)
    (set_sockets (sockets s ∖ {[sid]}) s).

(** [socket.emit(ev)], [socket.to(room).emit(ev)] (everyone in the room but
    the sender) and [classNamespace.to(room).emit(ev)] (everyone in it). *)
Definition emit_self (sid : string) (ev : ServerEvent) : Action :=
  Emit {[sid]} ev.

Definition emit_to (sid room : string) (ev : ServerEvent) (s : State) : Action :=
  Emit (room_members room s ∖ {[sid]}) ev.

Definition namespace_emit_to (room : string) (ev : ServerEvent) (s : State) : Action :=
  Emit (room_members room s) ev.

(** [setTimeout(callback, DEBOUNCE_DELAY)]: returns the handle. *)
Definition setTimeout (sid h c : string) (s : State) : nat * State :=
  let handle := nextTimer s in
  (handle,
   set_nextTimer (S handle)
     (set_timers (timers s ++ [mkTimer handle (now s + DEBOUNCE_DELAY) sid h c]) s)).

(** [clearTimeout(handle)]: a handle that already fired is ignored. *)
Definition clearTimeout (handle : nat) (s : State) : State :=
  set_timers (filter (λ t, t_handle t ≠ handle) (timers s)) s.

(** Suspend on a promise: the continuation is recorded under a fresh id. *)
Definition await (p : Pending) (s : State) : State :=
  set_nextPromise (S (nextPromise s))
    (set_pending (<[nextPromise s := p]> (pending s)) s).

(** JavaScript truthiness of a string: the empty string is falsy. *)
Definition truthy (v : string) : bool :=
  match v with EmptyString => false | _ => true end.

Definition student_room (sid : string) : string := "student:" +:+ sid.

(** ** The handlers of [classHandlers.js] *)

(** [Array.from(inMemoryCache.values()).filter(session => session.classCode === classCode)].
    The entries come in the key order of the finite map, not in the insertion
    order of a JavaScript [Map]; only the length and the members are used
    below. *)
Definition currentStudents (code : string) (s : State) : list Session :=
  filter (λ session, classCode session = code) (map_to_list (inMemoryCache s)).*2.

Definition class_full_message : string :=
  "Class is full (maximum " +:+ pretty.pretty MAX_STUDENTS_PER_CLASS +:+ " students)".

(** [join_class], up to [await Class.findOne({ classCode })]. [uuid] is the
    value [crypto.randomUUID()] returns when the handler resumes. *)
Definition join_class (sid name code uuid : string) (s : State)
  : State * list Action :=
  (await (AwaitFindJoin sid name code uuid) s, [FindClass code]).

(** [join_class], after the lookup resolved with [classDoc]. *)
Definition join_class_resume (sid name code uuid : string)
    (classDoc : option ClassDirectory.ClassDoc) (s : State)
  : State * list Action :=
  match classDoc with
  | None => (s, [emit_self sid (join_error "Invalid class code")])
  | Some doc =>
    if negb (ClassDirectory.isActive doc)
    then (s, [emit_self sid (join_error "Class is not currently active")])
    else if (MAX_STUDENTS_PER_CLASS <=? length (currentStudents code s))%nat
    then (s, [emit_self sid (join_error class_full_message)])
    else
      let sessionData := mkSession uuid name code sid "" "" (now s) in
      let s1 := set_inMemoryCache (<[sid := sessionData]> (inMemoryCache s)) s in
      let s2 := await (AwaitCreate sid) s1 in
      let s3 := socket_join sid code s2 in
      (s3, [ Store (Create uuid name code sid (now s + DAY_MS));
             emit_to sid code (student_joined name sid uuid (now s) false) s3;
             emit_self sid (join_success uuid uuid sid (ClassDirectory.isActive doc)) ])
  end.

(** [rejoin_class], up to the lookup. *)
Definition rejoin_class (sid sId name code : string) (s : State)
  : State * list Action :=
  (await (AwaitFindRejoin sid sId name code) s, [FindClass code]).

(** [rejoin_class], after the lookup resolved with [classDoc]. *)
Definition rejoin_class_resume (sid sId name code : string)
    (classDoc : option ClassDirectory.ClassDoc) (s : State)
  : State * list Action :=
  match classDoc with
  | None => (s, [emit_self sid (rejoin_error "Invalid class code" false)])
  | Some doc =>
    if negb (ClassDirectory.isActive doc)
    then (s, [emit_self sid (rejoin_error "Class is not currently live" true)])
    else if (MAX_STUDENTS_PER_CLASS <=? length (currentStudents code s))%nat
    then (s, [emit_self sid (rejoin_error class_full_message false)])
    else
      let sessionData := mkSession sId name code sid "" "" (now s) in
      let s1 := set_inMemoryCache (<[sid := sessionData]> (inMemoryCache s)) s in
      let s2 := await (AwaitRejoinUpdate sid) s1 in
      let s3 := socket_join sid code s2 in
      (s3, [ Store (UpsertByStudent sId sid name (now s + DAY_MS));
             emit_to sid code (student_joined name sid sId (now s) true) s3;
             emit_self sid (rejoin_success sId sid true) ])
  end.

(** [teacher_join_room]: the teacher joins the class room only. *)
Definition teacher_join_room (sid code : string) (s : State)
  : State * list Action :=
  (socket_join sid code s, []).

(** [subscribe_to_student]. *)
Definition subscribe_to_student (sid studentSocketId : string) (s : State)
  : State * list Action :=
  let s1 :=
    match currentSubscription s !! sid with
    | Some previous =>
        if truthy previous then socket_leave sid (student_room previous) s else s
    | None => s
    end in
  let s2 := socket_join sid (student_room studentSocketId) s1 in
  let s3 := set_currentSubscription
              (<[sid := studentSocketId]> (currentSubscription s2)) s2 in
  match inMemoryCache s3 !! studentSocketId with
  | Some studentCode =>
      (s3, [emit_self sid
              (student_code_snapshot studentSocketId (html studentCode)
                 (css studentCode) (studentName studentCode)
                 (lastUpdate studentCode))])
  | None => (s3, [])
  end.

(** [code_update]. *)
Definition code_update (sid h c : string) (s : State) : State * list Action :=
  match inMemoryCache s !! sid with
  | None => (s, [])
  | Some session =>
      let updated := mkSession (studentId session) (studentName session)
                       (classCode session) (socketId session) h c (now s) in
      let s1 := set_inMemoryCache (<[sid := updated]> (inMemoryCache s)) s in
      let out := [emit_to sid (student_room sid)
                    (student_code_update sid h c (now s)) s1] in
      let s2 :=
        match debounceTimers s1 !! sid with
        | Some handle => clearTimeout handle s1
        | None => s1
        end in
      let '(handle, s3) := setTimeout sid h c s2 in
      (set_debounceTimers (<[sid := handle]> (debounceTimers s3)) s3, out)
  end.

(** The timer callback of [code_update], up to [await CodeSession.updateOne];
    it runs at the due time of the timer. *)
Definition debounced_write (t : Timer) (s : State) : State * list Action :=
  (await (AwaitDebounced (t_socket t)) s,
   [Store (UpdateBySocket (t_socket t) (t_html t) (t_css t) (t_due t))]).

(** The timer callback after the write settled: the map entry of the socket
    is deleted on success, the error is logged on failure. *)
Definition debounced_write_resume (sid : string) (ok : bool) (s : State)
  : State * list Action :=
  if ok then (set_debounceTimers (delete sid (debounceTimers s)) s, [])
  else (s, [LogError "DB update error:"]).

(** [get_student_list]. *)
Definition get_student_list (sid code : string) (s : State)
  : State * list Action :=
  (s, [emit_self sid
         (student_list
            (map (λ session, (socketId session, studentId session,
                              studentName session, lastUpdate session))
               (currentStudents code s)))]).

(** [teacher_broadcast]. *)
Definition teacher_broadcast (sid code message : string) (s : State)
  : State * list Action :=
  (s, [emit_to sid code (teacher_message message) s]).

(** [disconnect], up to the [await] of the final save; the socket was
    closed by Socket.IO just before. *)
Definition disconnect (sid : string) (s : State) : State * list Action :=
  match inMemoryCache s !! sid with
  | None => (s, [])
  | Some session =>
      let s1 :=
        match debounceTimers s !! sid with
        | Some handle =>
            set_debounceTimers (delete sid (debounceTimers s))
              (clearTimeout handle s)
        | None => s
        end in
      (await (AwaitFinalSave sid session) s1,
       [Store (UpdateBySocket sid (html session) (css session) (now s))])
  end.

(** [disconnect], after the final save settled (a failure is logged by the
    inner [catch], then the handler goes on). *)
Definition disconnect_resume (sid : string) (session : Session) (ok : bool)
    (s : State) : State * list Action :=
  let s1 := set_inMemoryCache (delete sid (inMemoryCache s)) s in
  (s1,
   (if ok then [] else [LogError "Final DB save error:"]) ++
   [emit_to sid (classCode session)
      (student_left sid (studentId session) (studentName session) "disconnected")
      s1]).

(** [teacher_kick_student]: notify the student's own room, then close the
    student's socket, which runs its [disconnect] listener. *)
Definition teacher_kick_student (sid studentSocketId : string) (s : State)
  : State * list Action :=
  let notice := namespace_emit_to studentSocketId
                  (force_disconnect "You were removed from the class by the teacher") s in
  if decide (studentSocketId ∈ sockets s)
  then let '(s', out) := disconnect studentSocketId (socket_closed studentSocketId s) in
       (s', notice :: out)
  else (s, [notice]).

(** ** The event loop *)

(** What the server reacts to: client events on a socket, the passing of
    time, and the settling of a database promise. *)
Inductive Event :=
| E_connection (sid : string)
| E_join_class (sid studentName classCode uuid : string)
| E_rejoin_class (sid studentId studentName classCode : string)
| E_teacher_join_room (sid classCode : string)
| E_subscribe_to_student (sid studentSocketId : string)
| E_code_update (sid html css : string)
| E_get_student_list (sid classCode : string)
| E_teacher_broadcast (sid classCode message : string)
| E_teacher_kick_student (sid studentSocketId : string)
| E_disconnect (sid : string)
| E_elapse (ms : N)
| E_settled (promise : nat) (ok : bool).

(** Run callbacks one after the other, collecting their effects. *)
Fixpoint run_timers (due : list Timer) (s : State) : State * list Action :=
  match due with
  | [] => (s, [])
  | t :: rest =>
      let '(s1, out1) := debounced_write t s in
      let '(s2, out2) := run_timers rest s1 in
      (s2, out1 ++ out2)
  end.

(** [ms] milliseconds pass: the timers that are due by then fire, oldest
    first (all timers have the same delay, so the queue is in due order). *)
Definition elapse (ms : N) (s : State) : State * list Action :=
  let deadline := now s + ms in
  let due := filter (λ t, t_due t ≤ deadline) (timers s) in
  let kept := filter (λ t, ¬ t_due t ≤ deadline) (timers s) in
  run_timers due (set_now deadline (set_timers kept s)).

(** A promise settles: its continuation is taken off the table and run.
    A rejected lookup lands in the handler's outer [catch]. *)
Definition settled (promise : nat) (ok : bool) (s : State) : State * list Action :=
  match pending s !! promise with
  | None => (s, [])
  | Some p =>
      let s' := set_pending (delete promise (pending s)) s in
      match p with
      | AwaitFindJoin sid name code uuid =>
          if ok
          then join_class_resume sid name code uuid
                 (ClassDirectory.findOne code (classes s')) s'
          else (s', [LogError "join_class error:";
                     emit_self sid (join_error "Server error, please try again")])
      | AwaitFindRejoin sid sId name code =>
          if ok
          then rejoin_class_resume sid sId name code
                 (ClassDirectory.findOne code (classes s')) s'
          else (s', [LogError "rejoin_class error:";
                     emit_self sid (rejoin_error "Server error, please try again" false)])
      | AwaitCreate _ =>
          (s', if ok then [] else [LogError "DB save error:"])
      | AwaitRejoinUpdate _ =>
          (s', if ok then [] else [LogError "DB update error:"])
      | AwaitDebounced sid => debounced_write_resume sid ok s'
      | AwaitFinalSave sid session => disconnect_resume sid session ok s'
      end
  end.

(** Client events are dispatched only for sockets that are connected. *)
Definition on_socket (sid : string) (handler : State → State * list Action)
    (s : State) : State * list Action :=
  if decide (sid ∈ sockets s) then handler s else (s, []).

Definition step (e : Event) (s : State) : State * list Action :=
  match e with
  | E_connection sid =>
      if decide (sid ∈ sockets s) then (s, []) else (socket_opened sid s, [])
  | E_join_class sid name code uuid => on_socket sid (join_class sid name code uuid) s
  | E_rejoin_class sid sId name code => on_socket sid (rejoin_class sid sId name code) s
  | E_teacher_join_room sid code => on_socket sid (teacher_join_room sid code) s
  | E_subscribe_to_student sid target => on_socket sid (subscribe_to_student sid target) s
  | E_code_update sid h c => on_socket sid (code_update sid h c) s
  | E_get_student_list sid code => on_socket sid (get_student_list sid code) s
  | E_teacher_broadcast sid code message => on_socket sid (teacher_broadcast sid code message) s
  | E_teacher_kick_student sid target => on_socket sid (teacher_kick_student sid target) s
  | E_disconnect sid =>
      on_socket sid (λ s0, disconnect sid (socket_closed sid s0)) s
  | E_elapse ms => elapse ms s
  | E_settled promise ok => settled promise ok s
  end.

(** A schedule of events, with the effects in the order they happen. *)
Fixpoint run (es : list Event) (s : State) : State * list Action :=
  match es with
  | [] => (s, [])
  | e :: rest =>
      let '(s1, out1) := step e s in
      let '(s2, out2) := run rest s1 in
      (s2, out1 ++ out2)
  end.

(** ** Observations on effect lists *)

(** The documents written to the store for one socket, in order. *)
Definition writes_of (sid : string) (out : list Action) : list (string * string) :=
  omap (λ a, match a with
             | Store (UpdateBySocket sid' h c _) =>
                 if decide (sid' = sid) then Some (h, c) else None
             | _ => None
             end) out.

(** The events delivered to one socket, in order. *)
Definition received (sid : string) (out : list Action) : list ServerEvent :=
  omap (λ a, match a with
             | Emit recipients ev =>
                 if decide (sid ∈ recipients) then Some ev else None
             | _ => None
             end) out.

(** The recipient sets of the emissions selected by [p], in order. *)
Definition deliveries (p : ServerEvent → bool) (out : list Action)
  : list (gset string) :=
  omap (λ a, match a with
             | Emit recipients ev => if p ev then Some recipients else None
             | _ => None
             end) out.

Definition is_store (a : Action) : bool :=
  match a with Store _ => true | _ => false end.

Definition is_snapshot (ev : ServerEvent) : bool :=
  match ev with student_code_snapshot _ _ _ _ _ => true | _ => false end.

(** The events of the class group: membership and moderation. *)
Definition is_group_event (ev : ServerEvent) : bool :=
  match ev with
  | student_joined _ _ _ _ _ | student_left _ _ _ _ | teacher_message _ => true
  | _ => false
  end.

(** ** State predicates *)

(** [studentId] is unique among the live sessions of one class. *)
Definition unique_studentIds (s : State) : Prop :=
  ∀ a b sa sb,
    inMemoryCache s !! a = Some sa → inMemoryCache s !! b = Some sb →
    classCode sa = classCode sb → studentId sa = studentId sb → a = b.

(** No live session of class [code] other than the one of connection [sid]
    carries the student id [sId]. *)
Definition id_unused (sId code sid : string) (s : State) : Prop :=
  ∀ other session,
    other ≠ sid → inMemoryCache s !! other = Some session →
    classCode session = code → studentId session ≠ sId.

(** A document update is delivered inside the personal room of its source,
    as that room is when the update is handled. *)
Definition routed_action (s : State) (a : Action) : Prop :=
  match a with
  | Emit recipients (student_code_update sid _ _ _) =>
      recipients ⊆ room_members (student_room sid) s
  | _ => True
  end.

(** Connection [v] is in no room in [s'] that it was not in already in [s]. *)
Definition no_gain (v : string) (s s' : State) : Prop :=
  ∀ room, v ∈ room_members room s' → v ∈ room_members room s.

(** The suspended computations that wait for a write to the session store
    (the other two wait for a class lookup). *)
Definition awaits_write (p : Pending) : bool :=
  match p with
  | AwaitCreate _ | AwaitRejoinUpdate _ | AwaitDebounced _ | AwaitFinalSave _ _ => true
  | AwaitFindJoin _ _ _ _ | AwaitFindRejoin _ _ _ _ => false
  end.

(** The connection whose handler or timer is suspended. *)
Definition origin_of (p : Pending) : string :=
  match p with
  | AwaitFindJoin sid _ _ _ | AwaitFindRejoin sid _ _ _
  | AwaitCreate sid | AwaitRejoinUpdate sid
  | AwaitDebounced sid | AwaitFinalSave sid _ => sid
  end.

(** The armed timers of one connection. *)
Definition timers_of (sid : string) (s : State) : list Timer :=
  filter (λ t, t_socket t = sid) (timers s).

(** Every armed timer of the connection is the one recorded for it in
    [debounceTimers]: re-arming and disconnecting can cancel it. *)
Definition tracked (sid : string) (s : State) : Prop :=
  ∀ t, t ∈ timers_of sid s → debounceTimers s !! sid = Some (t_handle t).

Definition document (t : Timer) : string * string := (t_html t, t_css t).

(** ** Schedules seen from one connection *)

(** The event is an action of connection [v] itself: a client event on its
    socket, or the resumption of its own join or rejoin. *)
Definition acts (v : string) (s : State) (e : Event) : Prop :=
  match e with
  | E_connection sid | E_join_class sid _ _ _ | E_rejoin_class sid _ _ _
  | E_teacher_join_room sid _ | E_subscribe_to_student sid _
  | E_code_update sid _ _ | E_get_student_list sid _
  | E_teacher_broadcast sid _ _ | E_teacher_kick_student sid _
  | E_disconnect sid => sid = v
  | E_elapse _ => False
  | E_settled promise _ =>
      match pending s !! promise with
      | Some (AwaitFindJoin sid _ _ _) | Some (AwaitFindRejoin sid _ _ _) => sid = v
      | _ => False
      end
  end.

(** A schedule in which [v] takes no action. *)
Fixpoint quiet (v : string) (es : list Event) (s : State) : Prop :=
  match es with
  | [] => True
  | e :: rest => ¬ acts v s e ∧ quiet v rest (step e s).1
  end.

(** A schedule in which every reply to a debounced write of [sid] arrives
    while no timer of [sid] is armed. *)
Fixpoint timely (sid : string) (es : list Event) (s : State) : Prop :=
  match es with
  | [] => True
  | e :: rest =>
      (∀ promise, e = E_settled promise true →
         pending s !! promise = Some (AwaitDebounced sid) → timers_of sid s = []) ∧
      timely sid rest (step e s).1
  end.

(** ** Sample states and schedules *)

Definition sample_dir : list ClassDirectory.ClassDoc :=
  ClassDirectory.save (ClassDirectory.mkClass "Web basics" "ab12cd" true) [].

(** One teacher socket connected, no student. *)
Definition teacher_only : State :=
  (run [E_connection "t1"; E_teacher_join_room "t1" "AB12CD"] (boot sample_dir)).1.

(** One student joined through the regular path, lookup and creation both
    settled. *)
Definition one_student : State :=
  (run [E_connection "s1"; E_join_class "s1" "Ann" "AB12CD" "u1";
        E_settled 0 true; E_settled 1 true] (boot sample_dir)).1.

(** The student's device reconnects on a new socket and rejoins with its
    stored id while the server has not yet noticed that the old socket is
    gone. *)
Definition reconnecting : list Event :=
  [E_connection "s2"; E_rejoin_class "s2" "u1" "Ann" "AB12CD"; E_settled 2 true].

(** A teacher watching a class with two students. *)
Definition two_students : State :=
  (run [E_connection "t1"; E_teacher_join_room "t1" "AB12CD";
        E_connection "s1"; E_join_class "s1" "Ann" "AB12CD" "u1";
        E_settled 0 true; E_settled 1 true;
        E_connection "s2"; E_join_class "s2" "Bob" "AB12CD" "u2";
        E_settled 2 true; E_settled 3 true] (boot sample_dir)).1.

(** Both students type after the teacher switched from the first to the
    second. *)
Definition both_type : list Event :=
  [E_code_update "s1" "<p>one</p>" ""; E_code_update "s2" "<p>two</p>" "";
   E_elapse 500; E_code_update "s1" "<p>one!</p>" ""].

(** A class filled to the ceiling: sixty students connect and join one
    after the other, each lookup and each creation settling at once. *)
Definition seat (i : nat) : string := "s" +:+ pretty.pretty i.

Definition enrol (i : nat) : list Event :=
  [E_connection (seat i);
   E_join_class (seat i) ("Student " +:+ pretty.pretty i) "AB12CD"
     ("u" +:+ pretty.pretty i);
   E_settled (2 * i) true; E_settled (2 * i + 1) true].

Definition full_class : State :=
  (run (flat_map enrol (seq 0 60)) (boot sample_dir)).1.

(** The sixty-first student connects and asks to join. *)
Definition late_join : list Event :=
  [E_connection "late"; E_join_class "late" "Zed" "AB12CD" "u60"].

(** The student typed once and then lost the connection: the final save is
    on its way to the store. *)
Definition leaving : State :=
  (run [E_code_update "s1" "<h1>x</h1>" ""; E_elapse 1000; E_disconnect "s1"]
     one_student).1.

(** The student typed, paused for three seconds, and the debounced write of
    that text has just been sent to the store: its reply is outstanding. *)
Definition saving : State :=
  (run [E_code_update "s1" "<p>a</p>" ""; E_elapse 3000] one_student).1.

(** Two further updates one second apart; the store's reply to the earlier
    write arrives right after the first of them. *)
Definition typed_pair : list Event :=
  [E_code_update "s1" "<p>ab</p>" ""; E_settled 2 true; E_elapse 1000;
   E_code_update "s1" "<p>abc</p>" ""; E_elapse 3000].

(** One further update, the reply to the earlier write right after it, and
    one second later the timer of that update is still armed. *)
Definition lost_handle : State :=
  (run [E_code_update "s1" "<p>ab</p>" ""; E_settled 2 true; E_elapse 1000] saving).1.

(** The connection drops; the final save settles; three seconds pass. *)
Definition drop_out : list Event :=
  [E_disconnect "s1"; E_settled 3 true; E_elapse 3000].

(** ** Requests and their outcome *)

Definition is_error (ev : ServerEvent) : bool :=
  match ev with join_error _ | rejoin_error _ _ => true | _ => false end.

(** A request for class [code] passes the three checks of join and rejoin:
    the class exists, it is active, and it is below the ceiling. *)
Definition admitted (code : string) (s : State) : Prop :=
  ∃ doc, ClassDirectory.findOne code (classes s) = Some doc ∧
         ClassDirectory.isActive doc = true ∧
         (length (currentStudents code s) < MAX_STUDENTS_PER_CLASS)%nat.

(** The socket and the class code of a join or rejoin that waits for its
    lookup. *)
Definition awaits_lookup (p : Pending) : option (string * string) :=
  match p with
  | AwaitFindJoin sid _ code _ | AwaitFindRejoin sid _ _ code => Some (sid, code)
  | _ => None
  end.

(** A connected socket asked to join a class that does not exist; the
    lookup is outstanding. *)
Definition asking_unknown : State :=
  (run [E_connection "s9"; E_join_class "s9" "Eve" "NOSUCH" "u9"] one_student).1.

(** ** Invariants of the registry *)

(** The four ways a step can change the registry: not at all, by
    registering an admitted session with an empty document under its socket,
    by replacing the document of a registered session, or by removing an
    entry. *)
Inductive cache_move (s s' : State) : Prop :=
| cache_same :
    inMemoryCache s' = inMemoryCache s → cache_move s s'
| cache_registered sid session :
    inMemoryCache s' = <[sid := session]> (inMemoryCache s) →
    socketId session = sid →
    (length (currentStudents (classCode session) s) < MAX_STUDENTS_PER_CLASS)%nat →
    cache_move s s'
| cache_updated sid old h c :
    inMemoryCache s !! sid = Some old →
    inMemoryCache s'
      = <[sid := mkSession (studentId old) (studentName old) (classCode old)
                   (socketId old) h c (now s)]> (inMemoryCache s) →
    cache_move s s'
| cache_removed sid :
    inMemoryCache s' = delete sid (inMemoryCache s) → cache_move s s'.

(** Every session is filed under the socket id it carries. *)
Definition keyed_by_socket (s : State) : Prop :=
  ∀ key session, inMemoryCache s !! key = Some session → socketId session = key.

(** No class code has more live sessions than the ceiling. *)
Definition within_capacity (s : State) : Prop :=
  ∀ code, (length (currentStudents code s) ≤ MAX_STUDENTS_PER_CLASS)%nat.

(** The number of sessions of class [code] in a registry. *)
Definition class_size (code : string) (m : gmap string Session) : nat :=
  length (filter (λ session, classCode session = code) (map_to_list m).*2).

(** ** Invariants of the timer queue *)

(** A well-formed queue at time [time] with next handle [next]: the timers
    are in the order of their due times and of their handles, each is due
    after [time] and at most [DEBOUNCE_DELAY] later, and each handle was
    handed out already. *)
Definition timers_wf (time : N) (next : nat) (queue : list Timer) : Prop :=
  StronglySorted (λ a b, t_due a ≤ t_due b ∧ (t_handle a < t_handle b)%nat) queue ∧
  Forall (λ t, time < t_due t ∧ t_due t ≤ time + DEBOUNCE_DELAY ∧
               (t_handle t < next)%nat) queue.

Definition timers_ok (s : State) : Prop :=
  timers_wf (now s) (nextTimer s) (timers s).

(** The step leaves the timer queue, the clock and the handle counter as
    they are. *)
Definition same_clock (s s' : State) : Prop :=
  timers s' = timers s ∧ now s' = now s ∧ nextTimer s' = nextTimer s.

(** ** Who is sent what *)

(** The action is not the delivery of a document update. *)
Definition no_update_action (a : Action) : Prop :=
  match a with
  | Emit _ (student_code_update _ _ _ _) => False
  | _ => True
  end.

(** If the action delivers something to [v], then [v] sits in some room. *)
Definition addressed_in_room (v : string) (s : State) (a : Action) : Prop :=
  match a with
  | Emit recipients _ => v ∈ recipients → ∃ room, v ∈ room_members room s
  | _ => True
  end.

(** The teacher of the sample class watches the first of two students. *)
Definition watching_first : State :=
  (subscribe_to_student "t1" "s1" two_students).1.

(** One student is in the class and a teacher has just connected. *)
Definition teacher_and_student : State :=
  (run [E_connection "t1"] one_student).1.

(** ** Bursts of updates *)





(** ** Sessions without a connection *)

(** The registry holds a session for a socket that is closed and whose
    disconnect is over: no final save of it is outstanding. *)
Definition orphaned (sid : string) (s : State) : Prop :=
  (sid ∉ sockets s) ∧ is_Some (inMemoryCache s !! sid) ∧
  ∀ promise session, pending s !! promise ≠ Some (AwaitFinalSave sid session).

(** A student asked to join the sample class; the lookup is outstanding. *)
Definition asking_to_join : State :=
  (run [E_connection "s2"; E_join_class "s2" "Bob" "AB12CD" "u2"] one_student).1.

(** A history in which the reply to the debounced write arrives before the
    student types again. *)
Definition calm_history : list Event :=
  [E_connection "s1"; E_join_class "s1" "Ann" "AB12CD" "u1";
   E_settled 0 true; E_settled 1 true;
   E_code_update "s1" "<p>a</p>" ""; E_elapse 3000; E_settled 2 true;
   E_code_update "s1" "<p>ab</p>" ""].

(** * The Class collection: [models/Class.js] and [routes/classes.js] *)

(** ** The model and its [pre('save')] hook *)

Module ClassModel.

(** A document of the [Class] collection. *)
Record Doc := mkDoc {
  _id : string;
  className : string;
  classCode : string;
  teacherId : string;
  isActive : bool;
  createdAt : N;
  updatedAt : N
}.

Definition set_className (v : string) (d : Doc) : Doc :=
  mkDoc (_id d) v (classCode d) (teacherId d) (isActive d) (createdAt d)
    (updatedAt d).

Definition set_classCode (v : string) (d : Doc) : Doc :=
  mkDoc (_id d) (className d) v (teacherId d) (isActive d) (createdAt d)
    (updatedAt d).

Definition set_isActive (v : bool) (d : Doc) : Doc :=
  mkDoc (_id d) (className d) (classCode d) (teacherId d) v (createdAt d)
    (updatedAt d).

Definition set_updatedAt (v : N) (d : Doc) : Doc :=
  mkDoc (_id d) (className d) (classCode d) (teacherId d) (isActive d)
    (createdAt d) v.

(** What the socket handlers read of a document, and the collection as
    their class lookup sees it. *)
Definition entry (d : Doc) : ClassDirectory.ClassDoc :=
  ClassDirectory.mkClass (className d) (classCode d) (isActive d).

Definition directory (rows : list Doc) : list ClassDirectory.ClassDoc :=
  map entry rows.

(** [Buffer.prototype.toString('hex')]: two lower-case hexadecimal digits
    per byte, the high one first. *)
Definition hex_digit (n : N) : ascii :=
  ascii_of_N (if n <? 10 then 48 + n else 87 + n).

Definition hex_byte (b : Byte.byte) : string :=
  let n := Byte.to_N b in
  String (hex_digit (n / 16)) (String (hex_digit (n mod 16)) EmptyString).

Fixpoint toString_hex (buffer : list Byte.byte) : string :=
  match buffer with
  | [] => EmptyString
  | b :: rest => hex_byte b +:+ toString_hex rest
  end.

(** One value of [crypto.randomBytes(3)]. *)
Definition Draw : Type := Byte.byte * Byte.byte * Byte.byte.

(** [crypto.randomBytes(3).toString('hex').toUpperCase()] for one draw. *)
Definition code_of (draw : Draw) : string :=
  let '(b0, b1, b2) := draw in
  ClassDirectory.toUpperCase (toString_hex [b0; b1; b2]).

(** The [while (exists)] loop of the hook.  Each iteration takes the next
    value of [crypto.randomBytes(3)] from [draws] and looks the candidate up;
    the loop ends with the first candidate no stored class carries.  [None]:
    every draw given was taken, the loop is still running. *)
Fixpoint generate (draws : list Draw) (rows : list Doc) : option string :=
  match draws with
  | [] => None
  | draw :: rest =>
      let code := code_of draw in
      match ClassDirectory.findOne code (directory rows) with
      | Some _ => generate rest rows
      | None => Some code
      end
  end.

(** [classSchema.pre('save', ...)]: a document without a class code gets a
    generated one, assigned through the path's [uppercase] setter; every
    save stamps [updatedAt]. *)
Definition pre_save (now : N) (draws : list Draw) (doc : Doc) (rows : list Doc)
  : option Doc :=
  if truthy (classCode doc) then Some (set_updatedAt now doc)
  else
    match generate draws rows with
    | None => None
    | Some code =>
        Some (set_updatedAt now
                (set_classCode (ClassDirectory.classCode_setter code) doc))
    end.

(** JavaScript's [String.prototype.trim] on ASCII text: tab, line feed,
    vertical tab, form feed, carriage return and space are removed from both
    ends. *)
Definition whitespace (c : ascii) : bool :=
  match N_of_ascii c with
  | 9 | 10 | 11 | 12 | 13 | 32 => true
  | _ => false
  end.

Fixpoint trimStart (v : string) : string :=
  match v with
  | EmptyString => EmptyString
  | String c rest => if whitespace c then trimStart rest else v
  end.

Fixpoint trimEnd (v : string) : string :=
  match v with
  | EmptyString => EmptyString
  | String c rest =>
      match trimEnd rest with
      | EmptyString => if whitespace c then EmptyString else String c EmptyString
      | kept => String c kept
      end
  end.

Definition trim (v : string) : string := trimEnd (trimStart v).

(** The [className] path: [trim: true] is its setter. *)
Definition className_setter (v : string) : string := trim v.

(** How a database call of the model fails. *)
Inductive Failure := CastError | ValidationError | DuplicateKey.

(** Schema validation before a save: [className] is [required] and has
    [maxlength] 100. *)
Definition validate (doc : Doc) : bool :=
  truthy (className doc) && (String.length (className doc) <=? 100)%nat.

(** The insert of a new document under the unique indexes on [_id] and
    [classCode]. *)
Definition insertOne (doc : Doc) (rows : list Doc) : Failure + list Doc :=
  if existsb (λ d, String.eqb (_id d) (_id doc)
                   || String.eqb (classCode d) (classCode doc)) rows
  then inl DuplicateKey
  else inr (rows ++ [doc]).

(** The update sent by the save of a loaded document: the stored document
    with its [_id] takes the new field values, unless that would give two
    documents the same [classCode]. *)
Definition updateOne (doc : Doc) (rows : list Doc) : Failure + list Doc :=
  if existsb (λ d, negb (String.eqb (_id d) (_id doc))
                   && String.eqb (classCode d) (classCode doc)) rows
  then inl DuplicateKey
  else inr (map (λ d, if String.eqb (_id d) (_id doc) then doc else d) rows).

(** [doc.save()]: validation, then the [pre('save')] hook, then the write.
    [None]: the hook has not returned. *)
Definition save (now : N) (draws : list Draw) (isNew : bool) (doc : Doc)
    (rows : list Doc) : option (Failure + list Doc * Doc) :=
  if negb (validate doc) then Some (inl ValidationError)
  else
    match pre_save now draws doc rows with
    | None => None
    | Some doc' =>
        match (if isNew then insertOne doc' rows else updateOne doc' rows) with
        | inl failure => Some (inl failure)
        | inr rows' => Some (inr (rows', doc'))
        end
    end.

(** [doc.deleteOne()]. *)
Definition deleteOne (doc : Doc) (rows : list Doc) : list Doc :=
  List.filter (λ d, negb (String.eqb (_id d) (_id doc))) rows.

Section Cast.

(** Mongoose's cast of a string to an [ObjectId], given by the string
    [toString()] renders the identifier as; [None] when the string is not
    an identifier. *)
Variable castObjectId : string → option string.

(** [new Class({ className, teacherId })] followed by [save()].  The schema
    defaults give [isActive: false] and both dates; a [teacherId] that is no
    identifier fails validation. *)
Definition create (now : N) (draws : list Draw) (oid className userId : string)
    (rows : list Doc) : option (Failure + list Doc * Doc) :=
  match castObjectId userId with
  | None => Some (inl ValidationError)
  | Some teacher =>
      save now draws true
        (mkDoc oid (className_setter className) EmptyString teacher false now now)
        rows
  end.

(** [Class.findById(id)]. *)
Definition findById (id : string) (rows : list Doc) : Failure + option Doc :=
  match castObjectId id with
  | None => inl CastError
  | Some oid => inr (List.find (λ d, String.eqb (_id d) oid) rows)
  end.

End Cast.

(** The shape of a stored class code: six upper-case hexadecimal digits. *)
Definition upper_hex (c : ascii) : bool :=
  let n := N_of_ascii c in
  ((48 <=? n) && (n <=? 57)) || ((65 <=? n) && (n <=? 70)).

Fixpoint all_chars (p : ascii → bool) (v : string) : bool :=
  match v with
  | EmptyString => true
  | String c rest => p c && all_chars p rest
  end.

Definition is_class_code (v : string) : bool :=
  (String.length v =? 6)%nat && all_chars upper_hex v.

(** A collection as the routes leave it: identifiers and class codes are
    unique and every class code has the generated shape. *)
Definition well_formed (rows : list Doc) : Prop :=
  NoDup (map _id rows) ∧ NoDup (map classCode rows) ∧
  Forall (λ d, is_class_code (classCode d) = true) rows.

End ClassModel.

(** ** The routes of [routes/classes.js]

    The routes run behind [authMiddleware], which is not part of the
    sources: the authenticated [req.userId] is an input.  A route is run to
    its response as one step (requests are served one at a time). *)

Module ClassRoutes.
Import ClassModel.

(** The JSON bodies the routes send. *)
Inductive Body :=
| Errors (errors : list string)                (* success: false, errors *)
| Failed (message : string)                    (* success: false, message *)
| Created (message id className classCode : string) (isActive : bool)
          (createdAt : N)
| Updated (message : string) (class : Doc)
| Deleted (message : string).

Record Response := mkResponse { status : N; body : Body }.

(** The validation chain of [POST /]:
    [body('className').trim().notEmpty().isLength({ max: 100 })], on the
    trimmed value. *)
Definition validationResult (className : string) : list string :=
  (if truthy className then [] else ["Class name is required"]) ++
  (if (String.length className <=? 100)%nat then []
   else ["Class name cannot exceed 100 characters"]).

Section Routes.

Variable castObjectId : string → option string.

(** [router.post('/')].  A missing [className] is sanitised to the empty
    string.  [oid] is the identifier the new document is given.  [None]: no
    response yet (the hook of the model is still drawing codes). *)
Definition router_post (now : N) (draws : list Draw) (oid : string)
    (userId : string) (className : option string) (rows : list Doc)
  : option (list Doc * Response) :=
  let className := trim (default EmptyString className) in
  match validationResult className with
  | _ :: _ as errors => Some (rows, mkResponse 400 (Errors errors))
  | [] =>
      match create castObjectId now draws oid className userId rows with
      | None => None
      | Some (inl _) => Some (rows, mkResponse 500 (Failed "Server error"))
      | Some (inr (rows', newClass)) =>
          Some (rows',
                mkResponse 201
                  (Created "Class created successfully" (_id newClass)
                     (ClassModel.className newClass) (classCode newClass)
                     (isActive newClass) (createdAt newClass)))
      end
  end.

(** [router.patch('/:id')]. *)
Definition router_patch (now : N) (draws : list Draw) (userId id : string)
    (className : option string) (isActive : option bool) (rows : list Doc)
  : option (list Doc * Response) :=
  match findById castObjectId id rows with
  | inl _ => Some (rows, mkResponse 500 (Failed "Server error"))
  | inr None => Some (rows, mkResponse 404 (Failed "Class not found"))
  | inr (Some classDoc) =>
      if negb (String.eqb (teacherId classDoc) userId)
      then Some (rows, mkResponse 403 (Failed "Not authorized"))
      else
        let classDoc :=
          match className with
          | Some v => set_className (className_setter v) classDoc
          | None => classDoc
          end in
        let classDoc :=
          match isActive with
          | Some v => set_isActive v classDoc
          | None => classDoc
          end in
        match save now draws false classDoc rows with
        | None => None
        | Some (inl _) => Some (rows, mkResponse 500 (Failed "Server error"))
        | Some (inr (rows', classDoc)) =>
            Some (rows',
                  mkResponse 200 (Updated "Class updated successfully" classDoc))
        end
  end.

(** [router.delete('/:id')]. *)
Definition router_delete (userId id : string) (rows : list Doc)
  : list Doc * Response :=
  match findById castObjectId id rows with
  | inl _ => (rows, mkResponse 500 (Failed "Server error"))
  | inr None => (rows, mkResponse 404 (Failed "Class not found"))
  | inr (Some classDoc) =>
      if negb (String.eqb (teacherId classDoc) userId)
      then (rows, mkResponse 403 (Failed "Not authorized"))
      else (deleteOne classDoc rows,
            mkResponse 200 (Deleted "Class deleted successfully"))
  end.

(** A request to one of the three routes, with what the server draws while
    serving it. *)
Inductive Request :=
| POST (now : N) (draws : list Draw) (oid userId : string)
       (className : option string)
| PATCH (now : N) (draws : list Draw) (userId id : string)
        (className : option string) (isActive : option bool)
| DELETE (userId id : string).

Definition serve (r : Request) (rows : list Doc) : option (list Doc * Response) :=
  match r with
  | POST now draws oid userId className =>
      router_post now draws oid userId className rows
  | PATCH now draws userId id className isActive =>
      router_patch now draws userId id className isActive rows
  | DELETE userId id => Some (router_delete userId id rows)
  end.

(** Requests served one after the other. *)
Fixpoint serve_all (rs : list Request) (rows : list Doc) : option (list Doc) :=
  match rs with
  | [] => Some rows
  | r :: rest =>
      match serve r rows with
      | None => None
      | Some (rows', _) => serve_all rest rows'
      end
  end.

End Routes.

End ClassRoutes.

(** The socket server over a changed [Class] collection. *)
Definition set_classes (v : list ClassDirectory.ClassDoc) (s : State) : State :=
  mkState (now s) v (sockets s) (rooms s) (currentSubscription s)
    (inMemoryCache s) (debounceTimers s) (timers s) (nextTimer s) (pending s)
    (nextPromise s).

(** ObjectIds as their 24 lower-case hexadecimal digits. *)
Definition lower_hex (c : ascii) : bool :=
  let n := N_of_ascii c in
  ((48 <=? n) && (n <=? 57)) || ((97 <=? n) && (n <=? 102)).

Definition hex24 (v : string) : option string :=
  if (String.length v =? 24)%nat && ClassModel.all_chars lower_hex v
  then Some v else None.

Definition ann : string := "65a1f0c2b3d4e5f601234567".
Definition bob : string := "65a1f0c2b3d4e5f60123abcd".
Definition class1 : string := "65b2000000000000000000a1".

Definition class2 : string := "65b2000000000000000000a2".

(** A collection with one open class of [ann], and draws whose first value
    spells the code of that class. *)
Definition sample_rows : list ClassModel.Doc :=
  [ClassModel.mkDoc class1 "Web basics" "AB12CD" ann true 1000 1000].

Definition sample_draws : list ClassModel.Draw :=
  [(Byte.xab, Byte.x12, Byte.xcd); (Byte.x0f, Byte.xa1, Byte.x3c)].

Definition sample_requests : list ClassRoutes.Request :=
  [ClassRoutes.POST 1000 sample_draws class1 ann (Some " Web basics ");
   ClassRoutes.PATCH 2000 [] ann class1 None (Some true);
   ClassRoutes.POST 3000 sample_draws class2 bob (Some "CSS");
   ClassRoutes.PATCH 4000 [] bob class1 (Some "Mine") None;
   ClassRoutes.POST 5000 sample_draws "65b2000000000000000000a3" bob None;
   ClassRoutes.DELETE bob class2].

(** The live sessions of the class stored under [code]: the sessions whose
    class code resolves to that class in the lookup of join and rejoin, which
    casts the requested code to upper case. *)
Definition sessions_of_class (code : string) (s : State) : list Session :=
  filter (λ session, ClassDirectory.classCode_setter (classCode session) = code)
    (map_to_list (inMemoryCache s)).*2.

(** The sixty-first student connects and asks to join or to rejoin the full
    class, spelling its code as given; the lookup resolves. *)
Definition late_join_as (spelled : string) : list Event :=
  [E_connection "late"; E_join_class "late" "Zed" spelled "u60"; E_settled 120 true].

Definition late_rejoin_as (spelled : string) : list Event :=
  [E_connection "late"; E_rejoin_class "late" "u60" "Zed" spelled; E_settled 120 true].

(** * Properties *)

(** ** Class lookup *)

Section Lookup.
Import ClassDirectory.

Lemma upper_ascii_idem c : upper_ascii (upper_ascii c) = upper_ascii c.
Proof.
  destruct c as [[] [] [] [] [] [] [] []]; vm_compute; reflexivity.
Qed.

Lemma toUpperCase_idem v : toUpperCase (toUpperCase v) = toUpperCase v.
Proof.
  induction v as [|c r IH]; simpl; [reflexivity|].
  by rewrite upper_ascii_idem, IH.
Qed.

Lemma findOne_None req dir :
  (∀ d, In d dir → code d ≠ classCode_setter req) → findOne req dir = None.
Proof.
  unfold findOne. induction dir as [|d dir IH]; intros Hno; simpl; [done|].
  destruct (String.eqb_spec (code d) (classCode_setter req)) as [Heq|_].
  - exfalso. apply (Hno d); [by left | done].
  - apply IH. intros d' Hin. apply Hno. by right.
Qed.

Lemma findOne_Some req dir d :
  unique_codes dir → In d dir → code d = classCode_setter req →
  findOne req dir = Some d.
Proof.
  unfold findOne, unique_codes.
  induction dir as [|d0 dir IH]; intros Hnd Hin Hcode; simpl in *; [done|].
  apply NoDup_cons in Hnd as [Hnotin Hnd].
  destruct (String.eqb_spec (code d0) (classCode_setter req)) as [Heq|Hne].
  - destruct Hin as [->|Hin]; [done|].
    exfalso. apply Hnotin. rewrite Heq, <- Hcode.
    apply list_elem_of_In, in_map, Hin.
  - destruct Hin as [->|Hin]; [done|]. by apply IH.
Qed.

Lemma stored_save d dir : stored dir → stored (save d dir).
Proof.
  unfold stored, save. intros Hst. apply Forall_app. split; [done|].
  constructor; [|constructor]. simpl. apply toUpperCase_idem.
Qed.

End Lookup.

(** C8. The lookup of join/rejoin matches class codes regardless of letter
    case: in a directory whose codes were stored through the schema (upper
    case, unique), a requested code that differs from a stored class's code
    only in letter case resolves to exactly that class, and a requested code
    that matches no stored code, even ignoring case, resolves to nothing. *)
Theorem findOne_case_insensitive (dir : list ClassDirectory.ClassDoc) (req : string) :
  ClassDirectory.stored dir →
  ClassDirectory.unique_codes dir →
  (∀ d, In d dir →
        ClassDirectory.same_modulo_case req (ClassDirectory.code d) →
        ClassDirectory.findOne req dir = Some d) ∧
  ((∀ d, In d dir →
         ¬ ClassDirectory.same_modulo_case req (ClassDirectory.code d)) →
   ClassDirectory.findOne req dir = None).
Proof.
  intros Hst Hun. split.
  - intros d Hin Hcase. apply findOne_Some; [done..|].
    unfold ClassDirectory.stored in Hst. rewrite Forall_forall in Hst.
    rewrite <- (Hst d) by by apply list_elem_of_In.
    unfold ClassDirectory.classCode_setter. symmetry. exact Hcase.
  - intros Hno. apply findOne_None. intros d Hin Heq.
    apply (Hno d Hin). unfold ClassDirectory.same_modulo_case.
    unfold ClassDirectory.classCode_setter in Heq. rewrite Heq.
    by rewrite toUpperCase_idem.
Qed.

Lemma sample_dir_stored : ClassDirectory.stored sample_dir.
Proof. repeat constructor. Qed.

Lemma sample_dir_unique : ClassDirectory.unique_codes sample_dir.
Proof. unfold ClassDirectory.unique_codes. simpl. apply NoDup_singleton. Qed.

Lemma findOne_case_insensitive_witness :
  ClassDirectory.findOne "aB12cd" sample_dir
    = Some (ClassDirectory.mkClass "Web basics" "AB12CD" true) ∧
  ClassDirectory.findOne "AB12CE" sample_dir = None.
Proof.
  split.
  - apply (findOne_case_insensitive sample_dir "aB12cd"
             sample_dir_stored sample_dir_unique).
    + left. reflexivity.
    + reflexivity.
  - apply (findOne_case_insensitive sample_dir "AB12CE"
             sample_dir_stored sample_dir_unique).
    intros d [<-|[]]. vm_compute. discriminate.
Defined.

(** ** Updates from a connection that has not joined *)

(** C10. A [code_update] from a connection with no registered session does
    nothing at all: the whole server state (registry, debounce table, armed
    timers, pending store calls) is unchanged and no effect is produced, so
    no store call is issued and nobody receives anything. *)
Theorem code_update_not_joined (s : State) (sid h c : string) :
  inMemoryCache s !! sid = None →
  code_update sid h c s = (s, []) ∧
  step (E_code_update sid h c) s = (s, []).
Proof.
  intros Hnone. assert (code_update sid h c s = (s, [])) as Hcu.
  { unfold code_update. by rewrite Hnone. }
  split; [done|]. simpl. unfold on_socket. by case_decide.
Qed.

Lemma code_update_not_joined_witness :
  code_update "t1" "<p>" "p{}" teacher_only = (teacher_only, []) ∧
  step (E_code_update "t1" "<p>" "p{}") teacher_only = (teacher_only, []).
Proof.
  apply (code_update_not_joined teacher_only "t1" "<p>" "p{}").
  vm_compute. reflexivity.
Defined.

(** ** Projections through the primitives *)

Lemma socket_join_cache sid room s :
  inMemoryCache (socket_join sid room s) = inMemoryCache s.
Proof. unfold socket_join. by case_decide. Qed.

Lemma socket_join_sockets sid room s :
  sockets (socket_join sid room s) = sockets s.
Proof. unfold socket_join. by case_decide. Qed.

Lemma room_members_join sid room r s :
  room_members r (socket_join sid room s) =
  if decide (sid ∈ sockets s ∧ r = room)
  then {[sid]} ∪ room_members r s else room_members r s.
Proof.
  unfold socket_join, room_members. case_decide as Hin; simpl.
  - case_decide as Hr.
    + destruct Hr as [_ ->]. by rewrite lookup_insert_eq.
    + rewrite lookup_insert_ne; [done|]. intros ->. by apply Hr.
  - case_decide as Hr; [|done]. by destruct Hr.
Qed.

Lemma room_members_leave sid room r s :
  room_members r (socket_leave sid room s) =
  if decide (r = room) then room_members r s ∖ {[sid]} else room_members r s.
Proof.
  unfold socket_leave, room_members. simpl. case_decide as Hr.
  - subst r. rewrite lookup_alter_eq.
    destruct (rooms s !! room); simpl; [done|].
    apply set_eq. intros x. rewrite elem_of_difference, elem_of_empty. tauto.
  - by rewrite lookup_alter_ne.
Qed.

Lemma room_members_closed sid r s :
  room_members r (socket_closed sid s) = room_members r s ∖ {[sid]}.
Proof.
  unfold socket_closed, room_members. simpl. rewrite lookup_fmap.
  destruct (rooms s !! r); simpl; [done|].
  apply set_eq. intros x. rewrite elem_of_difference, elem_of_empty. tauto.
Qed.

(** ** Subscribing to a student that is gone *)

(** C5 (amended). Subscribing to a connection id that has no live session
    does not fault and sends the viewer nothing, neither a snapshot nor an
    error: the handler only records the new target and puts the viewer in the
    target's room, and leaves the registry as it was. *)
Theorem subscribe_vanished_target (s : State) (viewer target : string) :
  inMemoryCache s !! target = None →
  (subscribe_to_student viewer target s).2 = [] ∧
  currentSubscription (subscribe_to_student viewer target s).1 !! viewer
    = Some target ∧
  (viewer ∈ sockets s →
   viewer ∈ room_members (student_room target) (subscribe_to_student viewer target s).1) ∧
  inMemoryCache (subscribe_to_student viewer target s).1 = inMemoryCache s.
Proof.
  intros Hnone. unfold subscribe_to_student.
  set (s1 := match currentSubscription s !! viewer with
             | Some previous =>
                 if truthy previous
                 then socket_leave viewer (student_room previous) s else s
             | None => s
             end).
  assert (inMemoryCache s1 = inMemoryCache s) as Hc1.
  { subst s1. destruct (currentSubscription s !! viewer) as [p|]; [|done].
    by destruct (truthy p). }
  assert (sockets s1 = sockets s) as Hs1.
  { subst s1. destruct (currentSubscription s !! viewer) as [p|]; [|done].
    by destruct (truthy p). }
  simpl. rewrite socket_join_cache, Hc1, Hnone. simpl.
  rewrite lookup_insert_eq, socket_join_cache.
  repeat split; [|done].
  intros Hin. unfold room_members at 1. simpl. fold (room_members (student_room target)
    (socket_join viewer (student_room target) s1)).
  rewrite room_members_join, Hs1. rewrite decide_True by done.
  apply elem_of_union_l. by apply elem_of_singleton.
Qed.

Lemma subscribe_vanished_target_witness :
  (subscribe_to_student "t1" "gone" teacher_only).2 = [] ∧
  currentSubscription (subscribe_to_student "t1" "gone" teacher_only).1 !! "t1"
    = Some "gone" ∧
  "t1" ∈ room_members (student_room "gone")
           (subscribe_to_student "t1" "gone" teacher_only).1 ∧
  inMemoryCache (subscribe_to_student "t1" "gone" teacher_only).1
    = inMemoryCache teacher_only.
Proof.
  destruct (subscribe_vanished_target teacher_only "t1" "gone")
    as (Hout & Hsub & Hroom & Hcache).
  - vm_compute. reflexivity.
  - split; [exact Hout|]. split; [exact Hsub|]. split; [|exact Hcache].
    apply Hroom. apply (bool_decide_unpack _). vm_compute. exact I.
Defined.

(** C5 as stated fails: the target has no session, and the viewer receives
    no snapshot event (it receives nothing). *)
Lemma subscribe_vanished_target_no_snapshot :
  inMemoryCache teacher_only !! "gone" = None ∧
  filter is_snapshot
    (received "t1" (subscribe_to_student "t1" "gone" teacher_only).2) = [] ∧
  received "t1" (subscribe_to_student "t1" "gone" teacher_only).2 = [].
Proof. vm_compute. repeat split. Qed.

(** ** Registration on join and rejoin *)

Lemma class_full_message_text :
  class_full_message = "Class is full (maximum 60 students)".
Proof. reflexivity. Qed.

Lemma join_class_resume_admitted sid name code uuid doc s :
  ClassDirectory.isActive doc = true →
  (length (currentStudents code s) < MAX_STUDENTS_PER_CLASS)%nat →
  let s3 := socket_join sid code
              (await (AwaitCreate sid)
                 (set_inMemoryCache
                    (<[sid := mkSession uuid name code sid "" "" (now s)]>
                       (inMemoryCache s)) s)) in
  join_class_resume sid name code uuid (Some doc) s =
  (s3, [ Store (Create uuid name code sid (now s + DAY_MS));
         emit_to sid code (student_joined name sid uuid (now s) false) s3;
         emit_self sid (join_success uuid uuid sid true) ]).
Proof.
  intros Hact Hlt. unfold join_class_resume. rewrite Hact. simpl negb. cbv iota.
  destruct (Nat.leb_spec MAX_STUDENTS_PER_CLASS (length (currentStudents code s)));
    [lia|reflexivity].
Qed.

Lemma rejoin_class_resume_admitted sid sId name code doc s :
  ClassDirectory.isActive doc = true →
  (length (currentStudents code s) < MAX_STUDENTS_PER_CLASS)%nat →
  let s3 := socket_join sid code
              (await (AwaitRejoinUpdate sid)
                 (set_inMemoryCache
                    (<[sid := mkSession sId name code sid "" "" (now s)]>
                       (inMemoryCache s)) s)) in
  rejoin_class_resume sid sId name code (Some doc) s =
  (s3, [ Store (UpsertByStudent sId sid name (now s + DAY_MS));
         emit_to sid code (student_joined name sid sId (now s) true) s3;
         emit_self sid (rejoin_success sId sid true) ]).
Proof.
  intros Hact Hlt. unfold rejoin_class_resume. rewrite Hact. simpl negb. cbv iota.
  destruct (Nat.leb_spec MAX_STUDENTS_PER_CLASS (length (currentStudents code s)));
    [lia|reflexivity].
Qed.

Lemma insert_keeps_unique sid session s :
  unique_studentIds s →
  id_unused (studentId session) (classCode session) sid s →
  unique_studentIds
    (set_inMemoryCache (<[sid := session]> (inMemoryCache s)) s).
Proof.
  intros Huniq Hfresh a b sa sb. simpl.
  rewrite !lookup_insert_Some.
  intros [[<- <-]|[Ha Hsa]] [[<- <-]|[Hb Hsb]] Hclass Hid; try done.
  - exfalso. by apply (Hfresh b sb).
  - exfalso. by apply (Hfresh a sa).
  - by apply (Huniq a b sa sb).
Qed.

Lemma unique_studentIds_cache s s' :
  inMemoryCache s' = inMemoryCache s → unique_studentIds s → unique_studentIds s'.
Proof. unfold unique_studentIds. by intros ->. Qed.

(** C6 (amended). A successful join or rejoin stores the new session under
    its own connection id: the registry afterwards is the old one with that
    single key set, so the entry of every other connection is left as it was
    (nothing is looked up or removed by [studentId]).  Uniqueness of
    [studentId] among the live sessions of the class is preserved when no
    other live session of the class carries the id, as for the freshly
    generated id of a join. *)
Theorem join_registers_by_connection
    (s : State) (sid sId name code : string) (doc : ClassDirectory.ClassDoc) :
  ClassDirectory.isActive doc = true →
  (length (currentStudents code s) < MAX_STUDENTS_PER_CLASS)%nat →
  let registered :=
    <[sid := mkSession sId name code sid "" "" (now s)]> (inMemoryCache s) in
  let s_join := (join_class_resume sid name code sId (Some doc) s).1 in
  let s_rejoin := (rejoin_class_resume sid sId name code (Some doc) s).1 in
  inMemoryCache s_join = registered ∧
  inMemoryCache s_rejoin = registered ∧
  (∀ other, other ≠ sid →
     inMemoryCache s_join !! other = inMemoryCache s !! other ∧
     inMemoryCache s_rejoin !! other = inMemoryCache s !! other) ∧
  (unique_studentIds s → id_unused sId code sid s →
   unique_studentIds s_join ∧ unique_studentIds s_rejoin).
Proof.
  intros Hact Hlt registered s_join s_rejoin.
  assert (inMemoryCache s_join = registered) as Hj.
  { subst s_join. rewrite join_class_resume_admitted by done. simpl.
    by rewrite socket_join_cache. }
  assert (inMemoryCache s_rejoin = registered) as Hr.
  { subst s_rejoin. rewrite rejoin_class_resume_admitted by done. simpl.
    by rewrite socket_join_cache. }
  split; [done|]. split; [done|]. split.
  - intros other Hne. rewrite Hj, Hr. subst registered.
    by rewrite lookup_insert_ne.
  - intros Huniq Hfresh.
    pose proof (insert_keeps_unique sid (mkSession sId name code sid "" "" (now s))
                  s Huniq Hfresh) as Hins.
    split; eapply unique_studentIds_cache; try exact Hins; simpl; done.
Qed.

Lemma one_student_cache :
  inMemoryCache one_student = {[ "s1" := mkSession "u1" "Ann" "AB12CD" "s1" "" "" 0 ]}.
Proof. vm_compute. reflexivity. Qed.

Lemma one_student_unique : unique_studentIds one_student.
Proof.
  intros a b sa sb. rewrite one_student_cache, !lookup_singleton_Some.
  by intros [<- _] [<- _].
Qed.

Lemma join_registers_by_connection_witness :
  let registered :=
    <["s2" := mkSession "u2" "Bob" "AB12CD" "s2" "" "" (now one_student)]>
      (inMemoryCache one_student) in
  let doc := ClassDirectory.mkClass "Web basics" "AB12CD" true in
  let s_join := (join_class_resume "s2" "Bob" "AB12CD" "u2" (Some doc) one_student).1 in
  let s_rejoin := (rejoin_class_resume "s2" "u2" "Bob" "AB12CD" (Some doc) one_student).1 in
  inMemoryCache s_join = registered ∧
  inMemoryCache s_rejoin = registered ∧
  inMemoryCache s_join !! "s1" = inMemoryCache one_student !! "s1" ∧
  unique_studentIds s_join ∧ unique_studentIds s_rejoin.
Proof.
  destruct (join_registers_by_connection one_student "s2" "u2" "Bob" "AB12CD"
              (ClassDirectory.mkClass "Web basics" "AB12CD" true))
    as (Hj & Hr & Hother & Huniq).
  - reflexivity.
  - vm_compute. lia.
  - split; [exact Hj|]. split; [exact Hr|].
    split; [apply (Hother "s1"); discriminate|].
    apply Huniq.
    + apply one_student_unique.
    + intros other session Hne. rewrite one_student_cache, lookup_singleton_Some.
      intros [<- <-] _. discriminate.
Defined.

(** C6 as stated fails: the registry holds one session with student id
    [u1]; a rejoin with [u1] from a new connection succeeds, the entry of the
    old connection is still there, and two live sessions of the class now
    carry the same student id. *)
Lemma rejoin_keeps_stale_entry :
  unique_studentIds one_student ∧
  rejoin_success "u1" "s2" true ∈ received "s2" (run reconnecting one_student).2 ∧
  inMemoryCache (run reconnecting one_student).1 !! "s1"
    = Some (mkSession "u1" "Ann" "AB12CD" "s1" "" "" 0) ∧
  inMemoryCache (run reconnecting one_student).1 !! "s2"
    = Some (mkSession "u1" "Ann" "AB12CD" "s2" "" "" 0) ∧
  ¬ unique_studentIds (run reconnecting one_student).1.
Proof.
  assert (inMemoryCache (run reconnecting one_student).1 !! "s1"
            = Some (mkSession "u1" "Ann" "AB12CD" "s1" "" "" 0)) as H1
    by (vm_compute; reflexivity).
  assert (inMemoryCache (run reconnecting one_student).1 !! "s2"
            = Some (mkSession "u1" "Ann" "AB12CD" "s2" "" "" 0)) as H2
    by (vm_compute; reflexivity).
  split; [|split; [|split; [done|split; [done|]]]].
  - apply one_student_unique.
  - assert (received "s2" (run reconnecting one_student).2
              = [rejoin_success "u1" "s2" true]) as -> by (vm_compute; reflexivity).
    apply list_elem_of_singleton. reflexivity.
  - intros Huniq. specialize (Huniq "s1" "s2" _ _ H1 H2 eq_refl eq_refl).
    discriminate.
Qed.

(** ** Group events *)

Lemma room_after_join_minus_self sid code s :
  room_members code (socket_join sid code s) ∖ {[sid]}
  = room_members code s ∖ {[sid]}.
Proof.
  rewrite room_members_join. case_decide; [|done].
  apply set_eq. intros x. rewrite !elem_of_difference, elem_of_union.
  rewrite elem_of_singleton. tauto.
Qed.

(** C9. Each group event is emitted exactly once and its delivery set is the
    class room without the originating connection: [student_joined] on a
    successful join or rejoin (the room taken after the originator entered
    it, which without the originator is the room as it was before),
    [teacher_message] on a broadcast, [student_left] when a disconnect
    completes; the originator is in none of these delivery sets. *)
Theorem group_events_skip_originator
    (s : State) (sid sId name code message : string)
    (doc : ClassDirectory.ClassDoc) (session : Session) (ok : bool) :
  ClassDirectory.isActive doc = true →
  (length (currentStudents code s) < MAX_STUDENTS_PER_CLASS)%nat →
  let joined := join_class_resume sid name code sId (Some doc) s in
  let rejoined := rejoin_class_resume sid sId name code (Some doc) s in
  let broadcast := teacher_broadcast sid code message s in
  let left := disconnect_resume sid session ok s in
  deliveries is_group_event joined.2 = [room_members code joined.1 ∖ {[sid]}] ∧
  deliveries is_group_event rejoined.2 = [room_members code rejoined.1 ∖ {[sid]}] ∧
  deliveries is_group_event broadcast.2 = [room_members code s ∖ {[sid]}] ∧
  deliveries is_group_event left.2
    = [room_members (classCode session) s ∖ {[sid]}] ∧
  room_members code joined.1 ∖ {[sid]} = room_members code s ∖ {[sid]} ∧
  room_members code rejoined.1 ∖ {[sid]} = room_members code s ∖ {[sid]} ∧
  (∀ out, out ∈ [joined.2; rejoined.2; broadcast.2; left.2] →
     ∀ recipients, recipients ∈ deliveries is_group_event out → sid ∉ recipients).
Proof.
  intros Hact Hlt joined rejoined broadcast left.
  assert (room_members code joined.1 ∖ {[sid]} = room_members code s ∖ {[sid]}) as Hjr.
  { subst joined. rewrite join_class_resume_admitted by done. cbn [fst].
    by rewrite room_after_join_minus_self. }
  assert (room_members code rejoined.1 ∖ {[sid]} = room_members code s ∖ {[sid]}) as Hrr.
  { subst rejoined. rewrite rejoin_class_resume_admitted by done. cbn [fst].
    by rewrite room_after_join_minus_self. }
  assert (deliveries is_group_event joined.2 = [room_members code joined.1 ∖ {[sid]}])
    as Hj.
  { subst joined. rewrite join_class_resume_admitted by done. reflexivity. }
  assert (deliveries is_group_event rejoined.2 = [room_members code rejoined.1 ∖ {[sid]}])
    as Hr.
  { subst rejoined. rewrite rejoin_class_resume_admitted by done. reflexivity. }
  assert (deliveries is_group_event broadcast.2 = [room_members code s ∖ {[sid]}])
    as Hb by reflexivity.
  assert (deliveries is_group_event left.2
          = [room_members (classCode session) s ∖ {[sid]}]) as Hl.
  { subst left. unfold disconnect_resume. by destruct ok. }
  repeat (split; [done|]).
  intros out Hout recipients Hin.
  rewrite !elem_of_cons, elem_of_nil in Hout.
  destruct Hout as [->|[->|[->|[->|[]]]]];
    [rewrite Hj in Hin|rewrite Hr in Hin|rewrite Hb in Hin|rewrite Hl in Hin];
    apply list_elem_of_singleton in Hin; subst recipients;
    rewrite elem_of_difference, elem_of_singleton; tauto.
Qed.

Lemma group_events_skip_originator_witness :
  let doc := ClassDirectory.mkClass "Web basics" "AB12CD" true in
  let session := mkSession "u1" "Ann" "AB12CD" "s1" "" "" 0 in
  let joined := join_class_resume "s2" "Bob" "AB12CD" "u2" (Some doc) one_student in
  let rejoined := rejoin_class_resume "s2" "u2" "Bob" "AB12CD" (Some doc) one_student in
  let broadcast := teacher_broadcast "s2" "AB12CD" "hello" one_student in
  let left := disconnect_resume "s2" session true one_student in
  deliveries is_group_event joined.2 = [room_members "AB12CD" joined.1 ∖ {["s2"]}] ∧
  deliveries is_group_event rejoined.2 = [room_members "AB12CD" rejoined.1 ∖ {["s2"]}] ∧
  deliveries is_group_event broadcast.2 = [room_members "AB12CD" one_student ∖ {["s2"]}] ∧
  deliveries is_group_event left.2
    = [room_members (classCode session) one_student ∖ {["s2"]}] ∧
  room_members "AB12CD" joined.1 ∖ {["s2"]} = room_members "AB12CD" one_student ∖ {["s2"]} ∧
  room_members "AB12CD" rejoined.1 ∖ {["s2"]} = room_members "AB12CD" one_student ∖ {["s2"]} ∧
  (∀ out, out ∈ [joined.2; rejoined.2; broadcast.2; left.2] →
     ∀ recipients, recipients ∈ deliveries is_group_event out → "s2" ∉ recipients).
Proof.
  apply (group_events_skip_originator one_student "s2" "u2" "Bob" "AB12CD" "hello"
           (ClassDirectory.mkClass "Web basics" "AB12CD" true)
           (mkSession "u1" "Ann" "AB12CD" "s1" "" "" 0) true).
  - reflexivity.
  - vm_compute. lia.
Defined.

(** ** The capacity ceiling *)

Lemma currentStudents_cache code s s' :
  inMemoryCache s' = inMemoryCache s → currentStudents code s' = currentStudents code s.
Proof. unfold currentStudents. by intros ->. Qed.

Lemma currentStudents_delete code gone session s :
  inMemoryCache s !! gone = Some session →
  classCode session = code →
  length (currentStudents code s)
  = S (length (currentStudents code
                 (set_inMemoryCache (delete gone (inMemoryCache s)) s))).
Proof.
  intros Hlook Hcode. unfold currentStudents. simpl.
  pose proof (map_to_list_delete (inMemoryCache s) gone session Hlook) as Hperm.
  rewrite <- Hperm. simpl. rewrite filter_cons_True by done. reflexivity.
Qed.

Lemma socket_closed_cache sid s :
  inMemoryCache (socket_closed sid s) = inMemoryCache s.
Proof. reflexivity. Qed.

(** A disconnect that runs to completion: the listener, then the settling
    of its final save (whatever the outcome). *)
Lemma disconnect_completes gone session ok s :
  gone ∈ sockets s →
  inMemoryCache s !! gone = Some session →
  let s' := (run [E_disconnect gone; E_settled (nextPromise s) ok] s).1 in
  inMemoryCache s' = delete gone (inMemoryCache s) ∧ classes s' = classes s.
Proof.
  intros Hin Hlook. simpl. unfold on_socket. rewrite decide_True by done.
  unfold disconnect. rewrite socket_closed_cache, Hlook.
  set (s1 := match debounceTimers (socket_closed gone s) !! gone with
             | Some handle => _ | None => _ end).
  assert (nextPromise s1 = nextPromise s ∧ inMemoryCache s1 = inMemoryCache s
          ∧ classes s1 = classes s) as (Hn & Hc & Hd).
  { subst s1. by destruct (debounceTimers (socket_closed gone s) !! gone). }
  unfold settled. unfold await at 1. simpl pending. rewrite Hn, lookup_insert_eq.
  simpl. by rewrite Hc, Hd.
Qed.

(** The ceiling as the handlers apply it, to the sessions that carry the
    requested code as the request spells it.  For a request whose code
    resolves to an active class: below sixty live sessions with that
    spelling a join and a rejoin are accepted (the sender gets the success
    event and is registered); at sixty or more both are refused with the
    class-full error and change nothing; and once one of sixty such sessions
    has disconnected and its final save has settled, a join and a rejoin are
    accepted again. *)
Theorem capacity_ceiling
    (s : State) (sid sId name code : string) (doc : ClassDirectory.ClassDoc) :
  ClassDirectory.findOne code (classes s) = Some doc →
  ClassDirectory.isActive doc = true →
  let n := length (currentStudents code s) in
  let accepted (s0 : State) :=
    received sid (join_class_resume sid name code sId (Some doc) s0).2
      = [join_success sId sId sid true] ∧
    is_Some (inMemoryCache (join_class_resume sid name code sId (Some doc) s0).1 !! sid) ∧
    received sid (rejoin_class_resume sid sId name code (Some doc) s0).2
      = [rejoin_success sId sid true] ∧
    is_Some (inMemoryCache (rejoin_class_resume sid sId name code (Some doc) s0).1 !! sid) in
  ((n < 60)%nat → accepted s) ∧
  ((60 ≤ n)%nat →
     join_class_resume sid name code sId (Some doc) s
       = (s, [Emit {[sid]} (join_error "Class is full (maximum 60 students)")]) ∧
     rejoin_class_resume sid sId name code (Some doc) s
       = (s, [Emit {[sid]} (rejoin_error "Class is full (maximum 60 students)" false)])) ∧
  (n = 60%nat →
     ∀ gone session ok,
       gone ∈ sockets s → inMemoryCache s !! gone = Some session →
       classCode session = code →
       let s' := (run [E_disconnect gone; E_settled (nextPromise s) ok] s).1 in
       ClassDirectory.findOne code (classes s') = Some doc ∧
       length (currentStudents code s') = 59%nat ∧ accepted s').
Proof.
  intros Hfind Hact n accepted.
  assert (∀ s0, (length (currentStudents code s0) < 60)%nat → accepted s0) as Hacc.
  { intros s0 Hlt. subst accepted. cbv beta.
    rewrite join_class_resume_admitted, rejoin_class_resume_admitted by done.
    cbn [fst snd]. rewrite !socket_join_cache. simpl inMemoryCache.
    rewrite lookup_insert_eq.
    unfold emit_to, emit_self.
    repeat split; eauto.
    - unfold received at 1. simpl omap.
      rewrite decide_False by (rewrite elem_of_difference, elem_of_singleton; tauto).
      rewrite decide_True by (by apply elem_of_singleton). reflexivity.
    - unfold received at 1. simpl omap.
      rewrite decide_False by (rewrite elem_of_difference, elem_of_singleton; tauto).
      rewrite decide_True by (by apply elem_of_singleton). reflexivity. }
  split; [exact (Hacc s)|]. split.
  - intros Hge. unfold join_class_resume, rejoin_class_resume.
    rewrite Hact. simpl negb. cbv iota.
    destruct (Nat.leb_spec MAX_STUDENTS_PER_CLASS (length (currentStudents code s)))
      as [_|Hlt]; [done|].
    unfold MAX_STUDENTS_PER_CLASS in Hlt. subst n. lia.
  - intros Hn gone session ok Hin Hlook Hcode s'.
    destruct (disconnect_completes gone session ok s Hin Hlook) as [Hcache Hdir].
    fold s' in Hcache, Hdir.
    assert (length (currentStudents code s') = 59%nat) as Hcount.
    { pose proof (currentStudents_delete code gone session s Hlook Hcode) as Hdel.
      rewrite <- (currentStudents_cache code
                    (set_inMemoryCache (delete gone (inMemoryCache s)) s) s')
        in Hdel by exact Hcache.
      subst n. lia. }
    split; [by rewrite Hdir|]. split; [done|]. apply Hacc. lia.
Qed.

Lemma capacity_ceiling_witness :
  let doc := ClassDirectory.mkClass "Web basics" "AB12CD" true in
  let after_leave :=
    (run [E_disconnect "s7"; E_settled (nextPromise full_class) false] full_class).1 in
  received "s2" (join_class_resume "s2" "Bob" "AB12CD" "u2" (Some doc) one_student).2
    = [join_success "u2" "u2" "s2" true] ∧
  join_class_resume "late" "Zed" "AB12CD" "u60" (Some doc) full_class
    = (full_class,
       [Emit {["late"]} (join_error "Class is full (maximum 60 students)")]) ∧
  rejoin_class_resume "late" "u60" "Zed" "AB12CD" (Some doc) full_class
    = (full_class,
       [Emit {["late"]} (rejoin_error "Class is full (maximum 60 students)" false)]) ∧
  length (currentStudents "AB12CD" after_leave) = 59%nat ∧
  received "late" (join_class_resume "late" "Zed" "AB12CD" "u60" (Some doc) after_leave).2
    = [join_success "u60" "u60" "late" true].
Proof.
  intros doc after_leave.
  destruct (capacity_ceiling one_student "s2" "u2" "Bob" "AB12CD" doc
              eq_refl eq_refl) as (Hbelow & _ & _).
  assert (ClassDirectory.findOne "AB12CD" (classes full_class) = Some doc) as Hfind
    by (vm_compute; reflexivity).
  destruct (capacity_ceiling full_class "late" "u60" "Zed" "AB12CD" doc
              Hfind eq_refl) as (_ & Hfull & Hagain).
  assert (length (currentStudents "AB12CD" full_class) = 60%nat) as Hsixty
    by (vm_compute; reflexivity).
  destruct Hbelow as (Hjoin & _); [vm_compute; lia|].
  destruct Hfull as (Hfj & Hfr); [rewrite Hsixty; lia|].
  destruct (Hagain Hsixty "s7" (mkSession "u7" "Student 7" "AB12CD" "s7" "" "" 0) false)
    as (_ & Hcount & Hback & _).
  - apply (bool_decide_unpack _). vm_compute. exact I.
  - vm_compute. reflexivity.
  - reflexivity.
  - repeat split; assumption.
Defined.

(** C3. The ceiling misses a request that spells the class code in another
    letter case.  The class stored under AB12CD is active and has sixty live
    sessions.  A sixty-first join or rejoin that spells the code as stored is
    refused with the class-full error.  Spelled ab12cd, the request resolves
    to the same class, is counted against the sessions carrying that
    spelling, of which there are none, and is accepted: the class then has
    sixty-one live sessions. *)
Theorem sixty_first_join_admitted :
  let doc := ClassDirectory.mkClass "Web basics" "AB12CD" true in
  length (sessions_of_class "AB12CD" full_class) = 60%nat ∧
  ClassDirectory.findOne "AB12CD" (classes full_class) = Some doc ∧
  ClassDirectory.findOne "ab12cd" (classes full_class) = Some doc ∧
  received "late" (run (late_join_as "AB12CD") full_class).2
    = [join_error "Class is full (maximum 60 students)"] ∧
  received "late" (run (late_rejoin_as "AB12CD") full_class).2
    = [rejoin_error "Class is full (maximum 60 students)" false] ∧
  received "late" (run (late_join_as "ab12cd") full_class).2
    = [join_success "u60" "u60" "late" true] ∧
  received "late" (run (late_rejoin_as "ab12cd") full_class).2
    = [rejoin_success "u60" "late" true] ∧
  length (sessions_of_class "AB12CD" (run (late_join_as "ab12cd") full_class).1)
    = 61%nat ∧
  length (sessions_of_class "AB12CD" (run (late_rejoin_as "ab12cd") full_class).1)
    = 61%nat.
Proof. vm_compute. repeat split; reflexivity. Qed.

(** ** Routing of document updates *)

Lemma no_gain_refl v s : no_gain v s s.
Proof. by intros room. Qed.

Lemma no_gain_trans v s1 s2 s3 :
  no_gain v s1 s2 → no_gain v s2 s3 → no_gain v s1 s3.
Proof. intros H12 H23 room Hin. by apply H12, H23. Qed.

Lemma no_gain_rooms v s s' : rooms s' = rooms s → no_gain v s s'.
Proof. intros Heq room. unfold room_members. by rewrite Heq. Qed.

Lemma no_gain_join v sid room s : sid ≠ v → no_gain v s (socket_join sid room s).
Proof.
  intros Hne r. rewrite room_members_join. case_decide; [|done].
  rewrite elem_of_union, elem_of_singleton. intros [->|]; done.
Qed.

Lemma no_gain_leave v sid room s : no_gain v s (socket_leave sid room s).
Proof.
  intros r. rewrite room_members_leave. case_decide; [|done].
  rewrite elem_of_difference. tauto.
Qed.

Lemma no_gain_closed v sid s : no_gain v s (socket_closed sid s).
Proof. intros r. rewrite room_members_closed, elem_of_difference. tauto. Qed.

Lemma no_gain_opened v sid s : sid ≠ v → no_gain v s (socket_opened sid s).
Proof.
  intros Hne r. unfold socket_opened, room_members at 1. simpl.
  destruct (decide (r = sid)) as [->|Hr].
  - rewrite lookup_insert_eq. simpl.
    rewrite elem_of_union, elem_of_singleton. unfold room_members at 1. simpl.
    intros [->|]; done.
  - by rewrite lookup_insert_ne.
Qed.

Lemma run_timers_rooms due s : rooms (run_timers due s).1 = rooms s.
Proof.
  revert s. induction due as [|t due IH]; intros s; simpl; [done|].
  destruct (run_timers due (await (AwaitDebounced (t_socket t)) s)) as [s2 out2] eqn:Hrun.
  simpl. pose proof (IH (await (AwaitDebounced (t_socket t)) s)) as Hrooms.
  by rewrite Hrun in Hrooms.
Qed.

Lemma run_timers_routed due s0 s : Forall (routed_action s0) (run_timers due s).2.
Proof.
  revert s. induction due as [|t due IH]; intros s; simpl; [constructor|].
  destruct (run_timers due (await (AwaitDebounced (t_socket t)) s)) as [s2 out2] eqn:Hrun.
  simpl. constructor; [exact I|].
  pose proof (IH (await (AwaitDebounced (t_socket t)) s)) as Hout.
  by rewrite Hrun in Hout.
Qed.

Lemma disconnect_rooms sid s : rooms (disconnect sid s).1 = rooms s.
Proof.
  unfold disconnect. destruct (inMemoryCache s !! sid); [|done].
  by destruct (debounceTimers s !! sid).
Qed.

Lemma disconnect_routed sid s0 s : Forall (routed_action s0) (disconnect sid s).2.
Proof.
  unfold disconnect. destruct (inMemoryCache s !! sid); simpl; repeat constructor.
Qed.

Lemma join_class_resume_routed sid name code uuid doc s0 s :
  Forall (routed_action s0) (join_class_resume sid name code uuid doc s).2.
Proof.
  unfold join_class_resume. destruct doc as [d|]; [|repeat constructor].
  destruct (negb _); [repeat constructor|].
  destruct (Nat.leb _ _); repeat constructor.
Qed.

Lemma rejoin_class_resume_routed sid sId name code doc s0 s :
  Forall (routed_action s0) (rejoin_class_resume sid sId name code doc s).2.
Proof.
  unfold rejoin_class_resume. destruct doc as [d|]; [|repeat constructor].
  destruct (negb _); [repeat constructor|].
  destruct (Nat.leb _ _); repeat constructor.
Qed.

Lemma join_class_resume_no_gain v sid name code uuid doc s :
  sid ≠ v → no_gain v s (join_class_resume sid name code uuid doc s).1.
Proof.
  intros Hne. unfold join_class_resume. destruct doc as [d|]; [|apply no_gain_refl].
  destruct (negb _); [apply no_gain_refl|].
  destruct (Nat.leb _ _); [apply no_gain_refl|]. simpl.
  eapply no_gain_trans; [|by apply no_gain_join]. by apply no_gain_rooms.
Qed.

Lemma rejoin_class_resume_no_gain v sid sId name code doc s :
  sid ≠ v → no_gain v s (rejoin_class_resume sid sId name code doc s).1.
Proof.
  intros Hne. unfold rejoin_class_resume. destruct doc as [d|]; [|apply no_gain_refl].
  destruct (negb _); [apply no_gain_refl|].
  destruct (Nat.leb _ _); [apply no_gain_refl|]. simpl.
  eapply no_gain_trans; [|by apply no_gain_join]. by apply no_gain_rooms.
Qed.

Lemma subscribe_no_gain v sid target s :
  sid ≠ v → no_gain v s (subscribe_to_student sid target s).1.
Proof.
  intros Hne. unfold subscribe_to_student.
  set (s1 := match currentSubscription s !! sid with
             | Some previous => _ | None => _ end).
  assert (no_gain v s s1) as H1.
  { subst s1. destruct (currentSubscription s !! sid) as [p|]; [|apply no_gain_refl].
    destruct (truthy p); [apply no_gain_leave|apply no_gain_refl]. }
  assert (no_gain v s (set_currentSubscription
            (<[sid:=target]> (currentSubscription (socket_join sid (student_room target) s1)))
            (socket_join sid (student_room target) s1))) as H3.
  { eapply no_gain_trans; [exact H1|].
    eapply no_gain_trans; [by apply (no_gain_join v sid (student_room target))|].
    by apply no_gain_rooms. }
  by destruct (inMemoryCache _ !! target).
Qed.

Lemma code_update_rooms sid h c s : rooms (code_update sid h c s).1 = rooms s.
Proof.
  unfold code_update. destruct (inMemoryCache s !! sid); [|done]. simpl.
  by destruct (debounceTimers s !! sid).
Qed.

Lemma code_update_out sid h c session s :
  inMemoryCache s !! sid = Some session →
  (code_update sid h c s).2
  = [Emit (room_members (student_room sid) s ∖ {[sid]})
       (student_code_update sid h c (now s))].
Proof.
  intros Hlook. unfold code_update. rewrite Hlook. cbv zeta.
  by destruct (debounceTimers _ !! sid).
Qed.

(** Every update is delivered within the room of its source as it is when
    the update arrives: the recipients are resolved at delivery time. *)
Lemma code_update_routed sid h c s :
  Forall (routed_action s) (code_update sid h c s).2.
Proof.
  destruct (inMemoryCache s !! sid) as [session|] eqn:Hlook.
  - rewrite (code_update_out sid h c session s Hlook).
    constructor; [|constructor]. cbn [routed_action].
    intros x. rewrite elem_of_difference. tauto.
  - unfold code_update. rewrite Hlook. constructor.
Qed.

Lemma on_socket_routed sid handler s0 s :
  Forall (routed_action s0) (handler s).2 →
  Forall (routed_action s0) (on_socket sid handler s).2.
Proof. intros H. unfold on_socket. case_decide; [done|constructor]. Qed.

Lemma on_socket_no_gain v sid handler s :
  no_gain v s (handler s).1 → no_gain v s (on_socket sid handler s).1.
Proof. intros H. unfold on_socket. case_decide; [done|apply no_gain_refl]. Qed.

Lemma step_routed e s : Forall (routed_action s) (step e s).2.
Proof.
  destruct e; simpl; try apply on_socket_routed; try (by repeat constructor).
  - case_decide; constructor.
  - unfold subscribe_to_student. by destruct (inMemoryCache _ !! _); repeat constructor.
  - apply code_update_routed.
  - unfold teacher_kick_student. case_decide; [|by repeat constructor].
    pose proof (disconnect_routed studentSocketId s (socket_closed studentSocketId s))
      as Hrouted.
    destruct (disconnect studentSocketId (socket_closed studentSocketId s)).
    by constructor.
  - apply disconnect_routed.
  - apply run_timers_routed.
  - unfold settled. destruct (pending s !! promise) as [p|]; [|constructor].
    destruct p; simpl.
    + destruct ok; [apply join_class_resume_routed|by repeat constructor].
    + destruct ok; [apply rejoin_class_resume_routed|by repeat constructor].
    + destruct ok; by repeat constructor.
    + destruct ok; by repeat constructor.
    + unfold debounced_write_resume. destruct ok; by repeat constructor.
    + unfold disconnect_resume. destruct ok; by repeat constructor.
Qed.

Lemma step_no_gain v e s : ¬ acts v s e → no_gain v s (step e s).1.
Proof.
  destruct e; simpl; intros Hacts; try apply on_socket_no_gain;
    try (by apply no_gain_rooms).
  - case_decide; [apply no_gain_refl|by apply no_gain_opened].
  - by apply no_gain_join.
  - by apply subscribe_no_gain.
  - apply no_gain_rooms, code_update_rooms.
  - unfold teacher_kick_student. case_decide; [|apply no_gain_refl].
    pose proof (disconnect_rooms studentSocketId (socket_closed studentSocketId s))
      as Hrooms.
    destruct (disconnect studentSocketId (socket_closed studentSocketId s)) as [s' out].
    apply (no_gain_trans v s (socket_closed studentSocketId s));
      [apply no_gain_closed|apply no_gain_rooms; exact Hrooms].
  - apply (no_gain_trans v s (socket_closed sid s)); [apply no_gain_closed|].
    apply no_gain_rooms, disconnect_rooms.
  - apply no_gain_rooms. unfold elapse. by rewrite run_timers_rooms.
  - unfold settled. destruct (pending s !! promise) as [p|]; [|apply no_gain_refl].
    destruct p; simpl.
    + destruct ok; [|by apply no_gain_rooms].
      eapply no_gain_trans; [|by apply join_class_resume_no_gain]. by apply no_gain_rooms.
    + destruct ok; [|by apply no_gain_rooms].
      eapply no_gain_trans; [|by apply rejoin_class_resume_no_gain]. by apply no_gain_rooms.
    + by apply no_gain_rooms.
    + by apply no_gain_rooms.
    + unfold debounced_write_resume. destruct ok; by apply no_gain_rooms.
    + by apply no_gain_rooms.
Qed.

(** While [v] takes no action it gains no room, and whatever reaches it as a
    document update of [t] finds it in the personal room of [t]. *)
Lemma quiet_run_no_stale v t es s :
  quiet v es s → v ∉ room_members (student_room t) s →
  ∀ recipients h c ts,
    Emit recipients (student_code_update t h c ts) ∈ (run es s).2 → v ∉ recipients.
Proof.
  revert s. induction es as [|e es IH]; intros s Hquiet Hout recipients h c ts; simpl.
  - by rewrite elem_of_nil.
  - destruct Hquiet as [Hacts Hquiet].
    pose proof (step_routed e s) as Hrouted.
    pose proof (step_no_gain v e s Hacts) as Hgain.
    destruct (step e s) as [s1 out1]. simpl in *.
    pose proof (IH s1 Hquiet) as IH1.
    destruct (run es s1) as [s2 out2]. simpl in *.
    rewrite elem_of_app. intros [Hin|Hin].
    + rewrite Forall_forall in Hrouted. specialize (Hrouted _ Hin). simpl in Hrouted.
      intros Hv. apply Hout. by apply Hrouted.
    + eapply IH1; [|exact Hin]. intros Hv. by apply Hout, Hgain.
Qed.

Lemma received_elem v ev out :
  ev ∈ received v out ↔ ∃ recipients, Emit recipients ev ∈ out ∧ v ∈ recipients.
Proof.
  unfold received. rewrite list_elem_of_omap. split.
  - intros (a & Hin & Ha). destruct a as [R ev'| | |]; try done.
    case_decide; [|done]. injection Ha as ->. eauto.
  - intros (R & Hin & Hv). exists (Emit R ev). split; [done|].
    by rewrite decide_True.
Qed.

Lemma student_room_inj a b : student_room a = student_room b → a = b.
Proof. unfold student_room. cbn. by intros [=]. Qed.

Lemma subscribe_subscription v target s :
  currentSubscription (subscribe_to_student v target s).1 !! v = Some target.
Proof.
  unfold subscribe_to_student.
  destruct (inMemoryCache _ !! target); simpl; by rewrite lookup_insert_eq.
Qed.

Lemma subscribe_room_members v target r s :
  room_members r (subscribe_to_student v target s).1 =
  let left :=
    match currentSubscription s !! v with
    | Some previous =>
        if truthy previous && bool_decide (r = student_room previous)
        then room_members r s ∖ {[v]} else room_members r s
    | None => room_members r s
    end in
  if decide (v ∈ sockets s ∧ r = student_room target) then {[v]} ∪ left else left.
Proof.
  unfold subscribe_to_student.
  set (s1 := match currentSubscription s !! v with
             | Some previous => _ | None => _ end).
  assert (room_members r (set_currentSubscription
            (<[v:=target]> (currentSubscription (socket_join v (student_room target) s1)))
            (socket_join v (student_room target) s1))
          = room_members r (socket_join v (student_room target) s1)) as Hset
    by reflexivity.
  assert (sockets s1 = sockets s) as Hsock.
  { subst s1. destruct (currentSubscription s !! v) as [p|]; [|done].
    by destruct (truthy p). }
  assert (room_members r s1 =
          match currentSubscription s !! v with
          | Some previous =>
              if truthy previous && bool_decide (r = student_room previous)
              then room_members r s ∖ {[v]} else room_members r s
          | None => room_members r s
          end) as Hleft.
  { subst s1. destruct (currentSubscription s !! v) as [p|]; [|done].
    destruct (truthy p); simpl; [|done].
    rewrite room_members_leave. by case_bool_decide; case_decide. }
  destruct (inMemoryCache _ !! target); simpl fst; rewrite Hset;
    by rewrite room_members_join, Hsock, Hleft.
Qed.

Lemma subscribe_sockets v target s :
  sockets (subscribe_to_student v target s).1 = sockets s.
Proof.
  unfold subscribe_to_student.
  set (s1 := match currentSubscription s !! v with
             | Some previous => _ | None => _ end).
  assert (sockets s1 = sockets s) as Hsock.
  { subst s1. destruct (currentSubscription s !! v) as [p|]; [|done].
    by destruct (truthy p). }
  destruct (inMemoryCache _ !! target); simpl; by rewrite socket_join_sockets.
Qed.

Lemma received_one v recipients ev :
  v ∈ recipients → received v [Emit recipients ev] = [ev].
Proof. intros Hin. unfold received. simpl omap. by rewrite decide_True. Qed.

Lemma truthy_nonempty v : v ≠ "" → truthy v = true.
Proof. by destruct v. Qed.

(** C4. After a viewer subscribed to [target] and then to [target2], no
    document update of [target] reaches it, for as long as the viewer itself
    takes no further action (whatever the other connections do, and whatever
    timers and store calls complete meanwhile), and an update of [target2] is
    delivered to it: the recipients of an update are the members of the
    source's personal room when the update is handled. *)
Theorem switched_viewer_gets_no_stale_update (s : State) (viewer target target2 : string) :
  target ≠ "" → target ≠ target2 →
  let s2 := (subscribe_to_student viewer target2
               (subscribe_to_student viewer target s).1).1 in
  (∀ es, quiet viewer es s2 →
     ∀ h c ts, student_code_update target h c ts ∉ received viewer (run es s2).2) ∧
  (viewer ∈ sockets s → viewer ≠ target2 →
   ∀ session h c,
     inMemoryCache s2 !! target2 = Some session →
     received viewer (code_update target2 h c s2).2
       = [student_code_update target2 h c (now s2)]).
Proof.
  intros Hnonempty Hdiff s2. split.
  - intros es Hquiet h c ts Hin.
    apply received_elem in Hin as (recipients & Hemit & Hv).
    revert Hv. eapply (quiet_run_no_stale viewer target es s2); [done| |exact Hemit].
    subst s2. rewrite subscribe_room_members. cbv zeta.
    rewrite decide_False
      by (intros [_ Heq]; by apply student_room_inj in Heq).
    rewrite subscribe_subscription, truthy_nonempty by done.
    rewrite bool_decide_eq_true_2 by done. simpl.
    rewrite elem_of_difference, elem_of_singleton. tauto.
  - intros Hconn Hne session h c Hlook.
    assert (viewer ∈ room_members (student_room target2) s2) as Hroom.
    { subst s2. rewrite subscribe_room_members. cbv zeta.
      rewrite subscribe_sockets, decide_True by done.
      apply elem_of_union_l. by apply elem_of_singleton. }
    rewrite (code_update_out target2 h c session s2 Hlook).
    apply received_one. rewrite elem_of_difference, elem_of_singleton. done.
Qed.

Lemma switched_viewer_gets_no_stale_update_witness :
  let s2 := (subscribe_to_student "t1" "s2"
               (subscribe_to_student "t1" "s1" two_students).1).1 in
  (∀ h c ts, student_code_update "s1" h c ts ∉ received "t1" (run both_type s2).2) ∧
  received "t1" (code_update "s2" "<p>two</p>" "" s2).2
    = [student_code_update "s2" "<p>two</p>" "" (now s2)].
Proof.
  intros s2.
  destruct (switched_viewer_gets_no_stale_update two_students "t1" "s1" "s2")
    as [Hstale Hfresh]; [done|done|].
  split.
  - apply Hstale. vm_compute.
    repeat split; intros Habs; (discriminate Habs || exact Habs).
  - apply (Hfresh ltac:(apply (bool_decide_unpack _); vm_compute; exact I)
                  ltac:(discriminate)
                  (mkSession "u2" "Bob" "AB12CD" "s2" "" "" 0)).
    vm_compute. reflexivity.
Defined.

(** ** Failing store writes *)

(** C7. When a write to the session store fails (the debounced write, the
    creation on join, the upsert on rejoin, the final save on disconnect),
    the failure is logged and nothing else: the effects are those of a
    successful write preceded by one log entry, so no store call is issued
    again, no timer is armed and nothing new is awaited (no retry), every
    connection receives exactly what it would have received on success, the
    originating connection receives nothing, and the registry, the rooms and
    the subscriptions end up as on success. *)
Theorem store_failure_logged_and_dropped (s : State) (promise : nat) (p : Pending) :
  pending s !! promise = Some p → awaits_write p = true →
  let failed := settled promise false s in
  let succeeded := settled promise true s in
  (∃ label, failed.2 = LogError label :: succeeded.2) ∧
  Forall (λ a, is_store a = false) failed.2 ∧
  timers failed.1 = timers s ∧
  debounceTimers failed.1 = debounceTimers s ∧
  pending failed.1 = delete promise (pending s) ∧
  (∀ v, received v failed.2 = received v succeeded.2) ∧
  received (origin_of p) failed.2 = [] ∧
  inMemoryCache failed.1 = inMemoryCache succeeded.1 ∧
  rooms failed.1 = rooms succeeded.1 ∧
  currentSubscription failed.1 = currentSubscription succeeded.1.
Proof.
  intros Hlook Hwrite failed succeeded. subst failed succeeded.
  unfold settled. rewrite Hlook.
  destruct p as [| |sid|sid|sid|sid session]; try discriminate Hwrite; cbn [fst snd].
  - split; [by eexists|]. split; [by repeat constructor|]. by repeat split.
  - split; [by eexists|]. split; [by repeat constructor|]. by repeat split.
  - unfold debounced_write_resume. cbn [fst snd].
    split; [by eexists|]. split; [by repeat constructor|]. by repeat split.
  - unfold disconnect_resume. cbn [fst snd app origin_of].
    split; [by eexists|]. split; [by repeat constructor|].
    do 4 (split; [reflexivity|]). split; [|by repeat split].
    unfold received, emit_to. simpl omap.
    rewrite decide_False; [done|].
    rewrite elem_of_difference, elem_of_singleton. tauto.
Qed.

Lemma store_failure_logged_and_dropped_witness :
  let failed := settled 2 false leaving in
  let succeeded := settled 2 true leaving in
  (∃ label, failed.2 = LogError label :: succeeded.2) ∧
  Forall (λ a, is_store a = false) failed.2 ∧
  timers failed.1 = timers leaving ∧
  debounceTimers failed.1 = debounceTimers leaving ∧
  pending failed.1 = delete 2%nat (pending leaving) ∧
  (∀ v, received v failed.2 = received v succeeded.2) ∧
  received "s1" failed.2 = [] ∧
  inMemoryCache failed.1 = inMemoryCache succeeded.1 ∧
  rooms failed.1 = rooms succeeded.1 ∧
  currentSubscription failed.1 = currentSubscription succeeded.1.
Proof.
  destruct (store_failure_logged_and_dropped leaving 2
              (AwaitFinalSave "s1" (mkSession "u1" "Ann" "AB12CD" "s1" "<h1>x</h1>" "" 0)))
    as (Hlog & Hstore & Htimers & Hdeb & Hpend & Hsame & Horigin & Hrest).
  - vm_compute. reflexivity.
  - reflexivity.
  - split; [exact Hlog|]. split; [exact Hstore|]. split; [exact Htimers|].
    split; [exact Hdeb|]. split; [exact Hpend|]. split; [exact Hsame|].
    split; [exact Horigin|exact Hrest].
Defined.

(** ** Debounced writes *)

(** C1. The claim fails when the reply to an earlier debounced write of the
    same connection arrives between the two updates: the student's socket
    [s1] sends ["<p>ab</p>"] and, one second later, ["<p>abc</p>"]; the
    reply in between deletes the handle recorded for the timer of the first
    update, so the second update cannot cancel it, and both documents are
    written to the store, the intermediate one first. *)
Theorem intermediate_update_written :
  pending saving !! 2%nat = Some (AwaitDebounced "s1") ∧
  writes_of "s1" (run typed_pair saving).2
    = [("<p>ab</p>", ""); ("<p>abc</p>", "")].
Proof. vm_compute. split; reflexivity. Qed.

(** C2. The claim fails after the same loss of the handle: a timer of [s1]
    is armed when the connection drops, but it is not recorded in
    [debounceTimers], so the disconnect does not cancel it; the final save is
    followed, when that timer falls due, by a second write of the same
    document. *)
Theorem disconnect_writes_twice :
  document <$> timers_of "s1" lost_handle = [("<p>ab</p>", "")] ∧
  debounceTimers lost_handle !! "s1" = None ∧
  (html <$> inMemoryCache lost_handle !! "s1") = Some "<p>ab</p>" ∧
  writes_of "s1" (run drop_out lost_handle).2
    = [("<p>ab</p>", ""); ("<p>ab</p>", "")].
Proof. vm_compute. repeat split; reflexivity. Qed.

(** *** The debounce works while the timer is tracked *)

Lemma writes_of_app sid out1 out2 :
  writes_of sid (out1 ++ out2) = writes_of sid out1 ++ writes_of sid out2.
Proof. unfold writes_of. apply omap_app. Qed.

Lemma run_timers_frame due s :
  let s' := (run_timers due s).1 in
  timers s' = timers s ∧ debounceTimers s' = debounceTimers s ∧
  inMemoryCache s' = inMemoryCache s ∧ now s' = now s ∧ sockets s' = sockets s.
Proof.
  revert s. induction due as [|t due IH]; intros s; simpl; [done|].
  specialize (IH (await (AwaitDebounced (t_socket t)) s)).
  destruct (run_timers due (await (AwaitDebounced (t_socket t)) s)) as [s2 out2].
  exact IH.
Qed.

Lemma run_timers_writes sid due s :
  writes_of sid (run_timers due s).2
  = document <$> filter (λ t, t_socket t = sid) due.
Proof.
  revert s. induction due as [|t due IH]; intros s; simpl; [done|].
  specialize (IH (await (AwaitDebounced (t_socket t)) s)).
  destruct (run_timers due (await (AwaitDebounced (t_socket t)) s)) as [s2 out2].
  simpl in *. unfold writes_of in *. simpl omap. rewrite IH.
  destruct (decide (t_socket t = sid)) as [Heq|Hne].
  - by rewrite filter_cons_True.
  - by rewrite filter_cons_False.
Qed.

Lemma filter_swap {A} (P Q : A → Prop) `{∀ x, Decision (P x)} `{∀ x, Decision (Q x)}
    (l : list A) :
  filter P (filter Q l) = filter Q (filter P l).
Proof.
  induction l as [|x l IH]; [done|].
  destruct (decide (P x)), (decide (Q x));
    repeat (rewrite ?filter_cons_True, ?filter_cons_False by done); by rewrite ?IH.
Qed.

Lemma filter_none {A} (P : A → Prop) `{∀ x, Decision (P x)} (l : list A) :
  (∀ x, x ∈ l → ¬ P x) → filter P l = [].
Proof.
  induction l as [|x l IH]; intros Hno; [done|].
  rewrite filter_cons_False by (apply Hno; left).
  apply IH. intros y Hy. apply Hno. by right.
Qed.

Lemma elapse_frame ms s :
  let s' := (elapse ms s).1 in
  debounceTimers s' = debounceTimers s ∧ inMemoryCache s' = inMemoryCache s ∧
  now s' = now s + ms ∧ sockets s' = sockets s.
Proof.
  unfold elapse. cbv zeta.
  destruct (run_timers_frame
              (filter (λ t, t_due t ≤ now s + ms) (timers s))
              (set_now (now s + ms)
                 (set_timers (filter (λ t, ¬ t_due t ≤ now s + ms) (timers s)) s)))
    as (_ & Hd & Hc & Hn & Hs).
  by rewrite Hd, Hc, Hn, Hs.
Qed.

Lemma elapse_timers_of sid ms s :
  timers_of sid (elapse ms s).1
  = filter (λ t, ¬ t_due t ≤ now s + ms) (timers_of sid s).
Proof.
  unfold elapse, timers_of. cbv zeta.
  destruct (run_timers_frame
              (filter (λ t, t_due t ≤ now s + ms) (timers s))
              (set_now (now s + ms)
                 (set_timers (filter (λ t, ¬ t_due t ≤ now s + ms) (timers s)) s)))
    as (Ht & _).
  rewrite Ht. simpl timers. apply filter_swap.
Qed.

Lemma elapse_writes sid ms s :
  writes_of sid (elapse ms s).2
  = document <$> filter (λ t, t_due t ≤ now s + ms) (timers_of sid s).
Proof.
  unfold elapse, timers_of. cbv zeta. rewrite run_timers_writes.
  f_equal. apply filter_swap.
Qed.

Lemma code_update_frame sid h c s :
  now (code_update sid h c s).1 = now s ∧
  sockets (code_update sid h c s).1 = sockets s.
Proof.
  unfold code_update. destruct (inMemoryCache s !! sid); [|done]. cbv zeta.
  by destruct (debounceTimers _ !! sid).
Qed.

Lemma code_update_cache sid h c session s :
  inMemoryCache s !! sid = Some session →
  inMemoryCache (code_update sid h c s).1 !! sid
  = Some (mkSession (studentId session) (studentName session) (classCode session)
            (socketId session) h c (now s)).
Proof.
  intros Hlook. unfold code_update. rewrite Hlook. cbv zeta.
  destruct (debounceTimers _ !! sid); simpl; by rewrite lookup_insert_eq.
Qed.

(** Re-arming: with the old timer tracked, the connection is left with
    exactly one armed timer, the new one, and it is tracked again. *)
Lemma code_update_rearms sid h c session s :
  inMemoryCache s !! sid = Some session → tracked sid s →
  timers_of sid (code_update sid h c s).1
    = [mkTimer (nextTimer s) (now s + DEBOUNCE_DELAY) sid h c] ∧
  debounceTimers (code_update sid h c s).1 !! sid = Some (nextTimer s).
Proof.
  intros Hlook Htracked. unfold code_update. rewrite Hlook. cbv zeta.
  simpl debounceTimers. unfold tracked in Htracked.
  destruct (debounceTimers s !! sid) as [handle|] eqn:Hd; unfold timers_of; simpl.
  - rewrite lookup_insert_eq. split; [|done].
    rewrite filter_app, filter_swap.
    rewrite filter_none; [by rewrite filter_cons_True|].
    intros t Ht Hne. apply Hne.
    specialize (Htracked t Ht). congruence.
  - rewrite lookup_insert_eq. split; [|done].
    rewrite filter_app. fold (timers_of sid s).
    destruct (timers_of sid s) as [|t rest] eqn:Hts; [by rewrite filter_cons_True|].
    specialize (Htracked t ltac:(left)). discriminate.
Qed.

Lemma writes_of_code_update sid h c s : writes_of sid (code_update sid h c s).2 = [].
Proof.
  unfold code_update. destruct (inMemoryCache s !! sid); [|done]. cbv zeta.
  by destruct (debounceTimers _ !! sid).
Qed.

Lemma run_cons e es s :
  run (e :: es) s
  = ((run es (step e s).1).1, (step e s).2 ++ (run es (step e s).1).2).
Proof.
  cbn [run]. destruct (step e s) as [s1 out1]. cbn [fst snd].
  by destruct (run es s1).
Qed.

Lemma step_code_update sid h c s :
  sid ∈ sockets s → step (E_code_update sid h c) s = code_update sid h c s.
Proof. intros Hin. cbn [step]. unfold on_socket. by rewrite decide_True. Qed.

Lemma step_disconnect sid s :
  sid ∈ sockets s →
  step (E_disconnect sid) s = disconnect sid (socket_closed sid s).
Proof. intros Hin. cbn [step]. unfold on_socket. by rewrite decide_True. Qed.

Lemma tracked_single sid t s :
  timers_of sid s = [t] → debounceTimers s !! sid = Some (t_handle t) → tracked sid s.
Proof.
  intros Hts Hd t' Hin. rewrite Hts in Hin.
  apply list_elem_of_singleton in Hin. by subst t'.
Qed.

(** Two updates of a joined connection less than [DEBOUNCE_DELAY] apart,
    starting with the connection's timer (if any) tracked and followed by
    quiescence: exactly one write, carrying the later document. *)
Lemma debounce_last_write_wins sid h1 c1 h2 c2 a b session s :
  sid ∈ sockets s → inMemoryCache s !! sid = Some session → tracked sid s →
  a < DEBOUNCE_DELAY → DEBOUNCE_DELAY ≤ b →
  writes_of sid
    (run [E_code_update sid h1 c1; E_elapse a; E_code_update sid h2 c2; E_elapse b] s).2
  = [(h2, c2)].
Proof.
  intros Hin Hlook Htracked Ha Hb.
  (* first update *)
  rewrite run_cons, (step_code_update sid h1 c1 s Hin). cbn [snd].
  rewrite writes_of_app, writes_of_code_update, app_nil_l.
  destruct (code_update_rearms sid h1 c1 session s Hlook Htracked) as [Ht1 Hd1].
  pose proof (code_update_cache sid h1 c1 session s Hlook) as Hc1.
  destruct (code_update_frame sid h1 c1 s) as [Hn1 Hs1].
  set (s1 := (code_update sid h1 c1 s).1) in *.
  (* the pause *)
  rewrite run_cons. change (step (E_elapse a) s1) with (elapse a s1). cbn [snd].
  rewrite writes_of_app, elapse_writes, Ht1.
  rewrite filter_cons_False by (cbn [t_due]; lia). rewrite filter_nil, fmap_nil, app_nil_l.
  destruct (elapse_frame a s1) as (Hd2 & Hc2 & Hn2 & Hs2).
  pose proof (elapse_timers_of sid a s1) as Ht2. rewrite Ht1 in Ht2.
  rewrite filter_cons_True in Ht2 by (cbn [t_due]; lia). rewrite filter_nil in Ht2.
  set (s2 := (elapse a s1).1) in *.
  assert (tracked sid s2) as Htracked2.
  { eapply tracked_single; [exact Ht2|]. by rewrite Hd2, Hd1. }
  assert (sid ∈ sockets s2) as Hin2 by (by rewrite Hs2, Hs1).
  rewrite <- Hc2 in Hc1.
  (* second update *)
  rewrite run_cons, (step_code_update sid h2 c2 s2 Hin2). cbn [snd].
  rewrite writes_of_app, writes_of_code_update, app_nil_l.
  destruct (code_update_rearms sid h2 c2 _ s2 Hc1 Htracked2) as [Ht3 _].
  destruct (code_update_frame sid h2 c2 s2) as [Hn3 _].
  set (s3 := (code_update sid h2 c2 s2).1) in *.
  (* quiescence *)
  rewrite run_cons. change (step (E_elapse b) s3) with (elapse b s3). cbn [snd run].
  rewrite app_nil_r, elapse_writes, Ht3.
  rewrite filter_cons_True by (cbn [t_due]; lia). reflexivity.
Qed.


(** *** When tracking is lost *)

Lemma tracked_shrink sid s s' :
  (∀ t, t ∈ timers_of sid s' → t ∈ timers_of sid s) →
  debounceTimers s' !! sid = debounceTimers s !! sid →
  tracked sid s → tracked sid s'.
Proof. intros Hsub Hd Htr t Ht. rewrite Hd. by apply Htr, Hsub. Qed.

Lemma tracked_frame sid s s' :
  timers s' = timers s → debounceTimers s' = debounceTimers s →
  tracked sid s → tracked sid s'.
Proof.
  intros Ht Hd. apply tracked_shrink; [|by rewrite Hd].
  unfold timers_of. by rewrite Ht.
Qed.

(** Steps that leave the timer queue and the handle table alone. *)
Ltac keep_tracked H := revert H; by apply tracked_frame.

Lemma tracked_none sid s : timers_of sid s = [] → tracked sid s.
Proof. intros Hts t Ht. rewrite Hts in Ht. by apply elem_of_nil in Ht. Qed.

Lemma timers_of_clear sid handle s t :
  t ∈ timers_of sid (clearTimeout handle s) → t ∈ timers_of sid s.
Proof.
  unfold timers_of, clearTimeout. simpl timers.
  rewrite !list_elem_of_filter. tauto.
Qed.

Lemma socket_join_frame sid room s :
  timers (socket_join sid room s) = timers s ∧
  debounceTimers (socket_join sid room s) = debounceTimers s.
Proof. unfold socket_join. by case_decide. Qed.

Lemma join_class_resume_frame sid name code uuid doc s :
  timers (join_class_resume sid name code uuid doc s).1 = timers s ∧
  debounceTimers (join_class_resume sid name code uuid doc s).1 = debounceTimers s.
Proof.
  unfold join_class_resume. destruct doc as [d|]; [|done].
  destruct (negb _); [done|]. destruct (Nat.leb _ _); [done|].
  cbn [fst]. destruct (socket_join_frame sid code
    (await (AwaitCreate sid)
       (set_inMemoryCache
          (<[sid:=mkSession uuid name code sid "" "" (now s)]> (inMemoryCache s)) s)))
    as [-> ->]. done.
Qed.

Lemma rejoin_class_resume_frame sid sId name code doc s :
  timers (rejoin_class_resume sid sId name code doc s).1 = timers s ∧
  debounceTimers (rejoin_class_resume sid sId name code doc s).1 = debounceTimers s.
Proof.
  unfold rejoin_class_resume. destruct doc as [d|]; [|done].
  destruct (negb _); [done|]. destruct (Nat.leb _ _); [done|].
  cbn [fst]. destruct (socket_join_frame sid code
    (await (AwaitRejoinUpdate sid)
       (set_inMemoryCache
          (<[sid:=mkSession sId name code sid "" "" (now s)]> (inMemoryCache s)) s)))
    as [-> ->]. done.
Qed.

Lemma subscribe_frame v target s :
  timers (subscribe_to_student v target s).1 = timers s ∧
  debounceTimers (subscribe_to_student v target s).1 = debounceTimers s.
Proof.
  unfold subscribe_to_student.
  set (s1 := match currentSubscription s !! v with
             | Some previous => _ | None => _ end).
  assert (timers s1 = timers s ∧ debounceTimers s1 = debounceTimers s) as [Ht Hd].
  { subst s1. destruct (currentSubscription s !! v) as [p|]; [|done].
    by destruct (truthy p). }
  destruct (socket_join_frame v (student_room target) s1) as [Ht2 Hd2].
  destruct (inMemoryCache _ !! target); cbn [fst]; simpl timers; simpl debounceTimers;
    by rewrite Ht2, Hd2, Ht, Hd.
Qed.

Lemma code_update_tracked sid x h c s :
  tracked sid s → tracked sid (code_update x h c s).1.
Proof.
  intros Htr. destruct (inMemoryCache s !! x) as [session|] eqn:Hlook.
  - destruct (decide (x = sid)) as [->|Hne].
    + destruct (code_update_rearms sid h c session s Hlook Htr) as [Hts Hd].
      by eapply tracked_single.
    + revert Htr. unfold code_update. rewrite Hlook. cbv zeta.
      apply tracked_shrink.
      * intros t. destruct (debounceTimers _ !! x); unfold timers_of; simpl timers;
          rewrite filter_app, filter_cons_False, filter_nil, app_nil_r by done;
          rewrite !list_elem_of_filter; tauto.
      * destruct (debounceTimers _ !! x); simpl debounceTimers;
          by rewrite lookup_insert_ne.
  - unfold code_update. by rewrite Hlook.
Qed.

Lemma disconnect_tracked sid x s0 s :
  timers s0 = timers s → debounceTimers s0 = debounceTimers s →
  tracked sid s → tracked sid (disconnect x s0).1.
Proof.
  intros Ht Hd Htr. apply (tracked_frame sid s s0 Ht Hd) in Htr. clear Ht Hd.
  unfold disconnect. destruct (inMemoryCache s0 !! x) as [session|]; [|done].
  cbn [fst]. destruct (debounceTimers s0 !! x) as [handle|] eqn:Hd; [|done].
  destruct (decide (x = sid)) as [->|Hne].
  - apply tracked_none. unfold timers_of. simpl timers. rewrite filter_swap.
    apply filter_none. intros t Ht Hneq. apply Hneq.
    specialize (Htr t Ht). congruence.
  - revert Htr. apply tracked_shrink.
    + intros t. apply timers_of_clear.
    + simpl debounceTimers. by rewrite lookup_delete_ne.
Qed.

(** Tracking survives every event but one: the reply to a debounced write
    of the connection that arrives while a newer timer of the connection is
    armed (the continuation then deletes the newer timer's handle). *)
Lemma tracked_preserved sid e s :
  tracked sid s →
  (∀ promise, e = E_settled promise true →
     pending s !! promise = Some (AwaitDebounced sid) → timers_of sid s = []) →
  tracked sid (step e s).1.
Proof.
  intros Htr Hreply.
  destruct e as [x|x name code uuid|x sId name code|x code|x target|x h c|x code
                |x code message|x target|x|ms|promise ok];
    cbn [step]; unfold on_socket.
  - case_decide; [exact Htr|]. keep_tracked Htr.
  - case_decide; [|exact Htr]. keep_tracked Htr.
  - case_decide; [|exact Htr]. keep_tracked Htr.
  - case_decide; [|exact Htr]. revert Htr. apply tracked_frame; apply socket_join_frame.
  - case_decide; [|exact Htr]. revert Htr. apply tracked_frame; apply subscribe_frame.
  - case_decide; [|exact Htr]. by apply code_update_tracked.
  - case_decide; exact Htr.
  - case_decide; exact Htr.
  - case_decide; [|exact Htr].
    unfold teacher_kick_student. case_decide; [|exact Htr].
    pose proof (disconnect_tracked sid target
                  (socket_closed target s) s eq_refl eq_refl Htr) as Hdis.
    by destruct (disconnect target (socket_closed target s)).
  - case_decide; [|exact Htr].
    by apply (disconnect_tracked sid x (socket_closed x s) s).
  - revert Htr. apply tracked_shrink.
    + intros t. rewrite elapse_timers_of, list_elem_of_filter. tauto.
    + by destruct (elapse_frame ms s) as (-> & _).
  - unfold settled. destruct (pending s !! promise) as [p|] eqn:Hp; [|exact Htr].
    destruct p as [x name code uuid|x sId name code|x|x|x|x session].
    + destruct ok; [|keep_tracked Htr].
      match goal with
      | |- tracked _ (join_class_resume _ _ _ _ ?doc ?s0).1 =>
          destruct (join_class_resume_frame x name code uuid doc s0) as [Ht Hd]
      end.
      revert Htr. apply tracked_frame; [by rewrite Ht|by rewrite Hd].
    + destruct ok; [|keep_tracked Htr].
      match goal with
      | |- tracked _ (rejoin_class_resume _ _ _ _ ?doc ?s0).1 =>
          destruct (rejoin_class_resume_frame x sId name code doc s0) as [Ht Hd]
      end.
      revert Htr. apply tracked_frame; [by rewrite Ht|by rewrite Hd].
    + keep_tracked Htr.
    + keep_tracked Htr.
    + unfold debounced_write_resume. destruct ok; [|keep_tracked Htr].
      destruct (decide (x = sid)) as [->|Hne].
      * apply tracked_none. exact (Hreply promise eq_refl Hp).
      * revert Htr. apply tracked_shrink; [done|].
        simpl debounceTimers. by rewrite lookup_delete_ne.
    + keep_tracked Htr.
Qed.

Lemma tracked_boot sid dir : tracked sid (boot dir).
Proof. by apply tracked_none. Qed.

Lemma tracked_run sid es s :
  tracked sid s → timely sid es s → tracked sid (run es s).1.
Proof.
  revert s. induction es as [|e es IH]; intros s Htr Htimely; [done|].
  destruct Htimely as [Hreply Htimely]. rewrite run_cons. cbn [fst].
  apply IH; [|done]. by apply tracked_preserved.
Qed.

(** After any history with timely replies the debounce behaves as
    specified: two updates within the window, one write, the later one. *)
Lemma debounce_after_timely_history dir history sid h1 c1 h2 c2 a b session :
  let s := (run history (boot dir)).1 in
  timely sid history (boot dir) →
  sid ∈ sockets s → inMemoryCache s !! sid = Some session →
  a < DEBOUNCE_DELAY → DEBOUNCE_DELAY ≤ b →
  writes_of sid
    (run [E_code_update sid h1 c1; E_elapse a; E_code_update sid h2 c2; E_elapse b] s).2
  = [(h2, c2)].
Proof.
  intros s Htimely Hin Hlook Ha Hb.
  eapply debounce_last_write_wins; try done.
  apply tracked_run; [apply tracked_boot|done].
Qed.

(** ** Worked schedules *)

(** The sixty-first join of a full class is refused, and accepted once one
    of the sixty has left. *)
Example sixty_first_refused :
  received "late" (run (late_join ++ [E_settled 120 true]) full_class).2
  = [join_error "Class is full (maximum 60 students)"].
Proof. vm_compute. reflexivity. Qed.

Example admitted_after_leave :
  received "late"
    (run ([E_disconnect "s7"; E_settled 120 true] ++ late_join ++ [E_settled 121 true])
       full_class).2
  = [join_success "u60" "u60" "late" true].
Proof. vm_compute. reflexivity. Qed.

(** The teacher, switched from the first student to the second, sees only
    the second student's typing. *)
Example teacher_sees_second_student_only :
  received "t1"
    (run ([E_subscribe_to_student "t1" "s1"; E_subscribe_to_student "t1" "s2"]
          ++ both_type) two_students).2
  = [student_code_snapshot "s1" "" "" "Ann" 0;
     student_code_snapshot "s2" "" "" "Bob" 0;
     student_code_update "s2" "<p>two</p>" "" 0].
Proof. vm_compute. reflexivity. Qed.

(** Without a reply in between, the same two updates give one write. *)
Example pair_written_once :
  writes_of "s1"
    (run [E_code_update "s1" "<p>ab</p>" ""; E_elapse 1000;
          E_code_update "s1" "<p>abc</p>" ""; E_elapse 3000] one_student).2
  = [("<p>abc</p>", "")].
Proof. vm_compute. reflexivity. Qed.

(** The ceiling counts the sessions that carry the requested code as it was
    spelled: a request in another letter case is looked up as the same class
    but finds no session with its spelling. *)
Example other_spelling_counted_apart :
  length (currentStudents "AB12CD" full_class) = 60%nat ∧
  length (currentStudents "ab12cd" full_class) = 0%nat ∧
  received "late"
    (run [E_connection "late"; E_join_class "late" "Zed" "ab12cd" "u60";
          E_settled 120 true] full_class).2
  = [join_success "u60" "u60" "late" true].
Proof. vm_compute. repeat split; reflexivity. Qed.

(** * Further properties of the handlers *)

(** ** Requests that are not admitted *)

Lemma received_self sid ev : received sid [emit_self sid ev] = [ev].
Proof. apply received_one. by apply elem_of_singleton. Qed.

Lemma received_self_other v sid ev : v ≠ sid → received v [emit_self sid ev] = [].
Proof.
  intros Hne. unfold received, emit_self. simpl omap.
  rewrite decide_False; [done|]. by rewrite elem_of_singleton.
Qed.

Lemma not_admitted_cases code s :
  ¬ admitted code s →
  ClassDirectory.findOne code (classes s) = None ∨
  (∃ doc, ClassDirectory.findOne code (classes s) = Some doc ∧
          ClassDirectory.isActive doc = false) ∨
  (∃ doc, ClassDirectory.findOne code (classes s) = Some doc ∧
          ClassDirectory.isActive doc = true ∧
          (MAX_STUDENTS_PER_CLASS ≤ length (currentStudents code s))%nat).
Proof.
  intros Hnot. destruct (ClassDirectory.findOne code (classes s)) as [doc|] eqn:Hfind;
    [|by left]. right.
  destruct (ClassDirectory.isActive doc) eqn:Hact; [right|left; eauto].
  exists doc. repeat split; [done|].
  destruct (decide (MAX_STUDENTS_PER_CLASS ≤ length (currentStudents code s))%nat)
    as [|Hlt]; [done|].
  exfalso. apply Hnot. exists doc. repeat split; [done..|lia].
Qed.

(** What a refused request does: one error event to the sender. *)
Lemma join_class_resume_refused sid name code uuid s :
  ¬ admitted code s →
  ∃ message,
    join_class_resume sid name code uuid
      (ClassDirectory.findOne code (classes s)) s
    = (s, [emit_self sid (join_error message)]).
Proof.
  intros Hnot. unfold join_class_resume.
  destruct (not_admitted_cases code s Hnot)
    as [->|[(doc & -> & Hact)|(doc & -> & Hact & Hfull)]]; rewrite ?Hact; simpl negb;
    cbv iota; [by eexists..|].
  destruct (Nat.leb_spec MAX_STUDENTS_PER_CLASS (length (currentStudents code s)));
    [by eexists|lia].
Qed.

Lemma rejoin_class_resume_refused sid sId name code s :
  ¬ admitted code s →
  ∃ message flag,
    rejoin_class_resume sid sId name code
      (ClassDirectory.findOne code (classes s)) s
    = (s, [emit_self sid (rejoin_error message flag)]).
Proof.
  intros Hnot. unfold rejoin_class_resume.
  destruct (not_admitted_cases code s Hnot)
    as [->|[(doc & -> & Hact)|(doc & -> & Hact & Hfull)]]; rewrite ?Hact; simpl negb;
    cbv iota; [by do 2 eexists..|].
  destruct (Nat.leb_spec MAX_STUDENTS_PER_CLASS (length (currentStudents code s)));
    [by do 2 eexists|lia].
Qed.

(** X1. A join or rejoin fails closed.  When its lookup is rejected, or
    resolves while the request is not admitted (unknown code, inactive class,
    or class at the ceiling), the handler changes nothing but the table of
    pending promises: the sender receives exactly one event, an error, nobody
    else receives anything, and no store call is issued. *)
Theorem refused_request_changes_nothing
    (s : State) (promise : nat) (p : Pending) (sid code : string) (ok : bool) :
  pending s !! promise = Some p →
  awaits_lookup p = Some (sid, code) →
  ok = false ∨ ¬ admitted code s →
  let r := settled promise ok s in
  r.1 = set_pending (delete promise (pending s)) s ∧
  (∃ ev, received sid r.2 = [ev] ∧ is_error ev = true) ∧
  (∀ v, v ≠ sid → received v r.2 = []) ∧
  Forall (λ a, is_store a = false) r.2.
Proof.
  intros Hlook Hp Hwhy r. subst r. unfold settled. rewrite Hlook.
  assert (∀ (r0 : State * list Action) s0 ev,
            r0 = (s0, [emit_self sid ev]) → is_error ev = true →
            r0.1 = s0 ∧
            (∃ ev', received sid r0.2 = [ev'] ∧ is_error ev' = true) ∧
            (∀ v, v ≠ sid → received v r0.2 = []) ∧
            Forall (λ a, is_store a = false) r0.2) as Hone.
  { intros r0 s0 ev -> Hev. cbn [fst snd]. split; [done|]. split.
    - exists ev. by rewrite received_self.
    - split; [intros v Hv; by apply received_self_other|by repeat constructor]. }
  destruct p as [x name c uuid|x sId name c|x|x|x|x session]; try discriminate Hp;
    injection Hp as -> ->.
  - destruct ok.
    + destruct Hwhy as [|Hnot]; [done|].
      destruct (join_class_resume_refused sid name code uuid
                  (set_pending (delete promise (pending s)) s) Hnot) as [message Heq].
      cbn [classes set_pending] in Heq |- *. by eapply Hone.
    + cbn [fst snd]. split; [done|]. split.
      * unfold received. simpl omap.
        rewrite decide_True by (by apply elem_of_singleton). by eexists.
      * split; [|by repeat constructor]. intros v Hv. unfold received. simpl omap.
        rewrite decide_False; [done|]. by rewrite elem_of_singleton.
  - destruct ok.
    + destruct Hwhy as [|Hnot]; [done|].
      destruct (rejoin_class_resume_refused sid sId name code
                  (set_pending (delete promise (pending s)) s) Hnot)
        as (message & flag & Heq).
      cbn [classes set_pending] in Heq |- *. by eapply Hone.
    + cbn [fst snd]. split; [done|]. split.
      * unfold received. simpl omap.
        rewrite decide_True by (by apply elem_of_singleton). by eexists.
      * split; [|by repeat constructor]. intros v Hv. unfold received. simpl omap.
        rewrite decide_False; [done|]. by rewrite elem_of_singleton.
Qed.

Lemma refused_request_changes_nothing_witness :
  let r := settled 2 true asking_unknown in
  r.1 = set_pending (delete 2%nat (pending asking_unknown)) asking_unknown ∧
  (∃ ev, received "s9" r.2 = [ev] ∧ is_error ev = true) ∧
  (∀ v, v ≠ "s9" → received v r.2 = []) ∧
  Forall (λ a, is_store a = false) r.2.
Proof.
  apply (refused_request_changes_nothing asking_unknown 2
           (AwaitFindJoin "s9" "Eve" "NOSUCH" "u9") "s9" "NOSUCH" true).
  - vm_compute. reflexivity.
  - reflexivity.
  - right. intros (doc & Hfind & _). vm_compute in Hfind. discriminate.
Defined.

(** ** Updates and snapshots *)

Lemma code_update_registry sid h c session s :
  inMemoryCache s !! sid = Some session →
  inMemoryCache (code_update sid h c s).1
  = <[sid := mkSession (studentId session) (studentName session) (classCode session)
               (socketId session) h c (now s)]> (inMemoryCache s).
Proof.
  intros Hlook. unfold code_update. rewrite Hlook. cbv zeta.
  by destruct (debounceTimers _ !! sid).
Qed.

Lemma subscribe_live_target viewer target session s :
  inMemoryCache s !! target = Some session →
  (subscribe_to_student viewer target s).2
  = [emit_self viewer
       (student_code_snapshot target (html session) (css session)
          (studentName session) (lastUpdate session))].
Proof.
  intros Hlook. unfold subscribe_to_student.
  set (s1 := match currentSubscription s !! viewer with
             | Some previous => _ | None => _ end).
  assert (inMemoryCache s1 = inMemoryCache s) as Hc1.
  { subst s1. destruct (currentSubscription s !! viewer) as [p|]; [|done].
    by destruct (truthy p). }
  simpl inMemoryCache. by rewrite socket_join_cache, Hc1, Hlook.
Qed.

(** X2. An update replaces the document of the sender's session and
    nothing else: the session keeps its student id, name, class and socket
    id, gets the new text and the current time, and every other session is
    untouched; a viewer who subscribes afterwards is sent exactly that
    document in the snapshot, whether or not it has reached the store. *)
Theorem update_then_snapshot
    (s : State) (target viewer h c : string) (session : Session) :
  inMemoryCache s !! target = Some session →
  let s1 := (code_update target h c s).1 in
  inMemoryCache s1 !! target
    = Some (mkSession (studentId session) (studentName session) (classCode session)
              (socketId session) h c (now s)) ∧
  (∀ other, other ≠ target → inMemoryCache s1 !! other = inMemoryCache s !! other) ∧
  (∀ code, length (currentStudents code s1) = length (currentStudents code s)) ∧
  (subscribe_to_student viewer target s1).2
    = [emit_self viewer
         (student_code_snapshot target h c (studentName session) (now s))].
Proof.
  intros Hlook s1.
  assert (inMemoryCache s1 !! target
          = Some (mkSession (studentId session) (studentName session)
                    (classCode session) (socketId session) h c (now s))) as Hnew.
  { subst s1. rewrite (code_update_registry target h c session s Hlook).
    apply lookup_insert_eq. }
  split; [exact Hnew|]. split; [|split].
  - intros other Hne. subst s1.
    rewrite (code_update_registry target h c session s Hlook).
    by apply lookup_insert_ne.
  - intros code. subst s1. unfold currentStudents.
    rewrite (code_update_registry target h c session s Hlook).
    rewrite <- (insert_delete_eq (inMemoryCache s)).
    rewrite map_to_list_insert by apply lookup_delete_eq.
    rewrite <- (map_to_list_delete (inMemoryCache s) target session Hlook).
    cbn [fmap list_fmap snd]. rewrite !filter_cons. cbn [classCode].
    by destruct (decide (classCode session = code)).
  - by rewrite (subscribe_live_target viewer target _ s1 Hnew).
Qed.

Lemma update_then_snapshot_witness :
  let s1 := (code_update "s1" "<h1>x</h1>" "h1{}" one_student).1 in
  inMemoryCache s1 !! "s1"
    = Some (mkSession "u1" "Ann" "AB12CD" "s1" "<h1>x</h1>" "h1{}" 0) ∧
  (subscribe_to_student "t1" "s1" s1).2
    = [emit_self "t1" (student_code_snapshot "s1" "<h1>x</h1>" "h1{}" "Ann" 0)].
Proof.
  destruct (update_then_snapshot one_student "s1" "t1" "<h1>x</h1>" "h1{}"
              (mkSession "u1" "Ann" "AB12CD" "s1" "" "" 0))
    as (Hnew & _ & _ & Hsnap).
  - vm_compute. reflexivity.
  - split; [exact Hnew|exact Hsnap].
Defined.

(** ** What a step does to the registry *)

Lemma run_invariant (P : State → Prop) :
  (∀ e s, P s → P (step e s).1) → ∀ es s, P s → P (run es s).1.
Proof.
  intros Hstep es. induction es as [|e es IH]; intros s HP; [done|].
  rewrite run_cons. cbn [fst]. by apply IH, Hstep.
Qed.

Lemma class_size_lookup code key session (m : gmap string Session) :
  m !! key = Some session →
  class_size code m
  = ((if decide (classCode session = code) then 1 else 0)
     + class_size code (delete key m))%nat.
Proof.
  intros Hlook. unfold class_size.
  rewrite <- (map_to_list_delete m key session Hlook).
  cbn [fmap list_fmap snd]. rewrite filter_cons.
  by destruct (decide (classCode session = code)).
Qed.

Lemma class_size_insert code key session (m : gmap string Session) :
  class_size code (<[key := session]> m)
  = ((if decide (classCode session = code) then 1 else 0)
     + class_size code (delete key m))%nat.
Proof.
  rewrite (class_size_lookup code key session) by apply lookup_insert_eq.
  by rewrite delete_insert_eq.
Qed.

Lemma class_size_delete_le code key (m : gmap string Session) :
  (class_size code (delete key m) ≤ class_size code m)%nat.
Proof.
  destruct (m !! key) as [session|] eqn:Hlook.
  - rewrite (class_size_lookup code key session m Hlook). lia.
  - by rewrite delete_id.
Qed.

Lemma join_class_resume_move sid name code uuid doc s :
  cache_move s (join_class_resume sid name code uuid doc s).1.
Proof.
  unfold join_class_resume. destruct doc as [d|]; [|by apply cache_same].
  destruct (negb _); [by apply cache_same|].
  destruct (Nat.leb_spec MAX_STUDENTS_PER_CLASS (length (currentStudents code s)));
    [by apply cache_same|].
  cbn [fst]. eapply (cache_registered _ _ sid); [by rewrite socket_join_cache|done..].
Qed.

Lemma rejoin_class_resume_move sid sId name code doc s :
  cache_move s (rejoin_class_resume sid sId name code doc s).1.
Proof.
  unfold rejoin_class_resume. destruct doc as [d|]; [|by apply cache_same].
  destruct (negb _); [by apply cache_same|].
  destruct (Nat.leb_spec MAX_STUDENTS_PER_CLASS (length (currentStudents code s)));
    [by apply cache_same|].
  cbn [fst]. eapply (cache_registered _ _ sid); [by rewrite socket_join_cache|done..].
Qed.

Lemma subscribe_cache v target s :
  inMemoryCache (subscribe_to_student v target s).1 = inMemoryCache s.
Proof.
  unfold subscribe_to_student.
  set (s1 := match currentSubscription s !! v with
             | Some previous => _ | None => _ end).
  assert (inMemoryCache s1 = inMemoryCache s) as Hc1.
  { subst s1. destruct (currentSubscription s !! v) as [p|]; [|done].
    by destruct (truthy p). }
  destruct (inMemoryCache _ !! target); cbn [fst]; simpl inMemoryCache;
    by rewrite socket_join_cache, Hc1.
Qed.

Lemma disconnect_cache sid s :
  inMemoryCache (disconnect sid s).1 = inMemoryCache s.
Proof.
  unfold disconnect. destruct (inMemoryCache s !! sid); [|done].
  cbn [fst]. by destruct (debounceTimers s !! sid).
Qed.

Lemma cache_move_from s0 s s' :
  inMemoryCache s0 = inMemoryCache s → now s0 = now s →
  cache_move s0 s' → cache_move s s'.
Proof.
  intros Hc Hn [Heq|sid session Heq Hid Hroom|sid old h c Hold Heq|sid Heq].
  - apply cache_same. by rewrite Heq.
  - eapply (cache_registered _ _ sid session); [by rewrite Heq, Hc|done|].
    unfold currentStudents in *. by rewrite <- Hc.
  - eapply (cache_updated _ _ sid old h c); [by rewrite <- Hc|].
    by rewrite Heq, Hc, Hn.
  - apply (cache_removed _ _ sid). by rewrite Heq, Hc.
Qed.

Lemma step_cache_move e s : cache_move s (step e s).1.
Proof.
  destruct e as [x|x name code uuid|x sId name code|x code|x target|x h c|x code
                |x code message|x target|x|ms|promise ok];
    cbn [step]; unfold on_socket.
  - case_decide; by apply cache_same.
  - case_decide; by apply cache_same.
  - case_decide; by apply cache_same.
  - case_decide; apply cache_same; [apply socket_join_cache|done].
  - case_decide; apply cache_same; [apply subscribe_cache|done].
  - case_decide; [|by apply cache_same].
    destruct (inMemoryCache s !! x) as [old|] eqn:Hlook.
    + eapply cache_updated; [exact Hlook|]. by apply code_update_registry.
    + apply cache_same. unfold code_update. by rewrite Hlook.
  - case_decide; by apply cache_same.
  - case_decide; by apply cache_same.
  - case_decide; [|by apply cache_same].
    unfold teacher_kick_student. case_decide; [|by apply cache_same].
    pose proof (disconnect_cache target (socket_closed target s)) as Hcache.
    destruct (disconnect target (socket_closed target s)) as [s' out].
    by apply cache_same.
  - case_decide; [|by apply cache_same].
    apply cache_same. by rewrite disconnect_cache.
  - apply cache_same. by destruct (elapse_frame ms s) as (_ & -> & _).
  - unfold settled. destruct (pending s !! promise) as [p|]; [|by apply cache_same].
    destruct p as [x name code uuid|x sId name code|x|x|x|x session].
    + destruct ok; [|by apply cache_same].
      apply (cache_move_from (set_pending (delete promise (pending s)) s));
        [done..|]. apply join_class_resume_move.
    + destruct ok; [|by apply cache_same].
      apply (cache_move_from (set_pending (delete promise (pending s)) s));
        [done..|]. apply rejoin_class_resume_move.
    + by apply cache_same.
    + by apply cache_same.
    + unfold debounced_write_resume. destruct ok; by apply cache_same.
    + by apply (cache_removed _ _ x).
Qed.

Lemma cache_move_keyed s s' :
  cache_move s s' → keyed_by_socket s → keyed_by_socket s'.
Proof.
  intros [Heq|sid session Heq Hid _|sid old h c Hold Heq|sid Heq] Hkeyed key session';
    rewrite Heq.
  - apply Hkeyed.
  - rewrite lookup_insert_Some. intros [[<- <-]|[_ Hlook]]; [done|by apply Hkeyed].
  - rewrite lookup_insert_Some. intros [[<- <-]|[_ Hlook]]; [|by apply Hkeyed].
    cbn [socketId]. by apply Hkeyed.
  - rewrite lookup_delete_Some. intros [_ Hlook]. by apply Hkeyed.
Qed.

Lemma cache_move_capacity s s' :
  cache_move s s' → within_capacity s → within_capacity s'.
Proof.
  intros Hmove Hcap code. specialize (Hcap code).
  unfold currentStudents in *. fold (class_size code (inMemoryCache s)) in Hcap.
  fold (class_size code (inMemoryCache s')).
  destruct Hmove as [Heq|sid session Heq _ Hroom|sid old h c Hold Heq|sid Heq];
    rewrite Heq.
  - done.
  - unfold currentStudents in Hroom.
    fold (class_size (classCode session) (inMemoryCache s)) in Hroom.
    rewrite class_size_insert.
    pose proof (class_size_delete_le code sid (inMemoryCache s)).
    destruct (decide (classCode session = code)) as [<-|]; lia.
  - rewrite class_size_insert. cbn [classCode].
    rewrite (class_size_lookup code sid old _ Hold) in Hcap. lia.
  - pose proof (class_size_delete_le code sid (inMemoryCache s)). lia.
Qed.

(** X3. The ceiling is an invariant of the server: whatever clients send
    and in whatever order timers fire and store calls settle, no class code
    ever has more than sixty live sessions in the registry. *)
Theorem capacity_never_exceeded (dir : list ClassDirectory.ClassDoc) (es : list Event) :
  within_capacity (run es (boot dir)).1.
Proof.
  apply (run_invariant within_capacity).
  - intros e s. apply cache_move_capacity, step_cache_move.
  - intros code. unfold currentStudents. cbn [boot inMemoryCache].
    rewrite map_to_list_empty. cbn. lia.
Qed.

(** X4. Every session in the registry is filed under the socket id it
    carries, in every reachable state: the [socketId] reported in student
    lists, snapshots and leave events is the key under which the session can
    be subscribed to and is removed on disconnect. *)
Theorem registry_keyed_by_socket (dir : list ClassDirectory.ClassDoc) (es : list Event) :
  keyed_by_socket (run es (boot dir)).1.
Proof.
  apply (run_invariant keyed_by_socket).
  - intros e s Hkeyed. exact (cache_move_keyed s _ (step_cache_move e s) Hkeyed).
  - intros key session. cbn [boot inMemoryCache]. by rewrite lookup_empty.
Qed.

(** ** The timer queue *)

Section Queue.
Context {A : Type} (R : relation A).

Lemma Forall_sublist_of (P : A → Prop) (l' l : list A) :
  l' `sublist_of` l → Forall P l → Forall P l'.
Proof.
  induction 1 as [|x l1 l2 _ IH|x l1 l2 _ IH]; intros Hall; [done|..].
  - apply Forall_cons in Hall as [Hx Hall]. constructor; [done|by apply IH].
  - apply Forall_cons in Hall as [_ Hall]. by apply IH.
Qed.

Lemma StronglySorted_sublist_of (l' l : list A) :
  l' `sublist_of` l → StronglySorted R l → StronglySorted R l'.
Proof.
  induction 1 as [|x l1 l2 Hsub IH|x l1 l2 _ IH]; intros Hsorted; [done|..].
  - apply StronglySorted_cons in Hsorted as [Hx Hsorted].
    apply StronglySorted_cons. split; [|by apply IH].
    by apply (Forall_sublist_of _ l1 l2).
  - apply StronglySorted_cons in Hsorted as [_ Hsorted]. by apply IH.
Qed.

End Queue.

Lemma timers_wf_sublist time next (l' l : list Timer) :
  l' `sublist_of` l → timers_wf time next l → timers_wf time next l'.
Proof.
  intros Hsub [Hsorted Hall]. split.
  - by apply (StronglySorted_sublist_of _ l' l).
  - by apply (Forall_sublist_of _ l' l).
Qed.

Lemma timers_wf_armed time next l sid h c :
  timers_wf time next l →
  timers_wf time (S next) (l ++ [mkTimer next (time + DEBOUNCE_DELAY) sid h c]).
Proof.
  intros [Hsorted Hall]. split.
  - apply StronglySorted_app. split; [|split; [done|repeat constructor]].
    intros a b Ha Hb. apply list_elem_of_singleton in Hb as ->. cbn.
    rewrite Forall_forall in Hall. destruct (Hall a Ha) as (_ & Hdue & Hh). done.
  - apply Forall_app. split.
    + eapply Forall_impl; [exact Hall|]. cbv beta. intros t (H1 & H2 & H3).
      repeat split; [done..|lia].
    + constructor; [|constructor]. cbn. unfold DEBOUNCE_DELAY. lia.
Qed.

Lemma timers_wf_elapsed time next l ms :
  timers_wf time next l →
  timers_wf (time + ms) next (filter (λ t, ¬ t_due t ≤ time + ms) l).
Proof.
  intros Hwf.
  destruct (timers_wf_sublist time next _ l
              (sublist_filter (λ t, ¬ t_due t ≤ time + ms) l) Hwf) as [Hsorted Hall].
  split; [exact Hsorted|].
  apply Forall_forall. intros t Ht.
  pose proof Ht as Hkeep. apply list_elem_of_filter in Hkeep as [Hlate _].
  rewrite Forall_forall in Hall. destruct (Hall t Ht) as (_ & Hdue & Hh).
  repeat split; [lia|lia|done].
Qed.

Lemma timers_ok_same s s' : same_clock s s' → timers_ok s → timers_ok s'.
Proof. intros (Ht & Hn & Hk). unfold timers_ok. by rewrite Ht, Hn, Hk. Qed.

Lemma same_clock_refl s : same_clock s s.
Proof. by repeat split. Qed.

Lemma socket_join_clock sid room s : same_clock s (socket_join sid room s).
Proof. unfold socket_join. by case_decide. Qed.

Lemma join_class_resume_clock sid name code uuid doc s :
  same_clock s (join_class_resume sid name code uuid doc s).1.
Proof.
  unfold join_class_resume. destruct doc as [d|]; [|done].
  destruct (negb _); [done|]. destruct (Nat.leb _ _); [done|].
  cbn [fst]. by destruct (socket_join_clock sid code
    (await (AwaitCreate sid)
       (set_inMemoryCache
          (<[sid:=mkSession uuid name code sid "" "" (now s)]> (inMemoryCache s)) s)))
    as (Ht & Hn & Hk).
Qed.

Lemma rejoin_class_resume_clock sid sId name code doc s :
  same_clock s (rejoin_class_resume sid sId name code doc s).1.
Proof.
  unfold rejoin_class_resume. destruct doc as [d|]; [|done].
  destruct (negb _); [done|]. destruct (Nat.leb _ _); [done|].
  cbn [fst]. by destruct (socket_join_clock sid code
    (await (AwaitRejoinUpdate sid)
       (set_inMemoryCache
          (<[sid:=mkSession sId name code sid "" "" (now s)]> (inMemoryCache s)) s)))
    as (Ht & Hn & Hk).
Qed.

Lemma subscribe_clock v target s : same_clock s (subscribe_to_student v target s).1.
Proof.
  unfold subscribe_to_student.
  set (s1 := match currentSubscription s !! v with
             | Some previous => _ | None => _ end).
  assert (same_clock s s1) as (Ht & Hn & Hk).
  { subst s1. destruct (currentSubscription s !! v) as [p|]; [|done].
    by destruct (truthy p). }
  destruct (socket_join_clock v (student_room target) s1) as (Ht2 & Hn2 & Hk2).
  unfold same_clock.
  destruct (inMemoryCache _ !! target); cbn [fst]; simpl timers; simpl now;
    simpl nextTimer; by rewrite Ht2, Hn2, Hk2, Ht, Hn, Hk.
Qed.

Lemma code_update_timers_ok sid h c s :
  timers_ok s → timers_ok (code_update sid h c s).1.
Proof.
  intros Hok. unfold code_update. destruct (inMemoryCache s !! sid); [|done].
  cbv zeta. unfold timers_ok.
  destruct (debounceTimers _ !! sid); cbn [fst]; simpl timers; simpl now;
    simpl nextTimer; apply timers_wf_armed; [|exact Hok].
  eapply timers_wf_sublist; [apply sublist_filter|exact Hok].
Qed.

Lemma disconnect_timers_ok sid s0 s :
  same_clock s s0 → timers_ok s → timers_ok (disconnect sid s0).1.
Proof.
  intros Hclock Hok. apply (timers_ok_same s s0 Hclock) in Hok.
  unfold disconnect. destruct (inMemoryCache s0 !! sid); [|done].
  cbn [fst]. destruct (debounceTimers s0 !! sid); [|exact Hok].
  unfold timers_ok. simpl timers. simpl now. simpl nextTimer.
  eapply timers_wf_sublist; [apply sublist_filter|exact Hok].
Qed.

Lemma run_timers_nextTimer due s : nextTimer (run_timers due s).1 = nextTimer s.
Proof.
  revert s. induction due as [|t due IH]; intros s; cbn [run_timers]; [done|].
  unfold debounced_write. specialize (IH (await (AwaitDebounced (t_socket t)) s)).
  destruct (run_timers due (await (AwaitDebounced (t_socket t)) s)) as [s2 out2].
  exact IH.
Qed.

Lemma elapse_timers_ok ms s : timers_ok s → timers_ok (elapse ms s).1.
Proof.
  intros Hok. unfold elapse. cbv zeta.
  destruct (run_timers_frame
              (filter (λ t, t_due t ≤ now s + ms) (timers s))
              (set_now (now s + ms)
                 (set_timers (filter (λ t, ¬ t_due t ≤ now s + ms) (timers s)) s)))
    as (Ht & _ & _ & Hn & _).
  unfold timers_ok. rewrite Ht, Hn, run_timers_nextTimer. simpl timers. simpl now.
  by apply timers_wf_elapsed.
Qed.

Lemma step_timers_ok e s : timers_ok s → timers_ok (step e s).1.
Proof.
  intros Hok.
  destruct e as [x|x name code uuid|x sId name code|x code|x target|x h c|x code
                |x code message|x target|x|ms|promise ok];
    cbn [step]; unfold on_socket.
  - by case_decide.
  - by case_decide.
  - by case_decide.
  - case_decide; [|done]. revert Hok. apply timers_ok_same, socket_join_clock.
  - case_decide; [|done]. revert Hok. apply timers_ok_same, subscribe_clock.
  - case_decide; [|done]. by apply code_update_timers_ok.
  - by case_decide.
  - by case_decide.
  - case_decide; [|done]. unfold teacher_kick_student. case_decide; [|done].
    pose proof (disconnect_timers_ok target (socket_closed target s) s
                  (same_clock_refl _) Hok) as Hdis.
    by destruct (disconnect target (socket_closed target s)).
  - case_decide; [|done].
    by apply (disconnect_timers_ok x (socket_closed x s) s).
  - by apply elapse_timers_ok.
  - unfold settled. destruct (pending s !! promise) as [p|]; [|done].
    destruct p as [x name code uuid|x sId name code|x|x|x|x session].
    + destruct ok; [|done]. revert Hok.
      apply (timers_ok_same s). 
      apply (join_class_resume_clock x name code uuid _
               (set_pending (delete promise (pending s)) s)).
    + destruct ok; [|done]. revert Hok.
      apply (timers_ok_same s).
      apply (rejoin_class_resume_clock x sId name code _
               (set_pending (delete promise (pending s)) s)).
    + done.
    + done.
    + unfold debounced_write_resume. by destruct ok.
    + done.
Qed.

(** X5. In every reachable state the armed debounce timers are in the
    order of their due times, each is due later than now and no later than
    [DEBOUNCE_DELAY] from now, and their handles are increasing, hence
    pairwise distinct: no update waits longer than three seconds for its
    write to be sent, and firing the queue front to back fires it in due
    order. *)
Theorem timers_due_within_delay (dir : list ClassDirectory.ClassDoc) (es : list Event) :
  timers_ok (run es (boot dir)).1.
Proof.
  apply (run_invariant timers_ok).
  - intros e s. apply step_timers_ok.
  - split; constructor.
Qed.

(** ** Who receives what *)

Lemma disconnect_no_update sid s : Forall no_update_action (disconnect sid s).2.
Proof.
  unfold disconnect. destruct (inMemoryCache s !! sid); cbn [snd]; by repeat constructor.
Qed.

Lemma run_timers_no_update due s : Forall no_update_action (run_timers due s).2.
Proof.
  revert s. induction due as [|t due IH]; intros s; cbn [run_timers]; [constructor|].
  unfold debounced_write. specialize (IH (await (AwaitDebounced (t_socket t)) s)).
  destruct (run_timers due (await (AwaitDebounced (t_socket t)) s)) as [s2 out2].
  cbn [snd app] in *. by constructor.
Qed.

Lemma join_class_resume_no_update sid name code uuid doc s :
  Forall no_update_action (join_class_resume sid name code uuid doc s).2.
Proof.
  unfold join_class_resume. destruct doc as [d|]; [|by repeat constructor].
  destruct (negb _); [by repeat constructor|].
  destruct (Nat.leb _ _); by repeat constructor.
Qed.

Lemma rejoin_class_resume_no_update sid sId name code doc s :
  Forall no_update_action (rejoin_class_resume sid sId name code doc s).2.
Proof.
  unfold rejoin_class_resume. destruct doc as [d|]; [|by repeat constructor].
  destruct (negb _); [by repeat constructor|].
  destruct (Nat.leb _ _); by repeat constructor.
Qed.

(** Only the [code_update] handler delivers document updates. *)
Lemma step_no_update e s :
  (∀ sid h c, e ≠ E_code_update sid h c) → Forall no_update_action (step e s).2.
Proof.
  intros Hother.
  destruct e as [x|x name code uuid|x sId name code|x code|x target|x h c|x code
                |x code message|x target|x|ms|promise ok];
    cbn [step]; unfold on_socket.
  - case_decide; constructor.
  - case_decide; by repeat constructor.
  - case_decide; by repeat constructor.
  - case_decide; by repeat constructor.
  - case_decide; [|constructor]. unfold subscribe_to_student.
    destruct (inMemoryCache _ !! target); by repeat constructor.
  - by destruct (Hother x h c).
  - case_decide; by repeat constructor.
  - case_decide; by repeat constructor.
  - case_decide; [|constructor]. unfold teacher_kick_student.
    case_decide; [|by repeat constructor].
    pose proof (disconnect_no_update target (socket_closed target s)) as Hdis.
    destruct (disconnect target (socket_closed target s)) as [s' out].
    by constructor.
  - case_decide; [|constructor]. apply disconnect_no_update.
  - apply run_timers_no_update.
  - unfold settled. destruct (pending s !! promise) as [p|]; [|constructor].
    destruct p as [x name code uuid|x sId name code|x|x|x|x session].
    + destruct ok; [apply join_class_resume_no_update|by repeat constructor].
    + destruct ok; [apply rejoin_class_resume_no_update|by repeat constructor].
    + destruct ok; by repeat constructor.
    + destruct ok; by repeat constructor.
    + unfold debounced_write_resume. destruct ok; by repeat constructor.
    + unfold disconnect_resume. destruct ok; by repeat constructor.
Qed.

(** X6. A document update reaches a connection only as the immediate
    effect of a [code_update] of its source, a connected socket with a
    registered session; it carries exactly the text of that event and the
    current time; and the receiver is a member of the source's personal room
    at that moment and is not the source itself.  The streams of all other
    students, and every other kind of event, deliver no update. *)
Theorem update_reaches_only_subscribers
    (e : Event) (s : State) (v x h c : string) (ts : N) :
  student_code_update x h c ts ∈ received v (step e s).2 →
  e = E_code_update x h c ∧ ts = now s ∧
  x ∈ sockets s ∧ is_Some (inMemoryCache s !! x) ∧
  v ∈ room_members (student_room x) s ∧ v ≠ x.
Proof.
  intros Hin. apply received_elem in Hin as (recipients & Hemit & Hv).
  assert ((∃ sid h' c', e = E_code_update sid h' c') ∨
          ¬ (∃ sid h' c', e = E_code_update sid h' c'))
    as [(sid & h' & c' & ->)|Hother].
  { destruct e; try (right; by intros (? & ? & ? & ?)). left. eauto. }
  - cbn [step] in Hemit. unfold on_socket in Hemit.
    destruct (decide (sid ∈ sockets s)) as [Hconn|]; [|by apply elem_of_nil in Hemit].
    destruct (inMemoryCache s !! sid) as [session|] eqn:Hlook.
    + rewrite (code_update_out sid h' c' session s Hlook) in Hemit.
      apply list_elem_of_singleton in Hemit. injection Hemit as -> -> -> -> ->.
      apply elem_of_difference in Hv as [Hroom Hne].
      rewrite elem_of_singleton in Hne. by repeat split; eauto.
    + unfold code_update in Hemit. rewrite Hlook in Hemit.
      by apply elem_of_nil in Hemit.
  - exfalso.
    assert (∀ sid h' c', e ≠ E_code_update sid h' c') as Hne
      by (intros sid h' c' ->; apply Hother; eauto).
    pose proof (step_no_update e s Hne) as Hall.
    rewrite Forall_forall in Hall. exact (Hall _ Hemit).
Qed.

Lemma update_reaches_only_subscribers_witness :
  E_code_update "s1" "<p>hi</p>" "" = E_code_update "s1" "<p>hi</p>" "" ∧
  0 = now watching_first ∧
  "s1" ∈ sockets watching_first ∧ is_Some (inMemoryCache watching_first !! "s1") ∧
  "t1" ∈ room_members (student_room "s1") watching_first ∧ "t1" ≠ "s1".
Proof.
  apply (update_reaches_only_subscribers
           (E_code_update "s1" "<p>hi</p>" "") watching_first "t1" "s1" "<p>hi</p>" "" 0).
  assert (received "t1" (step (E_code_update "s1" "<p>hi</p>" "") watching_first).2
          = [student_code_update "s1" "<p>hi</p>" "" 0]) as ->
    by (vm_compute; reflexivity).
  apply list_elem_of_singleton. reflexivity.
Defined.

Lemma addressed_self v sid ev s : sid ≠ v → addressed_in_room v s (emit_self sid ev).
Proof. intros Hne Hin. apply elem_of_singleton in Hin. by subst. Qed.

Lemma addressed_to v sid room ev s0 s :
  rooms s0 = rooms s → addressed_in_room v s (emit_to sid room ev s0).
Proof.
  intros Hrooms Hin. apply elem_of_difference in Hin as [Hin _].
  exists room. unfold room_members in *. by rewrite <- Hrooms.
Qed.

Lemma disconnect_addressed v sid s0 s :
  Forall (addressed_in_room v s) (disconnect sid s0).2.
Proof.
  unfold disconnect. destruct (inMemoryCache s0 !! sid); cbn [snd]; by repeat constructor.
Qed.

Lemma run_timers_addressed v due s0 s :
  Forall (addressed_in_room v s) (run_timers due s0).2.
Proof.
  revert s0. induction due as [|t due IH]; intros s0; cbn [run_timers]; [constructor|].
  unfold debounced_write. specialize (IH (await (AwaitDebounced (t_socket t)) s0)).
  destruct (run_timers due (await (AwaitDebounced (t_socket t)) s0)) as [s2 out2].
  cbn [snd app] in *. by constructor.
Qed.

Lemma join_class_resume_addressed v sid name code uuid doc s0 s :
  sid ≠ v → rooms s0 = rooms s →
  Forall (addressed_in_room v s) (join_class_resume sid name code uuid doc s0).2.
Proof.
  intros Hne Hrooms. unfold join_class_resume.
  destruct doc as [d|]; [|by repeat constructor; apply addressed_self].
  destruct (negb _); [by repeat constructor; apply addressed_self|].
  destruct (Nat.leb _ _); [by repeat constructor; apply addressed_self|].
  cbn [snd]. constructor; [exact I|]. constructor; [|by repeat constructor; apply addressed_self].
  intros Hin. apply elem_of_difference in Hin as [Hin Hnot].
  rewrite elem_of_singleton in Hnot. rewrite room_members_join in Hin.
  exists code. case_decide.
  - apply elem_of_union in Hin as [Hin|Hin]; [by apply elem_of_singleton in Hin|].
    unfold room_members in *. by rewrite <- Hrooms.
  - unfold room_members in *. by rewrite <- Hrooms.
Qed.

Lemma rejoin_class_resume_addressed v sid sId name code doc s0 s :
  sid ≠ v → rooms s0 = rooms s →
  Forall (addressed_in_room v s) (rejoin_class_resume sid sId name code doc s0).2.
Proof.
  intros Hne Hrooms. unfold rejoin_class_resume.
  destruct doc as [d|]; [|by repeat constructor; apply addressed_self].
  destruct (negb _); [by repeat constructor; apply addressed_self|].
  destruct (Nat.leb _ _); [by repeat constructor; apply addressed_self|].
  cbn [snd]. constructor; [exact I|]. constructor; [|by repeat constructor; apply addressed_self].
  intros Hin. apply elem_of_difference in Hin as [Hin Hnot].
  rewrite elem_of_singleton in Hnot. rewrite room_members_join in Hin.
  exists code. case_decide.
  - apply elem_of_union in Hin as [Hin|Hin]; [by apply elem_of_singleton in Hin|].
    unfold room_members in *. by rewrite <- Hrooms.
  - unfold room_members in *. by rewrite <- Hrooms.
Qed.

(** Whatever a step sends to a connection that did not cause it goes
    through a room the connection is in. *)
Lemma step_addressed v e s :
  ¬ acts v s e → Forall (addressed_in_room v s) (step e s).2.
Proof.
  destruct e as [x|x name code uuid|x sId name code|x code|x target|x h c|x code
                |x code message|x target|x|ms|promise ok];
    cbn [step acts]; unfold on_socket; intros Hacts.
  - case_decide; constructor.
  - case_decide; by repeat constructor.
  - case_decide; by repeat constructor.
  - case_decide; by repeat constructor.
  - case_decide; [|constructor]. unfold subscribe_to_student.
    destruct (inMemoryCache _ !! target); repeat constructor. by apply addressed_self.
  - case_decide; [|constructor].
    destruct (inMemoryCache s !! x) as [session|] eqn:Hlook.
    + rewrite (code_update_out x h c session s Hlook). repeat constructor.
      intros Hin. apply elem_of_difference in Hin as [Hin _]. eauto.
    + unfold code_update. rewrite Hlook. constructor.
  - case_decide; repeat constructor. by apply addressed_self.
  - case_decide; repeat constructor. by apply addressed_to.
  - case_decide; [|constructor]. unfold teacher_kick_student.
    assert (addressed_in_room v s
              (namespace_emit_to target
                 (force_disconnect "You were removed from the class by the teacher") s))
      as Hnotice by (intros Hin; eauto).
    case_decide; [|by repeat constructor].
    pose proof (disconnect_addressed v target (socket_closed target s) s) as Hdis.
    destruct (disconnect target (socket_closed target s)) as [s' out].
    by constructor.
  - case_decide; [|constructor]. apply disconnect_addressed.
  - apply run_timers_addressed.
  - unfold settled. destruct (pending s !! promise) as [p|]; [|constructor].
    destruct p as [x name code uuid|x sId name code|x|x|x|x session].
    + destruct ok; [by apply join_class_resume_addressed|].
      repeat constructor. by apply addressed_self.
    + destruct ok; [by apply rejoin_class_resume_addressed|].
      repeat constructor. by apply addressed_self.
    + destruct ok; by repeat constructor.
    + destruct ok; by repeat constructor.
    + unfold debounced_write_resume. destruct ok; by repeat constructor.
    + unfold disconnect_resume. destruct ok; repeat constructor; by apply addressed_to.
Qed.

(** A connection in no room, taking no action, is sent nothing. *)
Lemma roomless_receives_nothing v es s :
  (∀ room, v ∉ room_members room s) → quiet v es s →
  received v (run es s).2 = [].
Proof.
  revert s. induction es as [|e es IH]; intros s Hnone Hquiet; [done|].
  destruct Hquiet as [Hacts Hquiet]. rewrite run_cons. cbn [snd].
  unfold received in *. rewrite omap_app. rewrite IH; [|by intros room Hin; eapply Hnone, step_no_gain; eauto|done].
  rewrite app_nil_r.
  pose proof (step_addressed v e s Hacts) as Hall.
  induction Hall as [|a out Ha _ IHout]; [done|]. cbn [omap list_omap].
  rewrite IHout. destruct a as [recipients ev| | |]; try done.
  case_decide as Hin; [|done]. destruct (Ha Hin) as [room Hroom].
  by destruct (Hnone room).
Qed.

(** X7. The disconnect of a connection that has no session (a teacher, or
    a student whose join was refused) writes nothing to the store and tells
    nobody: the registry and the timers are untouched, the connection is out
    of every room, and from then on nothing at all is sent to it, whatever
    the other connections do. *)
Theorem unjoined_disconnect_is_silent (s : State) (v : string) :
  v ∈ sockets s → inMemoryCache s !! v = None →
  let r := step (E_disconnect v) s in
  r.2 = [] ∧
  inMemoryCache r.1 = inMemoryCache s ∧ timers r.1 = timers s ∧
  debounceTimers r.1 = debounceTimers s ∧ pending r.1 = pending s ∧
  (v ∉ sockets r.1) ∧ (∀ room, v ∉ room_members room r.1) ∧
  (∀ es, quiet v es r.1 → received v (run es r.1).2 = []).
Proof.
  intros Hconn Hnone r. subst r. rewrite (step_disconnect v s Hconn).
  unfold disconnect. rewrite socket_closed_cache, Hnone. cbn [fst snd].
  assert (∀ room, v ∉ room_members room (socket_closed v s)) as Hrooms.
  { intros room. rewrite room_members_closed, elem_of_difference, elem_of_singleton.
    tauto. }
  repeat split; try done.
  - cbn [socket_closed sockets set_rooms set_sockets].
    rewrite elem_of_difference, elem_of_singleton. tauto.
  - intros es Hquiet. by apply roomless_receives_nothing.
Qed.

Lemma unjoined_disconnect_is_silent_witness :
  let r := step (E_disconnect "t1") watching_first in
  r.2 = [] ∧
  inMemoryCache r.1 = inMemoryCache watching_first ∧ timers r.1 = timers watching_first ∧
  debounceTimers r.1 = debounceTimers watching_first ∧
  pending r.1 = pending watching_first ∧
  ("t1" ∉ sockets r.1) ∧ (∀ room, "t1" ∉ room_members room r.1) ∧
  received "t1" (run both_type r.1).2 = [].
Proof.
  destruct (unjoined_disconnect_is_silent watching_first "t1")
    as (H1 & H2 & H3 & H4 & H5 & H6 & H7 & H8).
  - apply (bool_decide_unpack _). vm_compute. exact I.
  - vm_compute. reflexivity.
  - split; [exact H1|]. split; [exact H2|]. split; [exact H3|]. split; [exact H4|].
    split; [exact H5|]. split; [exact H6|]. split; [exact H7|].
    apply H8. vm_compute.
    repeat split; intros Habs; (discriminate Habs || exact Habs).
Defined.

(** ** Leaving: disconnect and removal by the teacher *)

(** The listener of a joined connection, right after its socket closed. *)
Lemma disconnect_joined sid session s :
  inMemoryCache s !! sid = Some session →
  ∃ s1,
    disconnect sid (socket_closed sid s)
    = (await (AwaitFinalSave sid session) s1,
       [Store (UpdateBySocket sid (html session) (css session) (now s))]) ∧
    nextPromise s1 = nextPromise s ∧
    inMemoryCache s1 = inMemoryCache s ∧
    rooms s1 = rooms (socket_closed sid s) ∧
    sockets s1 = sockets s ∖ {[sid]} ∧
    debounceTimers s1 !! sid = None ∧
    (tracked sid s → timers_of sid s1 = []).
Proof.
  intros Hlook. unfold disconnect. rewrite socket_closed_cache, Hlook.
  eexists. split; [reflexivity|]. simpl debounceTimers.
  destruct (debounceTimers s !! sid) as [handle|] eqn:Hd.
  - repeat split.
    + simpl debounceTimers. apply lookup_delete_eq.
    + intros Htracked. unfold timers_of. simpl timers. rewrite filter_swap.
      apply filter_none. intros t Ht Hne. apply Hne.
      specialize (Htracked t Ht). congruence.
  - repeat split; [done|].
    intros Htracked. change (timers_of sid s = []). unfold tracked in Htracked.
    destruct (timers_of sid s) as [|t rest] eqn:Hts; [done|].
    specialize (Htracked t ltac:(left)). congruence.
Qed.

Lemma writes_of_final_save sid h c ts :
  writes_of sid [Store (UpdateBySocket sid h c ts)] = [(h, c)].
Proof. unfold writes_of. simpl omap. by rewrite decide_True. Qed.

(** X8. Removing a student runs the student's own disconnect.  If the
    target is connected and joined, the kick sends it the removal notice
    through its own room, closes its socket (out of the namespace and of every
    room) and issues the final save of its current document; when that save
    settles, whatever its outcome, the session is gone from the registry and
    the rest of its class room is told that the student left.  If the target
    is not connected, only the notice is emitted and nothing changes. *)
Theorem kick_runs_disconnect
    (s : State) (teacher target : string) (session : Session) (ok : bool) :
  teacher ∈ sockets s →
  let r1 := step (E_teacher_kick_student teacher target) s in
  let r2 := settled (nextPromise s) ok r1.1 in
  let notice := force_disconnect "You were removed from the class by the teacher" in
  (target ∈ sockets s → inMemoryCache s !! target = Some session →
   (target ∈ room_members target s → notice ∈ received target r1.2) ∧
   writes_of target r1.2 = [(html session, css session)] ∧
   (target ∉ sockets r1.1) ∧ (∀ room, target ∉ room_members room r1.1) ∧
   inMemoryCache r2.1 = delete target (inMemoryCache s) ∧
   deliveries is_group_event r2.2
     = [room_members (classCode session) s ∖ {[target]}]) ∧
  (target ∉ sockets s → r1 = (s, [Emit (room_members target s) notice])).
Proof.
  intros Hteacher r1 r2 notice. subst r1 r2.
  cbn [step]. unfold on_socket. rewrite decide_True by done.
  unfold teacher_kick_student. split.
  - intros Htarget Hlook. rewrite decide_True by done.
    destruct (disconnect_joined target session s Hlook)
      as (s1 & -> & Hn & Hc & Hrooms & Hsock & _ & _).
    cbn [fst snd].
    assert (∀ room, room_members room s1 = room_members room s ∖ {[target]}) as Hmem.
    { intros room. unfold room_members at 1. rewrite Hrooms.
      apply room_members_closed. }
    split; [|split; [|split; [|split; [|split]]]].
    + intros Hown. apply received_elem. eexists. split; [left|exact Hown].
    + unfold writes_of. simpl omap. by rewrite decide_True.
    + simpl sockets. rewrite Hsock, elem_of_difference, elem_of_singleton. tauto.
    + intros room. change (target ∉ room_members room s1).
      rewrite Hmem, elem_of_difference, elem_of_singleton. tauto.
    + unfold settled. unfold await at 1. simpl pending. rewrite Hn, lookup_insert_eq.
      unfold disconnect_resume. cbn [fst]. simpl inMemoryCache. by rewrite Hc.
    + unfold settled. unfold await at 1. simpl pending. rewrite Hn, lookup_insert_eq.
      unfold disconnect_resume. cbn [snd].
      assert (emit_to target (classCode session)
                (student_left target (studentId session) (studentName session)
                   "disconnected")
                (set_inMemoryCache
                   (delete target
                      (inMemoryCache
                         (set_pending
                            (delete (nextPromise s)
                               (<[nextPromise s:=AwaitFinalSave target session]>
                                  (pending s1)))
                            (await (AwaitFinalSave target session) s1))))
                   (set_pending
                      (delete (nextPromise s)
                         (<[nextPromise s:=AwaitFinalSave target session]>
                            (pending s1)))
                      (await (AwaitFinalSave target session) s1)))
              = Emit (room_members (classCode session) s ∖ {[target]})
                  (student_left target (studentId session) (studentName session)
                     "disconnected")) as ->.
      { unfold emit_to. f_equal.
        change (room_members (classCode session) s1 ∖ {[target]}
                = room_members (classCode session) s ∖ {[target]}).
        rewrite Hmem. apply set_eq. intros x. rewrite !elem_of_difference. tauto. }
      by destruct ok.
  - intros Hgone. by rewrite decide_False.
Qed.

Lemma kick_runs_disconnect_witness :
  let r1 := step (E_teacher_kick_student "t1" "s1") two_students in
  let r2 := settled (nextPromise two_students) false r1.1 in
  let notice := force_disconnect "You were removed from the class by the teacher" in
  notice ∈ received "s1" r1.2 ∧
  writes_of "s1" r1.2 = [("", "")] ∧
  ("s1" ∉ sockets r1.1) ∧
  inMemoryCache r2.1 = delete "s1" (inMemoryCache two_students) ∧
  step (E_teacher_kick_student "t1" "nobody") two_students
    = (two_students, [Emit (room_members "nobody" two_students) notice]).
Proof.
  intros r1 r2 notice.
  assert ("t1" ∈ sockets two_students) as Ht
    by (apply (bool_decide_unpack _); vm_compute; exact I).
  destruct (kick_runs_disconnect two_students "t1" "s1"
              (mkSession "u1" "Ann" "AB12CD" "s1" "" "" 0) false Ht) as [Hjoined _].
  destruct (kick_runs_disconnect two_students "t1" "nobody"
              (mkSession "u1" "Ann" "AB12CD" "s1" "" "" 0) false Ht) as [_ Hgone].
  destruct Hjoined as (Hnotice & Hwrite & Hsock & _ & Hcache & _).
  - apply (bool_decide_unpack _). vm_compute. exact I.
  - vm_compute. reflexivity.
  - split; [|split; [exact Hwrite|split; [exact Hsock|split; [exact Hcache|]]]].
    + apply Hnotice. apply (bool_decide_unpack _). vm_compute. exact I.
    + apply Hgone. apply (bool_decide_unpack _). vm_compute. exact I.
Defined.

(** X9. A completed disconnect leaves nothing of the connection behind,
    provided its timer was still tracked: after the listener and the settling
    of its final save (whatever the outcome) the connection has no session,
    no timer handle and no armed timer, it is out of the namespace and of
    every room, and every other session is as before. *)
Theorem disconnect_leaves_nothing_behind
    (s : State) (sid : string) (session : Session) (ok : bool) :
  sid ∈ sockets s → inMemoryCache s !! sid = Some session → tracked sid s →
  let s2 := (run [E_disconnect sid; E_settled (nextPromise s) ok] s).1 in
  inMemoryCache s2 = delete sid (inMemoryCache s) ∧
  debounceTimers s2 !! sid = None ∧
  timers_of sid s2 = [] ∧
  (sid ∉ sockets s2) ∧ (∀ room, sid ∉ room_members room s2).
Proof.
  intros Hconn Hlook Htracked s2. subst s2.
  rewrite run_cons, (step_disconnect sid s Hconn).
  destruct (disconnect_joined sid session s Hlook)
    as (s1 & -> & Hn & Hc & Hrooms & Hsock & Hd & Ht).
  cbn [fst]. rewrite run_cons. cbn [run fst step]. unfold settled.
  unfold await at 1. simpl pending. rewrite Hn, lookup_insert_eq.
  unfold disconnect_resume. cbn [fst].
  split; [simpl inMemoryCache; by rewrite Hc|].
  split; [exact Hd|]. split; [exact (Ht Htracked)|]. split.
  - simpl sockets. rewrite Hsock, elem_of_difference, elem_of_singleton. tauto.
  - intros room. unfold room_members. simpl rooms. rewrite Hrooms.
    fold (room_members room (socket_closed sid s)).
    rewrite room_members_closed, elem_of_difference, elem_of_singleton. tauto.
Qed.

Lemma one_student_tracked : tracked "s1" one_student.
Proof. apply tracked_none. vm_compute. reflexivity. Qed.

Lemma disconnect_leaves_nothing_behind_witness :
  let s2 := (run [E_disconnect "s1"; E_settled (nextPromise one_student) true]
               one_student).1 in
  inMemoryCache s2 = delete "s1" (inMemoryCache one_student) ∧
  debounceTimers s2 !! "s1" = None ∧
  timers_of "s1" s2 = [] ∧
  ("s1" ∉ sockets s2) ∧ (∀ room, "s1" ∉ room_members room s2).
Proof.
  apply (disconnect_leaves_nothing_behind one_student "s1"
           (mkSession "u1" "Ann" "AB12CD" "s1" "" "" 0) true).
  - apply (bool_decide_unpack _). vm_compute. exact I.
  - vm_compute. reflexivity.
  - apply one_student_tracked.
Defined.

(** ** The teacher's room and the student list *)

(** X10. A teacher who joins the class room is not a student: the registry
    and the count of the class are unchanged, so the teacher takes no seat
    under the ceiling and is never listed, and when a student is then
    admitted, the teacher receives the [student_joined] event of that
    student. *)
Theorem teacher_hears_joins
    (s : State) (teacher sid name code uuid : string) (doc : ClassDirectory.ClassDoc) :
  teacher ∈ sockets s → teacher ≠ sid →
  ClassDirectory.isActive doc = true →
  (length (currentStudents code s) < MAX_STUDENTS_PER_CLASS)%nat →
  let s1 := (teacher_join_room teacher code s).1 in
  (teacher_join_room teacher code s).2 = [] ∧
  inMemoryCache s1 = inMemoryCache s ∧
  currentStudents code s1 = currentStudents code s ∧
  student_joined name sid uuid (now s) false
    ∈ received teacher (join_class_resume sid name code uuid (Some doc) s1).2.
Proof.
  intros Hconn Hne Hact Hlt s1. subst s1. unfold teacher_join_room. cbn [fst snd].
  split; [done|]. split; [apply socket_join_cache|].
  split; [apply currentStudents_cache, socket_join_cache|].
  set (s1 := socket_join teacher code s).
  assert (now s1 = now s) as Hnow by apply socket_join_clock.
  assert (teacher ∈ room_members code s1) as Hroom.
  { subst s1. rewrite room_members_join, decide_True by done.
    apply elem_of_union_l. by apply elem_of_singleton. }
  assert (length (currentStudents code s1) < MAX_STUDENTS_PER_CLASS)%nat as Hlt1
    by (by rewrite (currentStudents_cache code s s1) by apply socket_join_cache).
  rewrite (join_class_resume_admitted sid name code uuid doc s1 Hact Hlt1).
  cbn [snd]. rewrite Hnow. apply received_elem. eexists. split; [right; left|].
  rewrite elem_of_difference, elem_of_singleton. split; [|done].
  rewrite room_members_join.
  assert (room_members code
            (await (AwaitCreate sid)
               (set_inMemoryCache
                  (<[sid:=mkSession uuid name code sid "" "" (now s)]>
                     (inMemoryCache s1)) s1))
          = room_members code s1) as -> by reflexivity.
  case_decide; [by apply elem_of_union_r|done].
Qed.

Lemma teacher_hears_joins_witness :
  let s1 := (teacher_join_room "t1" "AB12CD" teacher_and_student).1 in
  (teacher_join_room "t1" "AB12CD" teacher_and_student).2 = [] ∧
  inMemoryCache s1 = inMemoryCache teacher_and_student ∧
  currentStudents "AB12CD" s1 = currentStudents "AB12CD" teacher_and_student ∧
  student_joined "Bob" "s2" "u2" (now teacher_and_student) false
    ∈ received "t1"
        (join_class_resume "s2" "Bob" "AB12CD" "u2"
           (Some (ClassDirectory.mkClass "Web basics" "AB12CD" true)) s1).2.
Proof.
  apply (teacher_hears_joins teacher_and_student "t1" "s2" "Bob" "AB12CD" "u2"
           (ClassDirectory.mkClass "Web basics" "AB12CD" true)).
  - apply (bool_decide_unpack _). vm_compute. exact I.
  - discriminate.
  - reflexivity.
  - vm_compute. lia.
Defined.

Lemma NoDup_fmap_filter {A B} (f : A → B) (P : A → Prop) `{∀ x, Decision (P x)}
    (l : list A) :
  NoDup (f <$> l) → NoDup (f <$> filter P l).
Proof.
  induction l as [|x l IH]; [done|]. cbn [fmap list_fmap].
  rewrite NoDup_cons. intros [Hx Hl]. rewrite filter_cons.
  destruct (decide (P x)); [|by apply IH].
  cbn [fmap list_fmap]. apply NoDup_cons. split; [|by apply IH].
  intros Hin. apply Hx. apply list_elem_of_fmap in Hin as (y & -> & Hy).
  apply list_elem_of_fmap. exists y. split; [done|].
  by apply list_elem_of_filter in Hy as [_ Hy].
Qed.

Lemma socket_ids_are_keys s :
  keyed_by_socket s →
  socketId <$> (map_to_list (inMemoryCache s)).*2 = (map_to_list (inMemoryCache s)).*1.
Proof.
  intros Hkeyed.
  assert (∀ kv, kv ∈ map_to_list (inMemoryCache s) → socketId kv.2 = kv.1) as Hall.
  { intros [k v] Hin. apply elem_of_map_to_list in Hin. by apply Hkeyed. }
  induction (map_to_list (inMemoryCache s)) as [|kv l IH]; [done|].
  cbn [fmap list_fmap]. rewrite (Hall kv) by left. f_equal.
  apply IH. intros kv' Hin. apply Hall. by right.
Qed.

(** X11. In every reachable state the student list sent for a class code
    goes to the requester only, changes nothing, and is exactly the class's
    part of the registry: an entry [(socketId, studentId, name, lastUpdate)]
    is listed if and only if a session with these fields and that class code
    is registered under that socket id; no socket id is listed twice, and
    the list has at most sixty entries. *)
Theorem student_list_is_class_registry
    (dir : list ClassDirectory.ClassDoc) (es : list Event) (sid code : string) :
  let s := (run es (boot dir)).1 in
  ∃ students,
    get_student_list sid code s = (s, [Emit {[sid]} (student_list students)]) ∧
    (length students ≤ MAX_STUDENTS_PER_CLASS)%nat ∧
    NoDup ((λ entry, entry.1.1.1) <$> students) ∧
    ∀ key sId name updated,
      (key, sId, name, updated) ∈ students ↔
      ∃ session,
        inMemoryCache s !! key = Some session ∧ classCode session = code ∧
        studentId session = sId ∧ studentName session = name ∧
        lastUpdate session = updated.
Proof.
  intros s.
  assert (keyed_by_socket (run es (boot dir)).1) as Hkeyed.
  { apply (run_invariant keyed_by_socket).
    - intros e s0 Hk. exact (cache_move_keyed s0 _ (step_cache_move e s0) Hk).
    - intros key session. cbn [boot inMemoryCache]. by rewrite lookup_empty. }
  fold s in Hkeyed.
  assert (within_capacity (run es (boot dir)).1) as Hceiling.
  { apply (run_invariant within_capacity).
    - intros e s0. apply cache_move_capacity, step_cache_move.
    - intros code0. unfold currentStudents. cbn [boot inMemoryCache].
      rewrite map_to_list_empty. cbn. lia. }
  pose proof (Hceiling code) as Hcap. fold s in Hcap. clear Hceiling.
  eexists. split; [reflexivity|]. split; [by rewrite length_map|]. split.
  - rewrite <- list_fmap_compose.
    change ((λ entry : string * string * string * N, entry.1.1.1)
              ∘ (λ session, (socketId session, studentId session,
                             studentName session, lastUpdate session)))
      with socketId.
    unfold currentStudents. apply NoDup_fmap_filter.
    rewrite (socket_ids_are_keys s Hkeyed). apply NoDup_fst_map_to_list.
  - intros key sId name updated. unfold currentStudents.
    change (map ?f ?l) with (f <$> l). rewrite list_elem_of_fmap. split.
    + intros (session & Heq & Hin). injection Heq as -> -> -> ->.
      apply list_elem_of_filter in Hin as [Hcode Hin].
      apply list_elem_of_fmap in Hin as ([k v] & -> & Hin).
      apply elem_of_map_to_list in Hin. cbn [snd] in *.
      exists v. rewrite (Hkeyed k v Hin). done.
    + intros (session & Hlook & Hcode & <- & <- & <-).
      exists session. rewrite (Hkeyed key session Hlook). split; [done|].
      apply list_elem_of_filter. split; [done|].
      apply list_elem_of_fmap. exists (key, session). split; [done|].
      by apply elem_of_map_to_list.
Qed.

(** ** Bursts of updates *)












(** X14. From the start of the server the armed timers of a connection stay
    recorded in [debounceTimers], and so can be cancelled by the next update
    or by the disconnect, through every schedule in which each successful
    reply to a debounced write of the connection arrives while none of its
    timers is armed. *)
Theorem timers_stay_cancellable
    (dir : list ClassDirectory.ClassDoc) (es : list Event) (sid : string) :
  timely sid es (boot dir) → tracked sid (run es (boot dir)).1.
Proof. intros Htimely. apply tracked_run; [apply tracked_boot|exact Htimely]. Qed.

Lemma timers_stay_cancellable_witness :
  tracked "s1" (run calm_history (boot sample_dir)).1.
Proof.
  apply (timers_stay_cancellable sample_dir calm_history "s1").
  cbn [timely calm_history].
  repeat split; intros promise Heq Hp; try discriminate Heq;
    vm_compute; reflexivity.
Defined.

(** ** A join that resumes after the socket closed *)

Lemma socket_join_pending sid room s :
  pending (socket_join sid room s) = pending s.
Proof. unfold socket_join. by case_decide. Qed.

Lemma subscribe_pending v target s :
  pending (subscribe_to_student v target s).1 = pending s.
Proof.
  unfold subscribe_to_student.
  set (s1 := match currentSubscription s !! v with
             | Some previous => _ | None => _ end).
  assert (pending s1 = pending s) as Hp.
  { subst s1. destruct (currentSubscription s !! v) as [p|]; [|done].
    by destruct (truthy p). }
  destruct (inMemoryCache _ !! target); cbn [fst]; simpl pending;
    by rewrite socket_join_pending, Hp.
Qed.

Lemma orphaned_same sid s s' :
  sockets s' = sockets s → inMemoryCache s' = inMemoryCache s →
  pending s' = pending s → orphaned sid s → orphaned sid s'.
Proof. intros Hs Hc Hp. unfold orphaned. by rewrite Hs, Hc, Hp. Qed.

Lemma orphaned_await sid p s :
  (∀ session, p ≠ AwaitFinalSave sid session) → orphaned sid s → orphaned sid (await p s).
Proof.
  intros Hp (Hs & Hc & Hpend). split; [done|]. split; [done|].
  intros promise session. unfold await. simpl pending.
  rewrite lookup_insert_Some. intros [[_ Heq]|[_ Hlook]].
  - by apply (Hp session).
  - by apply (Hpend promise session).
Qed.

Lemma orphaned_settle sid promise s :
  orphaned sid s → orphaned sid (set_pending (delete promise (pending s)) s).
Proof.
  intros (Hs & Hc & Hpend). split; [done|]. split; [done|].
  intros k session. simpl pending. rewrite lookup_delete_Some.
  intros [_ Hlook]. by apply (Hpend k session).
Qed.

Lemma orphaned_insert sid x session s :
  orphaned sid s →
  orphaned sid (set_inMemoryCache (<[x := session]> (inMemoryCache s)) s).
Proof.
  intros (Hs & Hc & Hpend). split; [done|]. split; [|done].
  simpl inMemoryCache. destruct (decide (x = sid)) as [->|Hne].
  - rewrite lookup_insert_eq. eauto.
  - by rewrite lookup_insert_ne.
Qed.

Lemma orphaned_closed sid x s : orphaned sid s → orphaned sid (socket_closed x s).
Proof.
  intros (Hs & Hc & Hpend). split; [|done]. simpl sockets.
  rewrite elem_of_difference. tauto.
Qed.

Lemma run_timers_orphaned sid due s :
  orphaned sid s → orphaned sid (run_timers due s).1.
Proof.
  revert s. induction due as [|t due IH]; intros s Horph; cbn [run_timers]; [done|].
  unfold debounced_write.
  assert (orphaned sid (await (AwaitDebounced (t_socket t)) s)) as Hnext
    by (apply orphaned_await; [by intros session [=]|done]).
  specialize (IH _ Hnext).
  by destruct (run_timers due (await (AwaitDebounced (t_socket t)) s)).
Qed.

Lemma join_class_resume_orphaned sid x name code uuid doc s :
  orphaned sid s → orphaned sid (join_class_resume x name code uuid doc s).1.
Proof.
  intros Horph. unfold join_class_resume. destruct doc as [d|]; [|done].
  destruct (negb _); [done|]. destruct (Nat.leb _ _); [done|]. cbn [fst].
  eapply orphaned_same;
    [apply socket_join_sockets|apply socket_join_cache|apply socket_join_pending|].
  apply orphaned_await; [by intros session [=]|]. by apply orphaned_insert.
Qed.

Lemma rejoin_class_resume_orphaned sid x sId name code doc s :
  orphaned sid s → orphaned sid (rejoin_class_resume x sId name code doc s).1.
Proof.
  intros Horph. unfold rejoin_class_resume. destruct doc as [d|]; [|done].
  destruct (negb _); [done|]. destruct (Nat.leb _ _); [done|]. cbn [fst].
  eapply orphaned_same;
    [apply socket_join_sockets|apply socket_join_cache|apply socket_join_pending|].
  apply orphaned_await; [by intros session [=]|]. by apply orphaned_insert.
Qed.

Lemma disconnect_orphaned sid x s :
  x ≠ sid → orphaned sid s → orphaned sid (disconnect x s).1.
Proof.
  intros Hne Horph. unfold disconnect.
  destruct (inMemoryCache s !! x) as [session|]; [|done]. cbn [fst].
  apply orphaned_await; [by intros session' [=]|].
  destruct (debounceTimers s !! x); [|done]. revert Horph. by apply orphaned_same.
Qed.

Lemma step_orphaned sid e s :
  e ≠ E_connection sid → orphaned sid s → orphaned sid (step e s).1.
Proof.
  intros Hnot Horph. pose proof Horph as (Hclosed & Hsome & Hpend).
  destruct e as [x|x name code uuid|x sId name code|x code|x target|x h c|x code
                |x code message|x target|x|ms|promise ok];
    cbn [step]; unfold on_socket.
  - case_decide; [done|]. split; [|done]. simpl sockets.
    rewrite elem_of_union, elem_of_singleton. intros [->|]; [by apply Hnot|done].
  - case_decide; [|done]. apply orphaned_await; [by intros session [=]|done].
  - case_decide; [|done]. apply orphaned_await; [by intros session [=]|done].
  - case_decide; [|done]. revert Horph.
    apply orphaned_same;
      [apply socket_join_sockets|apply socket_join_cache|apply socket_join_pending].
  - case_decide; [|done]. revert Horph.
    apply orphaned_same; [apply subscribe_sockets|apply subscribe_cache|apply subscribe_pending].
  - case_decide as Hx; [|done].
    destruct (inMemoryCache s !! x) as [session|] eqn:Hlook.
    + split; [by rewrite (proj2 (code_update_frame x h c s))|]. split.
      * rewrite (code_update_registry x h c session s Hlook).
        rewrite lookup_insert_ne; [done|]. by intros ->.
      * unfold code_update. rewrite Hlook. cbv zeta.
        by destruct (debounceTimers _ !! x).
    + unfold code_update. by rewrite Hlook.
  - by case_decide.
  - by case_decide.
  - case_decide; [|done]. unfold teacher_kick_student. case_decide as Ht; [|done].
    assert (target ≠ sid) as Hne by (by intros ->).
    pose proof (disconnect_orphaned sid target (socket_closed target s) Hne
                  (orphaned_closed sid target s Horph)) as Hdis.
    by destruct (disconnect target (socket_closed target s)).
  - case_decide as Hx; [|done].
    apply disconnect_orphaned; [by intros ->|by apply orphaned_closed].
  - unfold elapse. cbv zeta. apply run_timers_orphaned.
    revert Horph. by apply orphaned_same.
  - unfold settled. destruct (pending s !! promise) as [p|] eqn:Hp; [|done].
    pose proof (orphaned_settle sid promise s Horph) as Hsettled.
    destruct p as [x name code uuid|x sId name code|x|x|x|x session].
    + destruct ok; [|done]. by apply join_class_resume_orphaned.
    + destruct ok; [|done]. by apply rejoin_class_resume_orphaned.
    + done.
    + done.
    + unfold debounced_write_resume. destruct ok; [|done].
      revert Hsettled. by apply orphaned_same.
    + unfold disconnect_resume. cbn [fst].
      assert (x ≠ sid) as Hne by (intros ->; by apply (Hpend promise session)).
      destruct Hsettled as (H1 & H2 & H3). split; [done|]. split; [|done].
      simpl inMemoryCache. by rewrite lookup_delete_ne.
Qed.

Lemma disconnect_unjoined sid s :
  inMemoryCache s !! sid = None → disconnect sid s = (s, []).
Proof. intros Hnone. unfold disconnect. by rewrite Hnone. Qed.

Lemma settled_join promise sid name code uuid s :
  pending s !! promise = Some (AwaitFindJoin sid name code uuid) →
  settled promise true s
  = join_class_resume sid name code uuid
      (ClassDirectory.findOne code (classes s))
      (set_pending (delete promise (pending s)) s).
Proof. intros Hlook. unfold settled. by rewrite Hlook. Qed.

(** X15. A join that resumes after its socket closed leaves a session
    nobody can remove.  If a connection without a session disconnects while
    the lookup of its join is outstanding, and the lookup then resolves with
    the request admitted, the handler registers a session for the closed
    socket: the class counts one more student although nobody is connected,
    and, since the socket's disconnect is already over, the session stays in
    the registry through every later schedule in which that socket id does
    not connect again. *)
Theorem late_join_leaves_orphan
    (s : State) (promise : nat) (sid name code uuid : string) :
  sid ∈ sockets s → inMemoryCache s !! sid = None →
  pending s !! promise = Some (AwaitFindJoin sid name code uuid) →
  admitted code s →
  (∀ k session, pending s !! k ≠ Some (AwaitFinalSave sid session)) →
  let s1 := (run [E_disconnect sid; E_settled promise true] s).1 in
  inMemoryCache s1 !! sid = Some (mkSession uuid name code sid "" "" (now s)) ∧
  (sid ∉ sockets s1) ∧
  length (currentStudents code s1) = S (length (currentStudents code s)) ∧
  ∀ es, Forall (λ e, e ≠ E_connection sid) es →
        is_Some (inMemoryCache (run es s1).1 !! sid) ∧ sid ∉ sockets (run es s1).1.
Proof.
  intros Hconn Hnone Hlook (doc & Hfind & Hact & Hlt) Hpend s1.
  set (s0 := set_pending (delete promise (pending s)) (socket_closed sid s)).
  assert (s1 = (join_class_resume sid name code uuid (Some doc) s0).1) as Hs1.
  { subst s1. rewrite run_cons, (step_disconnect sid s Hconn).
    rewrite (disconnect_unjoined sid (socket_closed sid s)) by exact Hnone.
    cbn [fst]. rewrite run_cons. cbn [run fst].
    change (step (E_settled promise true) (socket_closed sid s))
      with (settled promise true (socket_closed sid s)).
    rewrite (settled_join promise sid name code uuid (socket_closed sid s)) by exact Hlook.
    change (classes (socket_closed sid s)) with (classes s). by rewrite Hfind. }
  assert (length (currentStudents code s0) < MAX_STUDENTS_PER_CLASS)%nat as Hlt0
    by exact Hlt.
  rewrite (join_class_resume_admitted sid name code uuid doc s0 Hact Hlt0) in Hs1.
  cbn [fst] in Hs1.
  assert (inMemoryCache s1
          = <[sid := mkSession uuid name code sid "" "" (now s)]> (inMemoryCache s))
    as Hcache by (rewrite Hs1; apply socket_join_cache).
  assert (sid ∉ sockets s1) as Hclosed.
  { rewrite Hs1, socket_join_sockets. simpl sockets.
    rewrite elem_of_difference, elem_of_singleton. tauto. }
  assert (pending s1
          = <[nextPromise s := AwaitCreate sid]> (delete promise (pending s))) as Hp1
    by (rewrite Hs1; apply socket_join_pending).
  split; [by rewrite Hcache, lookup_insert_eq|]. split; [done|]. split.
  - unfold currentStudents. rewrite Hcache.
    fold (class_size code (<[sid:=mkSession uuid name code sid "" "" (now s)]>
                             (inMemoryCache s))).
    fold (class_size code (inMemoryCache s)).
    rewrite class_size_insert, delete_id by done. cbn [classCode].
    by rewrite decide_True.
  - intros es Hes.
    assert (orphaned sid s1) as Horph.
    { split; [done|]. split; [by rewrite Hcache, lookup_insert_eq; eauto|].
      intros k session. rewrite Hp1, lookup_insert_Some, lookup_delete_Some.
      intros [[_ [=]]|[_ [_ Hk]]]. by apply (Hpend k session). }
    clear Hs1 Hcache Hclosed Hp1.
    assert (orphaned sid (run es s1).1) as (H1 & H2 & _); [|done].
    revert Horph. generalize s1. induction Hes as [|e es He _ IH]; intros s' Horph;
      [done|].
    rewrite run_cons. cbn [fst]. apply IH. by apply step_orphaned.
Qed.

Lemma late_join_leaves_orphan_witness :
  let s1 := (run [E_disconnect "s2"; E_settled 2 true] asking_to_join).1 in
  inMemoryCache s1 !! "s2"
  = Some (mkSession "u2" "Bob" "AB12CD" "s2" "" "" (now asking_to_join)) ∧
  ("s2" ∉ sockets s1) ∧
  length (currentStudents "AB12CD" s1)
  = S (length (currentStudents "AB12CD" asking_to_join)) ∧
  ∀ es, Forall (λ e, e ≠ E_connection "s2") es →
        is_Some (inMemoryCache (run es s1).1 !! "s2") ∧ "s2" ∉ sockets (run es s1).1.
Proof.
  apply (late_join_leaves_orphan asking_to_join 2 "s2" "Bob" "AB12CD" "u2").
  - apply (bool_decide_unpack _). vm_compute. exact I.
  - vm_compute. reflexivity.
  - vm_compute. reflexivity.
  - exists (ClassDirectory.mkClass "Web basics" "AB12CD" true).
    split; [vm_compute; reflexivity|]. split; [reflexivity|].
    apply Nat.ltb_lt. vm_compute. reflexivity.
  - intros k session.
    assert (pending asking_to_join
            = {[2%nat := AwaitFindJoin "s2" "Bob" "AB12CD" "u2"]}) as ->
      by (vm_compute; reflexivity).
    rewrite lookup_singleton_Some. by intros [_ [=]].
Defined.

(** * Properties of the Class model and of the class routes *)

Section ClassCodes.
Import ClassDirectory ClassModel.

Lemma toUpperCase_app a b : toUpperCase (a +:+ b) = toUpperCase a +:+ toUpperCase b.
Proof. induction a as [|c a IH]; simpl; [done|]. by rewrite IH. Qed.

Lemma all_chars_app p a b :
  all_chars p (a +:+ b) = all_chars p a && all_chars p b.
Proof.
  induction a as [|c a IH]; simpl; [done|]. by rewrite IH, andb_assoc.
Qed.

Lemma length_app a b : String.length (a +:+ b) = (String.length a + String.length b)%nat.
Proof. induction a as [|c a IH]; simpl; [done|]. by rewrite IH. Qed.

Lemma hex_byte_upper b : all_chars upper_hex (toUpperCase (hex_byte b)) = true.
Proof. destruct b; reflexivity. Qed.

Lemma hex_byte_length b : String.length (toUpperCase (hex_byte b)) = 2%nat.
Proof. reflexivity. Qed.

Lemma code_of_shape draw : is_class_code (code_of draw) = true.
Proof.
  destruct draw as [[b0 b1] b2]. unfold is_class_code, code_of.
  apply andb_true_intro. split; [reflexivity|].
  cbn [toString_hex]. rewrite !toUpperCase_app, !all_chars_app, !hex_byte_upper.
  reflexivity.
Qed.

Lemma upper_hex_fixed c : upper_hex c = true → upper_ascii c = c.
Proof.
  destruct c as [[] [] [] [] [] [] [] []]; intros H; try reflexivity;
    vm_compute in H; discriminate H.
Qed.

Lemma all_upper_hex_fixed v : all_chars upper_hex v = true → toUpperCase v = v.
Proof.
  induction v as [|c v IH]; simpl; [done|].
  intros [Hc Hv]%andb_prop. by rewrite upper_hex_fixed, IH.
Qed.

Lemma class_code_fixed v : is_class_code v = true → classCode_setter v = v.
Proof.
  unfold is_class_code. intros [_ Hv]%andb_prop. by apply all_upper_hex_fixed.
Qed.

Lemma class_code_truthy v : is_class_code v = true → truthy v = true.
Proof. unfold is_class_code. by destruct v. Qed.

End ClassCodes.

Section Generation.
Import ClassDirectory ClassModel.

Lemma hex_byte_inj b b' :
  toUpperCase (hex_byte b) = toUpperCase (hex_byte b') → b = b'.
Proof.
  pose (val := λ c : ascii,
          let n := N_of_ascii c in if n <? 58 then n - 48 else n - 55).
  pose (parse := λ v : string,
          match v with
          | String h (String l EmptyString) => Byte.of_N (16 * val h + val l)
          | _ => None
          end).
  assert (∀ x, parse (toUpperCase (hex_byte x)) = Some x) as Hparse
    by (intros x; destruct x; reflexivity).
  intros Heq. apply (f_equal parse) in Heq. rewrite !Hparse in Heq.
  by injection Heq.
Qed.

Lemma code_of_inj d d' : code_of d = code_of d' → d = d'.
Proof.
  destruct d as [[b0 b1] b2], d' as [[b0' b1'] b2']. unfold code_of.
  cbn [toString_hex]. rewrite !toUpperCase_app.
  change (toUpperCase EmptyString) with EmptyString.
  assert (∀ b, ∃ h l, toUpperCase (hex_byte b) = String h (String l EmptyString))
    as Hshape by (intros b; by eexists _, _).
  destruct (Hshape b0) as (h0 & l0 & E0), (Hshape b1) as (h1 & l1 & E1),
    (Hshape b2) as (h2 & l2 & E2), (Hshape b0') as (h0' & l0' & E0'),
    (Hshape b1') as (h1' & l1' & E1'), (Hshape b2') as (h2' & l2' & E2').
  rewrite E0, E1, E2, E0', E1', E2'. cbn [String.app].
  intros [= -> -> -> -> -> ->].
  rewrite <- E0' in E0. rewrite <- E1' in E1. rewrite <- E2' in E2.
  by rewrite (hex_byte_inj _ _ E0), (hex_byte_inj _ _ E1), (hex_byte_inj _ _ E2).
Qed.

Lemma generate_first draws rows code :
  generate draws rows = Some code →
  ∃ taken draw rest,
    draws = taken ++ draw :: rest ∧ code = code_of draw ∧
    findOne code (directory rows) = None ∧
    Forall (λ d, is_Some (findOne (code_of d) (directory rows))) taken.
Proof.
  induction draws as [|d draws IH]; [done|]. cbn [generate].
  destruct (findOne (code_of d) (directory rows)) as [doc|] eqn:Hfind.
  - intros (taken & draw & rest & -> & Hcode & Hnone & Htaken)%IH.
    exists (d :: taken), draw, rest. repeat split; [done..|].
    constructor; [by rewrite Hfind|done].
  - intros [= <-]. exists [], d, draws. by repeat split.
Qed.

Lemma generate_returns draws rows :
  Exists (λ d, findOne (code_of d) (directory rows) = None) draws →
  is_Some (generate draws rows).
Proof.
  induction draws as [|d draws IH]; intros Hex; [by apply Exists_nil in Hex|].
  cbn [generate].
  destruct (findOne (code_of d) (directory rows)) as [doc|] eqn:Hfind; [|by eexists].
  apply IH. apply Exists_cons in Hex as [Hd|Hex]; [congruence|done].
Qed.

Lemma findOne_setter req dir :
  findOne (classCode_setter req) dir = findOne req dir.
Proof. unfold findOne, classCode_setter. by rewrite toUpperCase_idem. Qed.

End Generation.

(** X16. The [pre('save')] hook of the Class model gives a document without
    a class code the code of the first draw of [crypto.randomBytes(3)] that
    no stored class carries, and returns as soon as there is such a draw.
    The code has six upper-case hexadecimal digits, so the [uppercase]
    setter stores it as generated, and before the save no spelling of it, in
    any letter case, resolves to a class. *)
Theorem generated_code_is_new (now : N) (draws : list ClassModel.Draw)
    (doc : ClassModel.Doc) (rows : list ClassModel.Doc) :
  ClassModel.classCode doc = EmptyString →
  Exists (λ d, ClassDirectory.findOne (ClassModel.code_of d)
                 (ClassModel.directory rows) = None) draws →
  ∃ taken draw rest,
    draws = taken ++ draw :: rest ∧
    Forall (λ d, is_Some (ClassDirectory.findOne (ClassModel.code_of d)
                            (ClassModel.directory rows))) taken ∧
    ClassModel.pre_save now draws doc rows
    = Some (ClassModel.set_updatedAt now
              (ClassModel.set_classCode (ClassModel.code_of draw) doc)) ∧
    ClassModel.is_class_code (ClassModel.code_of draw) = true ∧
    ∀ req, ClassDirectory.same_modulo_case req (ClassModel.code_of draw) →
           ClassDirectory.findOne req (ClassModel.directory rows) = None.
Proof.
  intros Hempty Hex.
  destruct (generate_returns draws rows Hex) as [code Hgen].
  destruct (generate_first draws rows code Hgen)
    as (taken & draw & rest & Hdraws & -> & Hnone & Htaken).
  exists taken, draw, rest. split; [done|]. split; [done|].
  pose proof (code_of_shape draw) as Hshape. split; [|split; [done|]].
  - unfold ClassModel.pre_save. rewrite Hempty, Hgen. cbn [truthy].
    by rewrite (class_code_fixed _ Hshape).
  - intros req Hcase. rewrite <- findOne_setter.
    unfold ClassDirectory.classCode_setter. rewrite Hcase.
    fold (ClassDirectory.classCode_setter (ClassModel.code_of draw)).
    by rewrite (class_code_fixed _ Hshape).
Qed.

(** X17. The class code keeps all the information of the three random
    bytes: draws that differ in any byte give different codes. *)
Theorem distinct_draws_distinct_codes (d d' : ClassModel.Draw) :
  d ≠ d' → ClassModel.code_of d ≠ ClassModel.code_of d'.
Proof. intros Hne Heq. by apply Hne, code_of_inj. Qed.

Section Collection.
Import ClassDirectory ClassModel.

Lemma directory_codes rows : map code (directory rows) = map classCode rows.
Proof. unfold directory. rewrite map_map. reflexivity. Qed.

Lemma well_formed_directory rows :
  well_formed rows → stored (directory rows) ∧ unique_codes (directory rows).
Proof.
  intros (_ & Hcodes & Hshape). split.
  - unfold stored, directory. apply Forall_map.
    eapply Forall_impl; [exact Hshape|]. intros d Hd. by apply class_code_fixed.
  - unfold unique_codes. by rewrite directory_codes.
Qed.

Lemma NoDup_map_inj {A B} (f : A → B) (l : list A) x y :
  NoDup (map f l) → In x l → In y l → f x = f y → x = y.
Proof.
  induction l as [|a l IH]; [done|]. cbn [map].
  intros [Hnotin Hnd]%NoDup_cons [->|Hx] [->|Hy] Heq; try done.
  - exfalso. apply Hnotin. rewrite Heq. by apply list_elem_of_In, in_map.
  - exfalso. apply Hnotin. rewrite <- Heq. by apply list_elem_of_In, in_map.
  - by apply IH.
Qed.

Lemma NoDup_map_filter {A B} (f : A → B) (p : A → bool) (l : list A) :
  NoDup (map f l) → NoDup (map f (List.filter p l)).
Proof.
  induction l as [|a l IH]; [done|]. cbn [map List.filter].
  intros [Hnotin Hnd]%NoDup_cons. destruct (p a); [|by apply IH].
  cbn [map]. apply NoDup_cons. split; [|by apply IH].
  intros Hin%list_elem_of_In%in_map_iff. destruct Hin as (x & Hfx & Hx%filter_In).
  apply Hnotin. rewrite <- Hfx. by apply list_elem_of_In, in_map, Hx.
Qed.

Lemma NoDup_map_snoc {A B} (f : A → B) (l : list A) a :
  NoDup (map f l) → ¬ In (f a) (map f l) → NoDup (map f (l ++ [a])).
Proof.
  intros Hnd Hnotin. rewrite map_app. cbn [map]. apply NoDup_app.
  split; [done|]. split; [|apply NoDup_singleton].
  intros x Hx%list_elem_of_In ->%list_elem_of_singleton. by apply Hnotin.
Qed.

Lemma find_by_id oid rows d :
  List.find (λ d, String.eqb (_id d) oid) rows = Some d → In d rows ∧ _id d = oid.
Proof. intros [Hin Heq%String.eqb_eq]%find_some. done. Qed.

Lemma find_by_id_None oid rows :
  List.find (λ d, String.eqb (_id d) oid) rows = None →
  ∀ d, In d rows → _id d ≠ oid.
Proof.
  intros Hnone d Hin. apply String.eqb_neq.
  exact (find_none _ _ Hnone d Hin).
Qed.

Lemma findOne_absent c rows :
  classCode_setter c = c → findOne c (directory rows) = None →
  ¬ In c (map classCode rows).
Proof.
  intros Hfix Hnone (d & Hcode & Hin)%in_map_iff.
  unfold findOne in Hnone. rewrite Hfix in Hnone.
  pose proof (find_none _ _ Hnone (entry d) (in_map entry _ _ Hin)) as Hd.
  cbn in Hd. rewrite Hcode, String.eqb_refl in Hd. discriminate Hd.
Qed.

Lemma insertOne_inr doc rows rows' :
  insertOne doc rows = inr rows' →
  rows' = rows ++ [doc] ∧ ¬ In (_id doc) (map _id rows) ∧
  ¬ In (classCode doc) (map classCode rows).
Proof.
  unfold insertOne.
  destruct (existsb _ rows) eqn:Hex; [done|]. intros [= <-]. split; [done|].
  assert (∀ d, In d rows → _id d ≠ _id doc ∧ classCode d ≠ classCode doc) as Hall.
  { intros d Hin. destruct (String.eqb_spec (_id d) (_id doc)) as [Hi|Hi];
      destruct (String.eqb_spec (classCode d) (classCode doc)) as [Hc|Hc];
      try done; exfalso;
      (assert (existsb (λ d, String.eqb (_id d) (_id doc)
                             || String.eqb (classCode d) (classCode doc)) rows
               = true) as Ht;
       [apply existsb_exists; exists d; split; [done|];
        rewrite ?Hi, ?Hc, ?String.eqb_refl; by rewrite ?orb_true_r
       |congruence]). }
  split; intros (d & Heq & Hin)%in_map_iff; by destruct (Hall d Hin).
Qed.

Lemma well_formed_insert doc rows rows' :
  well_formed rows → is_class_code (classCode doc) = true →
  insertOne doc rows = inr rows' → well_formed rows'.
Proof.
  intros (Hids & Hcodes & Hshape) Hdoc (-> & Hid & Hcode)%insertOne_inr.
  split; [by apply NoDup_map_snoc|]. split; [by apply NoDup_map_snoc|].
  apply Forall_app. split; [done|]. by constructor.
Qed.

Lemma well_formed_delete doc rows : well_formed rows → well_formed (deleteOne doc rows).
Proof.
  intros (Hids & Hcodes & Hshape). unfold deleteOne.
  split; [by apply NoDup_map_filter|]. split; [by apply NoDup_map_filter|].
  apply Forall_forall. intros d Hd%list_elem_of_In%filter_In.
  rewrite Forall_forall in Hshape. by apply Hshape, list_elem_of_In, Hd.
Qed.

(** The write of a loaded document that kept its identifier and its code. *)
Lemma updateOne_same_code doc d0 rows :
  well_formed rows → In d0 rows → _id doc = _id d0 → classCode doc = classCode d0 →
  updateOne doc rows
  = inr (map (λ d, if String.eqb (_id d) (_id doc) then doc else d) rows).
Proof.
  intros (Hids & Hcodes & _) Hin Hid Hcode. unfold updateOne.
  destruct (existsb _ rows) eqn:Hex; [|done]. exfalso.
  apply existsb_exists in Hex as (d & Hd & Hboth).
  apply andb_prop in Hboth as [Hne%negb_true_iff%String.eqb_neq Heq%String.eqb_eq].
  apply Hne. rewrite Hid. f_equal.
  apply (NoDup_map_inj classCode rows); [done..|]. by rewrite Heq.
Qed.

Lemma replaced_rows doc d0 rows :
  well_formed rows → In d0 rows → _id doc = _id d0 →
  ∀ d, In d rows →
       (if String.eqb (_id d) (_id doc) then doc else d)
       = (if String.eqb (_id d) (_id d0) then doc else d) ∧
       (String.eqb (_id d) (_id d0) = true → d = d0).
Proof.
  intros (Hids & _) Hin Hid d Hd. rewrite Hid. split; [done|].
  intros Heq%String.eqb_eq. by apply (NoDup_map_inj _id rows).
Qed.

Lemma map_replaced {B} (f : Doc → B) doc d0 rows :
  well_formed rows → In d0 rows → _id doc = _id d0 → f doc = f d0 →
  map f (map (λ d, if String.eqb (_id d) (_id doc) then doc else d) rows)
  = map f rows.
Proof.
  intros Hwf Hin Hid Hf. rewrite map_map. apply map_ext_in. intros d Hd.
  destruct (replaced_rows doc d0 rows Hwf Hin Hid d Hd) as [-> Hsame].
  destruct (String.eqb (_id d) (_id d0)) eqn:Heq; [|done].
  by rewrite (Hsame eq_refl).
Qed.

Lemma well_formed_replace doc d0 rows :
  well_formed rows → In d0 rows → _id doc = _id d0 → classCode doc = classCode d0 →
  well_formed (map (λ d, if String.eqb (_id d) (_id doc) then doc else d) rows).
Proof.
  intros Hwf Hin Hid Hcode. pose proof Hwf as (Hids & Hcodes & Hshape).
  split; [by rewrite (map_replaced _id doc d0)|].
  split; [by rewrite (map_replaced classCode doc d0)|].
  apply (Forall_map classCode (λ c, is_class_code c = true)).
  rewrite (map_replaced classCode doc d0) by done. by apply Forall_map.
Qed.

Lemma pre_save_coded now draws doc rows :
  is_class_code (classCode doc) = true →
  pre_save now draws doc rows = Some (set_updatedAt now doc).
Proof. intros Hc. unfold pre_save. by rewrite (class_code_truthy _ Hc). Qed.

End Collection.

Section Trim.
Import ClassModel.

Lemma trimStart_head v :
  trimStart v = EmptyString ∨
  ∃ c r, trimStart v = String c r ∧ whitespace c = false.
Proof.
  induction v as [|c v IH]; [by left|]. cbn [trimStart].
  destruct (whitespace c) eqn:Hc; [done|]. right. by exists c, v.
Qed.

Lemma trimEnd_head c r :
  whitespace c = false → ∃ r', trimEnd (String c r) = String c r'.
Proof.
  intros Hc. cbn [trimEnd]. rewrite Hc. destruct (trimEnd r); by eexists.
Qed.

Lemma trimEnd_idem v : trimEnd (trimEnd v) = trimEnd v.
Proof.
  induction v as [|c v IH]; [done|]. cbn [trimEnd].
  destruct (trimEnd v) as [|k kept] eqn:Hv.
  - destruct (whitespace c) eqn:Hc; [done|]. cbn [trimEnd]. by rewrite Hc.
  - change (trimEnd (String c (String k kept)))
      with (match trimEnd (String k kept) with
            | EmptyString => if whitespace c then EmptyString else String c EmptyString
            | kept' => String c kept'
            end).
    by rewrite IH.
Qed.

Lemma trim_idem v : trim (trim v) = trim v.
Proof.
  unfold trim. destruct (trimStart_head v) as [->|(c & r & -> & Hc)]; [done|].
  destruct (trimEnd_head c r Hc) as [r' Hr']. rewrite Hr'.
  cbn [trimStart]. rewrite Hc, <- Hr'. apply trimEnd_idem.
Qed.

End Trim.

Section RouteFacts.
Import ClassDirectory ClassModel ClassRoutes.

Variable cast : string → option string.

Lemma find_by_id_In d0 rows :
  well_formed rows → In d0 rows →
  List.find (λ d, String.eqb (_id d) (_id d0)) rows = Some d0.
Proof.
  intros (Hids & _) Hin.
  destruct (List.find _ rows) as [d|] eqn:Hfind.
  - apply find_by_id in Hfind as [Hd Hid]. f_equal.
    by apply (NoDup_map_inj _id rows).
  - by destruct (find_by_id_None _ _ Hfind d0 Hin).
Qed.

Lemma insertOne_fresh doc rows :
  ¬ In (_id doc) (map _id rows) → ¬ In (classCode doc) (map classCode rows) →
  insertOne doc rows = inr (rows ++ [doc]).
Proof.
  intros Hid Hcode. unfold insertOne.
  destruct (existsb _ rows) eqn:Hex; [|done]. exfalso.
  apply existsb_exists in Hex as (d & Hd & Hor).
  apply orb_prop in Hor as [Heq%String.eqb_eq|Heq%String.eqb_eq].
  - apply Hid. rewrite <- Heq. by apply in_map.
  - apply Hcode. rewrite <- Heq. by apply in_map.
Qed.

(** The answers of [PATCH /:id] over a well-formed collection. *)
Lemma router_patch_inv now draws userId id cn ia rows rows' res :
  well_formed rows →
  router_patch cast now draws userId id cn ia rows = Some (rows', res) →
  (rows' = rows ∧ (status res = 500 ∨ status res = 404 ∨ status res = 403)) ∨
  ∃ d0 doc,
    In d0 rows ∧ cast id = Some (_id d0) ∧ teacherId d0 = userId ∧
    _id doc = _id d0 ∧ classCode doc = classCode d0 ∧
    teacherId doc = teacherId d0 ∧ createdAt doc = createdAt d0 ∧
    ClassModel.className doc
    = match cn with Some v => trim v | None => ClassModel.className d0 end ∧
    ClassModel.isActive doc
    = match ia with Some v => v | None => ClassModel.isActive d0 end ∧
    validate doc = true ∧
    rows' = map (λ d, if String.eqb (_id d) (_id d0) then doc else d) rows ∧
    res = mkResponse 200 (Updated "Class updated successfully" doc).
Proof.
  intros Hwf. unfold router_patch, findById.
  destruct (cast id) as [oid|] eqn:Hcast; [|intros [= <- <-]; left; auto].
  destruct (List.find _ rows) as [d0|] eqn:Hfind; [|intros [= <- <-]; left; auto].
  apply find_by_id in Hfind as [Hin <-].
  destruct (String.eqb_spec (teacherId d0) userId) as [Hown|_];
    [|intros [= <- <-]; left; auto].
  cbn [negb]. cbv zeta.
  set (doc := match ia with
              | Some v => set_isActive v _
              | None => _
              end).
  assert (_id doc = _id d0 ∧ classCode doc = classCode d0 ∧
          teacherId doc = teacherId d0 ∧ createdAt doc = createdAt d0 ∧
          ClassModel.className doc
          = match cn with Some v => trim v | None => ClassModel.className d0 end ∧
          ClassModel.isActive doc
          = match ia with Some v => v | None => ClassModel.isActive d0 end)
    as (Hi & Hc & Ht & Hcr & Hn & Ha) by (subst doc; by destruct cn, ia).
  unfold save. destruct (validate doc) eqn:Hvalid; [|intros [= <- <-]; left; auto].
  cbn [negb]. pose proof Hwf as (_ & _ & Hshape). rewrite Forall_forall in Hshape.
  rewrite pre_save_coded
    by (rewrite Hc; by apply Hshape, list_elem_of_In).
  rewrite (updateOne_same_code _ d0) by done.
  change (_id (set_updatedAt now doc)) with (_id doc). rewrite Hi.
  intros [= <- <-]. right. exists d0, (set_updatedAt now doc).
  by repeat split.
Qed.

Lemma router_patch_answers now draws userId id cn ia rows :
  well_formed rows →
  is_Some (router_patch cast now draws userId id cn ia rows).
Proof.
  intros Hwf. unfold router_patch, findById.
  destruct (cast id) as [oid|] eqn:Hcast; [|by eexists].
  destruct (List.find _ rows) as [d0|] eqn:Hfind; [|by eexists].
  apply find_by_id in Hfind as [Hin Hid].
  destruct (negb _); [by eexists|]. cbv zeta.
  set (doc := match ia with
              | Some v => set_isActive v _
              | None => _
              end).
  assert (_id doc = _id d0 ∧ classCode doc = classCode d0) as [Hi Hc]
    by (subst doc; by destruct cn, ia).
  unfold save. destruct (validate doc); [|by eexists].
  cbn [negb]. pose proof Hwf as (_ & _ & Hshape). rewrite Forall_forall in Hshape.
  rewrite pre_save_coded
    by (rewrite Hc; by apply Hshape, list_elem_of_In).
  rewrite (updateOne_same_code _ d0) by done. by eexists.
Qed.

Lemma router_post_inv now draws oid userId cn rows rows' res :
  router_post cast now draws oid userId cn rows = Some (rows', res) →
  (rows' = rows ∧ (status res = 400 ∨ status res = 500)) ∨
  ∃ teacher draw,
    let doc := mkDoc oid (trim (default EmptyString cn)) (code_of draw) teacher
                 false now now in
    cast userId = Some teacher ∧ In draw draws ∧ validate doc = true ∧
    insertOne doc rows = inr rows' ∧
    res = mkResponse 201
            (Created "Class created successfully" oid
               (trim (default EmptyString cn)) (code_of draw) false now).
Proof.
  unfold router_post. cbv zeta.
  destruct (validationResult _); [|intros [= <- <-]; left; auto].
  unfold create. destruct (cast userId) as [teacher|]; [|intros [= <- <-]; left; auto].
  unfold save, className_setter. rewrite trim_idem.
  destruct (validate _) eqn:Hvalid; [|intros [= <- <-]; left; auto].
  cbn [negb]. unfold pre_save. cbn [classCode truthy].
  destruct (generate draws rows) as [code|] eqn:Hgen; [|done].
  apply generate_first in Hgen as (taken & draw & rest & -> & -> & _ & _).
  rewrite (class_code_fixed _ (code_of_shape draw)).
  cbn [set_classCode set_updatedAt _id ClassModel.className classCode teacherId
         ClassModel.isActive createdAt updatedAt].
  destruct (insertOne _ rows) as [failure|rows1] eqn:Hins;
    intros [= <- <-]; [left; auto|].
  right. exists teacher, draw. cbv zeta. split; [done|].
  split; [apply in_app_iff; right; by left|]. by repeat split.
Qed.

Lemma serve_invariant r rows rows' res :
  well_formed rows ∧ Forall (λ d, validate d = true) rows →
  serve cast r rows = Some (rows', res) →
  well_formed rows' ∧ Forall (λ d, validate d = true) rows'.
Proof.
  intros [Hwf Hnames]. destruct r as [now draws oid userId cn
                                     |now draws userId id cn ia|userId id];
    cbn [serve].
  - intros [[-> _]|(teacher & draw & Hpost)]%router_post_inv; [done|].
    cbv zeta in Hpost. destruct Hpost as (_ & _ & Hvalid & Hins & _). split.
    + eapply well_formed_insert; [done| |exact Hins]. apply code_of_shape.
    + apply insertOne_inr in Hins as (-> & _). apply Forall_app. split; [done|].
      by constructor.
  - intros [[-> _]|(d0 & doc & Hin & _ & _ & Hi & Hc & _ & _ & _ & _ & Hvalid
                    & -> & _)]%router_patch_inv; [done| |done].
    rewrite <- Hi. split; [by apply (well_formed_replace doc d0)|].
    apply Forall_map. eapply Forall_impl; [exact Hnames|]. intros d Hd. cbn.
    by destruct (String.eqb (_id d) (_id doc)).
  - unfold router_delete, findById.
    destruct (cast id) as [oid|]; [|by intros [= <- _]].
    destruct (List.find _ rows) as [d0|]; [|by intros [= <- _]].
    destruct (negb _); intros [= <- _]; [done|]. split.
    + by apply well_formed_delete.
    + unfold deleteOne. apply Forall_forall. intros d Hd%list_elem_of_In%filter_In.
      rewrite Forall_forall in Hnames. by apply Hnames, list_elem_of_In, Hd.
Qed.

Lemma serve_all_invariant rs rows rows' :
  well_formed rows ∧ Forall (λ d, validate d = true) rows →
  serve_all cast rs rows = Some rows' →
  well_formed rows' ∧ Forall (λ d, validate d = true) rows'.
Proof.
  revert rows. induction rs as [|r rs IH]; intros rows Hinv; cbn [serve_all].
  - by intros [= <-].
  - destruct (serve cast r rows) as [[rows1 res]|] eqn:Hserve; [|done].
    apply IH. by apply (serve_invariant r rows rows1 res).
Qed.

End RouteFacts.

(** X18. Whatever requests the class routes have served since the
    collection was empty, the collection meets what the class lookup of the
    socket handlers relies on: identifiers and class codes are unique, every
    code has six upper-case hexadecimal digits and is stored as the
    [uppercase] setter leaves it, and every class has a name that passes the
    schema (not blank, at most 100 characters). *)
Theorem routes_keep_collection_well_formed
    (cast : string → option string) (rs : list ClassRoutes.Request)
    (rows : list ClassModel.Doc) :
  ClassRoutes.serve_all cast rs [] = Some rows →
  ClassModel.well_formed rows ∧
  ClassDirectory.stored (ClassModel.directory rows) ∧
  ClassDirectory.unique_codes (ClassModel.directory rows) ∧
  Forall (λ d, ClassModel.validate d = true) rows.
Proof.
  intros Hserve.
  assert (ClassModel.well_formed [] ∧ Forall (λ d, ClassModel.validate d = true) [])
    as Hinit.
  { split; [|constructor]. repeat split; cbn [map]; try apply NoDup_nil_2.
    constructor. }
  destruct (serve_all_invariant cast rs [] rows Hinit Hserve) as [Hwf Hnames].
  destruct (well_formed_directory rows Hwf) as [Hst Hun]. done.
Qed.

(** X19. [PATCH /:id] and [DELETE /:id] change nothing for a user who does
    not own the addressed class: whatever the body, both leave the
    collection as it is and answer 403 when the class exists, and 404 or 500
    when the identifier names no class or is malformed. *)
Theorem stranger_cannot_change_class
    (cast : string → option string) (now : N) (draws : list ClassModel.Draw)
    (userId id : string) (className : option string) (isActive : option bool)
    (rows : list ClassModel.Doc) :
  (∀ d, In d rows → cast id = Some (ClassModel._id d) →
        ClassModel.teacherId d ≠ userId) →
  ∃ res,
    ClassRoutes.router_patch cast now draws userId id className isActive rows
    = Some (rows, res) ∧
    ClassRoutes.router_delete cast userId id rows = (rows, res) ∧
    (ClassRoutes.status res = 403 ∨ ClassRoutes.status res = 404 ∨
     ClassRoutes.status res = 500) ∧
    ((∃ d, In d rows ∧ cast id = Some (ClassModel._id d)) →
     res = ClassRoutes.mkResponse 403 (ClassRoutes.Failed "Not authorized")).
Proof.
  intros Hstranger.
  unfold ClassRoutes.router_patch, ClassRoutes.router_delete, ClassModel.findById.
  destruct (cast id) as [oid|] eqn:Hcast.
  - destruct (List.find _ rows) as [d0|] eqn:Hfind.
    + apply find_by_id in Hfind as [Hin <-].
      destruct (String.eqb_spec (ClassModel.teacherId d0) userId) as [Hown|_];
        [by destruct (Hstranger d0 Hin eq_refl)|].
      cbn [negb]. eexists. repeat split; cbn; auto.
    + eexists. repeat split; cbn; auto.
      intros (d & Hin & [= ->]).
      by destruct (find_by_id_None _ _ Hfind d Hin).
  - eexists. repeat split; cbn; auto. by intros (d & _ & [=]).
Qed.

(** X20. [PATCH /:id] always answers over a well-formed collection and
    never touches what identifies a class: after the request every document
    has the identifier, class code, owner and creation date it had before
    (the hook of the model generates no new code for a stored class), the
    collection changes only with a 200 answer, and a name that is blank
    after trimming is refused without a write. *)
Theorem patch_keeps_identity
    (cast : string → option string) (now : N) (draws : list ClassModel.Draw)
    (userId id : string) (className : option string) (isActive : option bool)
    (rows : list ClassModel.Doc) :
  ClassModel.well_formed rows →
  ∃ rows' res,
    ClassRoutes.router_patch cast now draws userId id className isActive rows
    = Some (rows', res) ∧
    map ClassModel._id rows' = map ClassModel._id rows ∧
    map ClassModel.classCode rows' = map ClassModel.classCode rows ∧
    map ClassModel.teacherId rows' = map ClassModel.teacherId rows ∧
    map ClassModel.createdAt rows' = map ClassModel.createdAt rows ∧
    (ClassRoutes.status res = 200 ∨ rows' = rows) ∧
    (∀ v, className = Some v → ClassModel.trim v = EmptyString →
          rows' = rows ∧ ClassRoutes.status res ≠ 200).
Proof.
  intros Hwf.
  destruct (router_patch_answers cast now draws userId id className isActive rows Hwf)
    as [[rows' res] Hpatch].
  exists rows', res. split; [done|].
  destruct (router_patch_inv cast _ _ _ _ _ _ _ _ _ Hwf Hpatch)
    as [[-> Hstatus]|(d0 & doc & Hin & _ & _ & Hi & Hc & Ht & Hcr & Hn & _ & Hvalid
                      & -> & ->)].
  - repeat split; auto. intros Hok. rewrite Hok in Hstatus.
    by destruct Hstatus as [?|[?|?]].
  - rewrite <- Hi.
    rewrite (map_replaced ClassModel._id doc d0),
      (map_replaced ClassModel.classCode doc d0),
      (map_replaced ClassModel.teacherId doc d0),
      (map_replaced ClassModel.createdAt doc d0) by done.
    do 4 (split; [done|]). split; [by left|].
    intros v -> Hblank. exfalso. unfold ClassModel.validate in Hvalid.
    rewrite Hn, Hblank in Hvalid. discriminate Hvalid.
Qed.

Section Lifecycle.
Import ClassDirectory ClassModel ClassRoutes.

Lemma validationResult_nil v :
  validationResult v = [] →
  truthy v = true ∧ (String.length v <=? 100)%nat = true.
Proof.
  unfold validationResult.
  destruct (truthy v); [|done]. by destruct (String.length v <=? 100)%nat.
Qed.

Lemma findOne_spelling req d rows :
  well_formed rows → In d rows → same_modulo_case req (classCode d) →
  findOne req (directory rows) = Some (entry d).
Proof.
  intros Hwf Hin Hcase. destruct (well_formed_directory rows Hwf) as [_ Hun].
  apply findOne_Some; [done|by apply in_map|].
  destruct Hwf as (_ & _ & Hshape). rewrite Forall_forall in Hshape.
  cbn [code entry]. unfold classCode_setter. rewrite Hcase.
  symmetry. by apply class_code_fixed, Hshape, list_elem_of_In.
Qed.

Lemma find_map_filter_skip {A B} (f : B → bool) (g : A → B) (p : A → bool) l :
  (∀ x, In x l → p x = false → f (g x) = false) →
  List.find f (map g (List.filter p l)) = List.find f (map g l).
Proof.
  induction l as [|a l IH]; intros Hskip; [done|]. cbn [List.filter].
  destruct (p a) eqn:Hp; cbn [map List.find].
  - destruct (f (g a)); [done|]. apply IH. intros x Hx. apply Hskip. by right.
  - rewrite (Hskip a (or_introl eq_refl) Hp). apply IH.
    intros x Hx. apply Hskip. by right.
Qed.

Lemma settled_join_classes promise sid name req uuid dir s :
  pending s !! promise = Some (AwaitFindJoin sid name req uuid) →
  settled promise true (set_classes dir s)
  = join_class_resume sid name req uuid (findOne req dir)
      (set_pending (delete promise (pending s)) (set_classes dir s)).
Proof. intros Hlook. by rewrite (settled_join promise sid name req uuid). Qed.

End Lifecycle.

(** X21. A class created through [POST /] is closed until its owner opens
    it.  A valid request with a fresh identifier answers 201 as soon as one
    of the draws is a code no class carries; the class is stored inactive,
    so a join under any spelling of the returned code is answered
    'Class is not currently active'.  After the owner's
    [PATCH /:id] with [isActive: true], answered 200, the same join is
    accepted while the class has room. *)
Theorem new_class_closed_until_owner_opens
    (cast : string → option string) (now : N) (draws : list ClassModel.Draw)
    (oid userId name : string) (rows : list ClassModel.Doc) :
  ClassModel.well_formed rows →
  cast oid = Some oid → cast userId = Some userId →
  ¬ In oid (map ClassModel._id rows) →
  ClassRoutes.validationResult (ClassModel.trim name) = [] →
  Exists (λ d, ClassDirectory.findOne (ClassModel.code_of d)
                 (ClassModel.directory rows) = None) draws →
  ∃ code rows1,
    ClassRoutes.router_post cast now draws oid userId (Some name) rows
    = Some (rows1,
            ClassRoutes.mkResponse 201
              (ClassRoutes.Created "Class created successfully" oid
                 (ClassModel.trim name) code false now)) ∧
    ClassModel.is_class_code code = true ∧
    (∀ s promise sid student req uuid,
       ClassDirectory.same_modulo_case req code →
       pending s !! promise = Some (AwaitFindJoin sid student req uuid) →
       (settled promise true (set_classes (ClassModel.directory rows1) s)).2
       = [emit_self sid (join_error "Class is not currently active")]) ∧
    ∀ now' draws', ∃ rows2 res2,
      ClassRoutes.router_patch cast now' draws' userId oid None (Some true) rows1
      = Some (rows2, res2) ∧
      ClassRoutes.status res2 = 200 ∧
      ∀ s promise sid student req uuid,
        ClassDirectory.same_modulo_case req code →
        pending s !! promise = Some (AwaitFindJoin sid student req uuid) →
        (length (currentStudents req s) < MAX_STUDENTS_PER_CLASS)%nat →
        In (emit_self sid (join_success uuid uuid sid true))
           (settled promise true (set_classes (ClassModel.directory rows2) s)).2.
Proof.
  intros Hwf Hoid Huser Hfresh Hvalid Hex.
  apply validationResult_nil in Hvalid as Hname. destruct Hname as [Hn1 Hn2].
  destruct (generate_returns draws rows Hex) as [code Hgen].
  destruct (generate_first draws rows code Hgen)
    as (taken & draw & rest & _ & -> & Hnone & _).
  pose proof (code_of_shape draw) as Hshape.
  pose proof (class_code_fixed _ Hshape) as Hfix.
  set (code := ClassModel.code_of draw) in *.
  set (d1 := ClassModel.mkDoc oid (ClassModel.trim name) code userId false now now).
  assert (ClassModel.insertOne d1 rows = inr (rows ++ [d1])) as Hins.
  { apply insertOne_fresh; [done|]. by apply findOne_absent. }
  assert (ClassModel.well_formed (rows ++ [d1])) as Hwf1
    by (by apply (well_formed_insert d1 rows)).
  assert (In d1 (rows ++ [d1])) as Hin1 by (apply in_app_iff; right; by left).
  exists code, (rows ++ [d1]). split; [|split; [done|split]].
  - unfold ClassRoutes.router_post. cbv zeta.
    change (default EmptyString (Some name)) with name. rewrite Hvalid.
    unfold ClassModel.create. rewrite Huser.
    unfold ClassModel.save, ClassModel.className_setter. rewrite trim_idem.
    unfold ClassModel.validate. cbn [ClassModel.className]. rewrite Hn1, Hn2.
    cbn [negb andb]. unfold ClassModel.pre_save. cbn [ClassModel.classCode truthy].
    rewrite Hgen, Hfix.
    change (ClassModel.set_updatedAt now
              (ClassModel.set_classCode code
                 (ClassModel.mkDoc oid (ClassModel.trim name) EmptyString userId
                    false now now))) with d1.
    by rewrite Hins.
  - intros s promise sid student req uuid Hcase Hlook.
    rewrite (settled_join_classes promise sid student req uuid) by done.
    rewrite (findOne_spelling req d1) by done. reflexivity.
  - intros now' draws'.
    set (d2 := ClassModel.set_updatedAt now' (ClassModel.set_isActive true d1)).
    exists (map (λ d, if String.eqb (ClassModel._id d) oid then d2 else d)
              (rows ++ [d1])),
      (ClassRoutes.mkResponse 200
         (ClassRoutes.Updated "Class updated successfully" d2)).
    split; [|split; [done|]].
    + unfold ClassRoutes.router_patch, ClassModel.findById. rewrite Hoid.
      pose proof (find_by_id_In d1 (rows ++ [d1]) Hwf1 Hin1) as Hfind.
      change (ClassModel._id d1) with oid in Hfind. rewrite Hfind.
      change (ClassModel.teacherId d1) with userId.
      rewrite String.eqb_refl. cbn [negb]. cbv zeta.
      unfold ClassModel.save, ClassModel.validate.
      cbn [ClassModel.className ClassModel.set_isActive d1]. rewrite Hn1, Hn2.
      cbn [negb andb]. rewrite pre_save_coded by exact Hshape.
      by rewrite (updateOne_same_code _ d1).
    + intros s promise sid student req uuid Hcase Hlook Hroom.
      rewrite (settled_join_classes promise sid student req uuid) by done.
      assert (ClassModel.well_formed
                (map (λ d, if String.eqb (ClassModel._id d) oid then d2 else d)
                   (rows ++ [d1]))) as Hwf2
        by (by apply (well_formed_replace d2 d1)).
      assert (In d2 (map (λ d, if String.eqb (ClassModel._id d) oid then d2 else d)
                       (rows ++ [d1]))) as Hin2.
      { apply in_map_iff. exists d1. split; [|done].
        cbn [ClassModel._id d1]. by rewrite String.eqb_refl. }
      rewrite (findOne_spelling req d2) by done.
      rewrite join_class_resume_admitted by done.
      right. right. by left.
Qed.

(** X22. [DELETE /:id] by the owner answers 200 and removes exactly the
    addressed class: afterwards no spelling of its code resolves, a join
    under it is answered 'Invalid class code', and every request that does
    not spell this code resolves as before. *)
Theorem deleted_class_is_gone
    (cast : string → option string) (userId id : string)
    (rows : list ClassModel.Doc) (d0 : ClassModel.Doc) :
  ClassModel.well_formed rows →
  In d0 rows → cast id = Some (ClassModel._id d0) →
  ClassModel.teacherId d0 = userId →
  let rows' := (ClassRoutes.router_delete cast userId id rows).1 in
  ClassRoutes.status (ClassRoutes.router_delete cast userId id rows).2 = 200 ∧
  (∀ d, In d rows' ↔ In d rows ∧ d ≠ d0) ∧
  (∀ req, ClassDirectory.same_modulo_case req (ClassModel.classCode d0) →
          ClassDirectory.findOne req (ClassModel.directory rows') = None) ∧
  (∀ req, ¬ ClassDirectory.same_modulo_case req (ClassModel.classCode d0) →
          ClassDirectory.findOne req (ClassModel.directory rows')
          = ClassDirectory.findOne req (ClassModel.directory rows)) ∧
  ∀ s promise sid student req uuid,
    ClassDirectory.same_modulo_case req (ClassModel.classCode d0) →
    pending s !! promise = Some (AwaitFindJoin sid student req uuid) →
    (settled promise true (set_classes (ClassModel.directory rows') s)).2
    = [emit_self sid (join_error "Invalid class code")].
Proof.
  intros Hwf Hin Hcast Hown rows'.
  assert (ClassRoutes.router_delete cast userId id rows
          = (ClassModel.deleteOne d0 rows,
             ClassRoutes.mkResponse 200
               (ClassRoutes.Deleted "Class deleted successfully"))) as Hdel.
  { unfold ClassRoutes.router_delete, ClassModel.findById.
    rewrite Hcast, (find_by_id_In d0 rows Hwf Hin), Hown, String.eqb_refl.
    reflexivity. }
  subst rows'. rewrite Hdel. cbn [fst snd ClassRoutes.status].
  pose proof Hwf as (Hids & Hcodes & Hshape). rewrite Forall_forall in Hshape.
  assert (∀ d, In d (ClassModel.deleteOne d0 rows) ↔ In d rows ∧ d ≠ d0) as Hrows.
  { intros d. unfold ClassModel.deleteOne. rewrite filter_In, negb_true_iff.
    split; intros [Hd Hne]; (split; [done|]).
    - intros ->. by rewrite String.eqb_refl in Hne.
    - apply String.eqb_neq. intros Heq. apply Hne.
      by apply (NoDup_map_inj ClassModel._id rows). }
  assert (ClassDirectory.classCode_setter (ClassModel.classCode d0)
          = ClassModel.classCode d0) as Hfix
    by (by apply class_code_fixed, Hshape, list_elem_of_In).
  assert (∀ req, ClassDirectory.same_modulo_case req (ClassModel.classCode d0) →
                 ClassDirectory.findOne req
                   (ClassModel.directory (ClassModel.deleteOne d0 rows)) = None)
    as Hgone.
  { intros req Hcase. apply findOne_None.
    intros e (d & <- & [Hd Hne]%Hrows)%in_map_iff Hcode. apply Hne.
    apply (NoDup_map_inj ClassModel.classCode rows); [done..|].
    cbn [ClassDirectory.code ClassModel.entry] in Hcode. rewrite Hcode.
    unfold ClassDirectory.classCode_setter. rewrite Hcase. exact Hfix. }
  split; [done|]. split; [done|]. split; [done|]. split.
  - intros req Hcase. unfold ClassDirectory.findOne, ClassModel.directory,
      ClassModel.deleteOne.
    assert (∀ d, In d rows → String.eqb (ClassModel._id d) (ClassModel._id d0) = true →
                 String.eqb (ClassModel.classCode d)
                   (ClassDirectory.classCode_setter req) = false) as Hskip.
    { intros d Hd Heq%String.eqb_eq. apply String.eqb_neq. intros Hcode.
      apply Hcase. unfold ClassDirectory.same_modulo_case.
      rewrite (NoDup_map_inj ClassModel._id rows d d0 Hids Hd Hin Heq) in Hcode.
      unfold ClassDirectory.classCode_setter in Hcode, Hfix. by rewrite <- Hcode. }
    apply (find_map_filter_skip _ ClassModel.entry).
    intros d Hd Hp%negb_false_iff. by apply Hskip.
  - intros s promise sid student req uuid Hcase Hlook.
    rewrite (settled_join_classes promise sid student req uuid) by done.
    by rewrite Hgone.
Qed.

Lemma sample_rows_well_formed : ClassModel.well_formed sample_rows.
Proof.
  unfold ClassModel.well_formed, sample_rows. cbn [map].
  split; [apply NoDup_singleton|]. split; [apply NoDup_singleton|].
  by repeat constructor.
Qed.

Lemma sample_draws_fresh :
  Exists (λ d, ClassDirectory.findOne (ClassModel.code_of d)
                 (ClassModel.directory sample_rows) = None) sample_draws.
Proof. apply Exists_cons_tl, Exists_cons_hd. vm_compute. reflexivity. Qed.

Lemma generated_code_is_new_witness :
  ∃ taken draw rest,
    sample_draws = taken ++ draw :: rest ∧
    Forall (λ d, is_Some (ClassDirectory.findOne (ClassModel.code_of d)
                            (ClassModel.directory sample_rows))) taken ∧
    ClassModel.pre_save 5000 sample_draws
      (ClassModel.mkDoc class2 "CSS" EmptyString bob false 5000 5000) sample_rows
    = Some (ClassModel.set_updatedAt 5000
              (ClassModel.set_classCode (ClassModel.code_of draw)
                 (ClassModel.mkDoc class2 "CSS" EmptyString bob false 5000 5000))) ∧
    ClassModel.is_class_code (ClassModel.code_of draw) = true ∧
    ∀ req, ClassDirectory.same_modulo_case req (ClassModel.code_of draw) →
           ClassDirectory.findOne req (ClassModel.directory sample_rows) = None.
Proof.
  apply (generated_code_is_new 5000 sample_draws
           (ClassModel.mkDoc class2 "CSS" EmptyString bob false 5000 5000)
           sample_rows).
  - reflexivity.
  - apply Exists_cons_tl, Exists_cons_hd. vm_compute. reflexivity.
Defined.

Lemma distinct_draws_distinct_codes_witness :
  ClassModel.code_of (Byte.xab, Byte.x12, Byte.xcd)
  ≠ ClassModel.code_of (Byte.xab, Byte.x12, Byte.xce).
Proof.
  apply (distinct_draws_distinct_codes (Byte.xab, Byte.x12, Byte.xcd)
           (Byte.xab, Byte.x12, Byte.xce)).
  discriminate.
Defined.

Lemma routes_keep_collection_well_formed_witness :
  ∃ rows,
    ClassRoutes.serve_all hex24 sample_requests [] = Some rows ∧
    ClassModel.well_formed rows ∧
    ClassDirectory.stored (ClassModel.directory rows) ∧
    ClassDirectory.unique_codes (ClassModel.directory rows) ∧
    Forall (λ d, ClassModel.validate d = true) rows.
Proof.
  eexists. split; [vm_compute; reflexivity|].
  apply (routes_keep_collection_well_formed hex24 sample_requests).
  vm_compute. reflexivity.
Defined.

Lemma stranger_cannot_change_class_witness :
  ∃ res,
    ClassRoutes.router_patch hex24 2000 [] bob class1 (Some "Mine") (Some false)
      sample_rows = Some (sample_rows, res) ∧
    ClassRoutes.router_delete hex24 bob class1 sample_rows = (sample_rows, res) ∧
    (ClassRoutes.status res = 403 ∨ ClassRoutes.status res = 404 ∨
     ClassRoutes.status res = 500) ∧
    ((∃ d, In d sample_rows ∧ hex24 class1 = Some (ClassModel._id d)) →
     res = ClassRoutes.mkResponse 403 (ClassRoutes.Failed "Not authorized")).
Proof.
  apply (stranger_cannot_change_class hex24 2000 [] bob class1 (Some "Mine")
           (Some false) sample_rows).
  intros d [<-|[]] _. discriminate.
Defined.

Lemma patch_keeps_identity_witness :
  ∃ rows' res,
    ClassRoutes.router_patch hex24 2000 [] ann class1 (Some "  ") (Some false)
      sample_rows = Some (rows', res) ∧
    map ClassModel._id rows' = map ClassModel._id sample_rows ∧
    map ClassModel.classCode rows' = map ClassModel.classCode sample_rows ∧
    map ClassModel.teacherId rows' = map ClassModel.teacherId sample_rows ∧
    map ClassModel.createdAt rows' = map ClassModel.createdAt sample_rows ∧
    (ClassRoutes.status res = 200 ∨ rows' = sample_rows) ∧
    (∀ v, Some "  " = Some v → ClassModel.trim v = EmptyString →
          rows' = sample_rows ∧ ClassRoutes.status res ≠ 200).
Proof.
  apply (patch_keeps_identity hex24 2000 [] ann class1 (Some "  ") (Some false)
           sample_rows).
  exact sample_rows_well_formed.
Defined.

Lemma new_class_closed_until_owner_opens_witness :
  ∃ code rows1,
    ClassRoutes.router_post hex24 5000 sample_draws class2 bob (Some " CSS grid ")
      sample_rows
    = Some (rows1,
            ClassRoutes.mkResponse 201
              (ClassRoutes.Created "Class created successfully" class2
                 (ClassModel.trim " CSS grid ") code false 5000)) ∧
    ClassModel.is_class_code code = true ∧
    (∀ s promise sid student req uuid,
       ClassDirectory.same_modulo_case req code →
       pending s !! promise = Some (AwaitFindJoin sid student req uuid) →
       (settled promise true (set_classes (ClassModel.directory rows1) s)).2
       = [emit_self sid (join_error "Class is not currently active")]) ∧
    ∀ now' draws', ∃ rows2 res2,
      ClassRoutes.router_patch hex24 now' draws' bob class2 None (Some true) rows1
      = Some (rows2, res2) ∧
      ClassRoutes.status res2 = 200 ∧
      ∀ s promise sid student req uuid,
        ClassDirectory.same_modulo_case req code →
        pending s !! promise = Some (AwaitFindJoin sid student req uuid) →
        (length (currentStudents req s) < MAX_STUDENTS_PER_CLASS)%nat →
        In (emit_self sid (join_success uuid uuid sid true))
           (settled promise true (set_classes (ClassModel.directory rows2) s)).2.
Proof.
  apply (new_class_closed_until_owner_opens hex24 5000 sample_draws class2 bob
           " CSS grid " sample_rows).
  - exact sample_rows_well_formed.
  - vm_compute. reflexivity.
  - vm_compute. reflexivity.
  - cbn [map sample_rows ClassModel._id]. intros [Heq|[]]. discriminate Heq.
  - vm_compute. reflexivity.
  - apply Exists_cons_tl, Exists_cons_hd. vm_compute. reflexivity.
Defined.

Lemma deleted_class_is_gone_witness :
  let d0 := ClassModel.mkDoc class1 "Web basics" "AB12CD" ann true 1000 1000 in
  let rows' := (ClassRoutes.router_delete hex24 ann class1 sample_rows).1 in
  ClassRoutes.status (ClassRoutes.router_delete hex24 ann class1 sample_rows).2 = 200 ∧
  (∀ d, In d rows' ↔ In d sample_rows ∧ d ≠ d0) ∧
  (∀ req, ClassDirectory.same_modulo_case req (ClassModel.classCode d0) →
          ClassDirectory.findOne req (ClassModel.directory rows') = None) ∧
  (∀ req, ¬ ClassDirectory.same_modulo_case req (ClassModel.classCode d0) →
          ClassDirectory.findOne req (ClassModel.directory rows')
          = ClassDirectory.findOne req (ClassModel.directory sample_rows)) ∧
  ∀ s promise sid student req uuid,
    ClassDirectory.same_modulo_case req (ClassModel.classCode d0) →
    pending s !! promise = Some (AwaitFindJoin sid student req uuid) →
    (settled promise true (set_classes (ClassModel.directory rows') s)).2
    = [emit_self sid (join_error "Invalid class code")].
Proof.
  apply (deleted_class_is_gone hex24 ann class1 sample_rows
           (ClassModel.mkDoc class1 "Web basics" "AB12CD" ann true 1000 1000)).
  - exact sample_rows_well_formed.
  - by left.
  - vm_compute. reflexivity.
  - reflexivity.
Defined.
